(** * Fee reconciliation of card-transaction files (BRS treasury check)

    A shallow embedding of the two entry points of the repository,

    - [run_calc_commission_BRS.py]  (module [Commission_BRS] below), and
    - [run_calc_comission_BRS.py]   (module [Comission_BRS] below),

    together with the properties that the specification states about them.

    Python values are embedded as follows.

    - A Python [float] is an element of an abstract type [F]; its arithmetic,
      the two rounding functions ([round(x, 2)] of the language and
      [Series.round(2)] of pandas), [float(str)], [str(float)] and the text
      functions [str.strip] / [str.upper] are the operations of the class
      [PyRuntime].  Nothing is assumed about them except, where a statement
      says so explicitly, that rounding [0.0] gives [0.0] and that
      [0.0 == 0] holds.  [Decimal6] is a small exact instance used to
      evaluate the definitions on concrete rows.
    - A cell of a data frame is a text or a number ([cell]); a row is a
      finite map from column label to cell; a data frame is a list of column
      labels and a list of rows.
    - A raised exception is the [Raise] case of [result]; [try]/[except]
      blocks become matches on it.
    - The file system, the clock and the spreadsheet writer are the fields
      of a [World] record; what the program writes is returned as data. *)

From Stdlib Require Import Ascii String.
From stdpp Require Import base option list strings gmap.
Local Open Scope string_scope.

(** ** Exceptions *)

Inductive exn : Type :=
  | ValueError
  | KeyError
  | TypeError
  | UnicodeDecodeError
  | FileNotFoundError
  | OSError.

Inductive result (A : Type) : Type :=
  | Ok (a : A)
  | Raise (e : exn).
Arguments Ok {A} a.
Arguments Raise {A} e.

Definition bind {A B : Type} (r : result A) (k : A → result B) : result B :=
  match r with
  | Ok a => k a
  | Raise e => Raise e
  end.

Declare Scope result_scope.
Delimit Scope result_scope with result.
Notation "'let*' x ':=' r 'in' k" := (bind r (fun x => k))
  (at level 10, x pattern, r at level 100, k at level 200) : result_scope.
Local Open Scope result_scope.

Definition raises {A : Type} (r : result A) : Prop := ∃ e, r = Raise e.

(** [for x in l: acc = body(acc, x)], stopping at the first exception. *)
Fixpoint for_each {A S : Type} (body : S → A → result S) (l : list A) (acc : S)
  : result S :=
  match l with
  | [] => Ok acc
  | x :: l' => let* acc' := body acc x in for_each body l' acc'
  end.

(** [[f(x) for x in l]], stopping at the first exception. *)
Fixpoint map_result {A B : Type} (f : A → result B) (l : list A) : result (list B) :=
  match l with
  | [] => Ok []
  | x :: l' =>
      let* y := f x in
      let* ys := map_result f l' in
      Ok (y :: ys)
  end.

(** ** The Python runtime *)

Class PyRuntime (F : Type) := {
  (** [0.0] (and the integer [0], which compares equal to it) *)
  f_zero : F;
  (** the float denoted by the decimal literal [m * 10^e] of the source text *)
  float_lit : Z → Z → F;
  (** [x * y] and [x - y] on floats *)
  f_mul : F → F → F;
  f_sub : F → F → F;
  (** [x == y] on floats *)
  f_eqb : F → F → bool;
  (** [round(x, 2)] *)
  py_round2 : F → F;
  (** one element of [Series.round(2)] *)
  np_round2 : F → F;
  (** [float(s)] for a text [s]; [None] when it raises [ValueError] *)
  float_of_str : string → option F;
  (** [str(x)] for a float [x] *)
  str_of_float : F → string;
  (** [s.strip()] and [s.upper()] *)
  str_strip : string → string;
  str_upper : string → string;
}.

(** [s.replace(old, new)] for a one-character [old]. *)
Fixpoint str_replace (old : ascii) (new : string) (s : string) : string :=
  match s with
  | EmptyString => EmptyString
  | String c s' =>
      if Ascii.eqb c old then new +:+ str_replace old new s'
      else String c (str_replace old new s')
  end.

(** [s.endswith(suffix)] and [s.startswith(prefix)]. *)
Definition endswith (s suffix : string) : bool :=
  String.prefix (String.rev suffix) (String.rev s).
Definition startswith (s prefix : string) : bool :=
  String.prefix prefix s.

(** ** Cells, rows, data frames *)

Section Frames.
Context {F : Type} `{PyRuntime F}.

Inductive cell : Type :=
  | CStr (s : string)
  | CNum (x : F).

(** [str(v)] *)
Definition str (v : cell) : string :=
  match v with
  | CStr s => s
  | CNum x => str_of_float x
  end.

(** [float(v)] *)
Definition float (v : cell) : result F :=
  match v with
  | CStr s =>
      match float_of_str s with
      | Some x => Ok x
      | None => Raise ValueError
      end
  | CNum x => Ok x
  end.

(** [v != 0] *)
Definition cell_ne0 (v : cell) : bool :=
  match v with
  | CStr _ => true
  | CNum x => negb (f_eqb x f_zero)
  end.

(** [v != s] and [v == s] for a text constant [s] *)
Definition cell_eq_str (v : cell) (s : string) : bool :=
  match v with
  | CStr t => String.eqb t s
  | CNum _ => false
  end.

(** [a - b]; a text operand raises [TypeError]. *)
Definition cell_sub (a b : cell) : result F :=
  match a, b with
  | CNum x, CNum y => Ok (f_sub x y)
  | _, _ => Raise TypeError
  end.

Record DataFrame : Type := {
  columns : list string;
  rows : list (gmap string cell);
}.

(** [pd.DataFrame()] *)
Definition empty_frame : DataFrame := {| columns := []; rows := [] |}.

(** [df.empty]: some axis has length zero. *)
Definition df_empty (df : DataFrame) : bool :=
  match columns df, rows df with
  | [], _ => true
  | _, [] => true
  | _, _ => false
  end.

(** [row[col]] on one row *)
Definition getitem (row : gmap string cell) (col : string) : result cell :=
  match row !! col with
  | Some v => Ok v
  | None => Raise KeyError
  end.

(** The label list after [df[col] = ...]: a new label goes last. *)
Definition add_column (cols : list string) (col : string) : list string :=
  if bool_decide (col ∈ cols) then cols else cols ++ [col].

(** [df[col] = df[col].apply(f)] *)
Definition series_apply (col : string) (f : cell → result F) (df : DataFrame)
  : result DataFrame :=
  let* rows' :=
    map_result (fun row =>
                  let* v := getitem row col in
                  let* x := f v in
                  Ok (<[col := CNum x]> row)) (rows df) in
  Ok {| columns := columns df; rows := rows' |}.

(** [df[col] = df.apply(f, axis=1)] *)
Definition assign_apply (col : string) (f : gmap string cell → result F)
           (df : DataFrame) : result DataFrame :=
  let* rows' :=
    map_result (fun row => let* x := f row in Ok (<[col := CNum x]> row)) (rows df) in
  Ok {| columns := add_column (columns df) col; rows := rows' |}.

(** [df[col] = value] for a scalar [value] *)
Definition assign_const (col : string) (value : cell) (df : DataFrame) : DataFrame :=
  {| columns := add_column (columns df) col;
     rows := (fun row => <[col := value]> row) <$> rows df |}.

(** [df[df[col] != 0]]; a missing value is NaN, which differs from 0. *)
Definition row_ne0 (col : string) (row : gmap string cell) : bool :=
  match row !! col with
  | Some v => cell_ne0 v
  | None => true
  end.
Definition select_ne0 (col : string) (df : DataFrame) : DataFrame :=
  {| columns := columns df; rows := List.filter (row_ne0 col) (rows df) |}.

(** [pd.concat([a, b], ignore_index=True)]: the rows of [a], then those of
    [b]; the labels of [a], then the labels only [b] has. *)
Definition concat (a b : DataFrame) : DataFrame :=
  {| columns := columns a ++ List.filter (fun c => negb (bool_decide (c ∈ columns a))) (columns b);
     rows := rows a ++ rows b |}.

(** Every row has a cell under every label of the frame. *)
Definition frame_wf (df : DataFrame) : bool :=
  forallb (fun row => forallb (fun c => bool_decide (is_Some (row !! c))) (columns df))
          (rows df).

End Frames.

Arguments cell F : clear implicits.
Arguments DataFrame F : clear implicits.

(** ** The outside world *)

(** A path is kept as the pair that [os.path.dirname] and [os.path.basename]
    split it into; [os.path.join(d, f)] builds [{| dirname := d; basename := f |}]. *)
Record Path : Type := {
  dirname : string;
  basename : string;
}.

Record World (F : Type) : Type := {
  (** [os.getcwd()] and [os.listdir(os.getcwd())] *)
  getcwd : string;
  listdir : list string;
  (** [os.path.exists(path)] *)
  path_exists : Path → bool;
  (** [pd.read_excel(path)] *)
  read_excel : Path → result (DataFrame F);
  (** [pd.read_csv(path, encoding=enc, delimiter=';', decimal=',')] *)
  read_csv : Path → option string → result (DataFrame F);
  (** [chardet.detect(first 10000 bytes of path)['encoding']] *)
  chardet_detect : Path → result (option string);
  (** the [with pd.ExcelWriter(path, engine='openpyxl')] block that stores
      a frame as a workbook and fills its cells: how the block is left *)
  excel_writer : Path → DataFrame F → result unit;
  (** whether the workbook is on disk once the block has been left by an
      exception: [ExcelWriter.__exit__] saves the workbook also when the
      body of the block raises, so that only a writer that could not be
      opened, or a saving that fails, leaves none *)
  excel_saved : Path → DataFrame F → bool;
  (** [datetime.now().strftime('%Y-%m-%d %H:%M:%S')] *)
  now : string;
}.
Arguments getcwd {F} w.
Arguments listdir {F} w.
Arguments path_exists {F} w p.
Arguments read_excel {F} w p.
Arguments read_csv {F} w p enc.
Arguments chardet_detect {F} w p.
Arguments excel_writer {F} w p df.
Arguments excel_saved {F} w p df.
Arguments now {F} w.

(** What a run leaves of [results.xlsx]. *)
Inductive report_effect (F : Type) : Type :=
  | Untouched
  | Truncated
  | Written (report : DataFrame F).
Arguments Untouched {F}.
Arguments Truncated {F}.
Arguments Written {F} report.

Record Run (F : Type) : Type := {
  (** the value [main] returns, or the exception that leaves it *)
  returned : result (DataFrame F);
  (** the [*_processed.xlsx] workbooks saved, in order, each with the
      frame handed to [to_excel] *)
  processed : list (Path * DataFrame F);
  (** the effect on [results.xlsx] *)
  results_xlsx : report_effect F;
}.
Arguments returned {F} r.
Arguments processed {F} r.
Arguments results_xlsx {F} r.

(** [os.path.splitext(name)[0]] for a name without separators. *)
Fixpoint after_first_dot (s : string) : option string :=
  match s with
  | EmptyString => None
  | String c s' => if Ascii.eqb c "." then Some s' else after_first_dot s'
  end.

Fixpoint only_dots (s : string) : bool :=
  match s with
  | EmptyString => true
  | String c s' => Ascii.eqb c "." && only_dots s'
  end.

Definition splitext_root (name : string) : string :=
  match after_first_dot (String.rev name) with
  | Some r => if only_dots r then name else String.rev r
  | None => name
  end.

(** Column labels and the purchase marker, as the scripts spell them. *)
Definition PURCHASE : string := "ПОКУПКА".
Definition FEE_COL : string := "Комиссия (расчет)".
Definition DELTA_COL : string := "Разница (F - U)".
Definition FILE_COL : string := "Файл".
Definition TIME_COL : string := "Время обработки".
Definition CARD_TYPE_COL : string := "Тип карты".
Definition RATE_COL : string := "Ставка комиссии".

(** ** [run_calc_commission_BRS.py] *)

Module Commission_BRS.
Section Script.
Context {F : Type} `{PyRuntime F}.

(** [d[k]] on the rate dictionary *)
Definition dict_getitem (d : gmap string F) (k : string) : result F :=
  match d !! k with
  | Some v => Ok v
  | None => Raise KeyError
  end.

(** [d.setdefault(k, v)] *)
Definition setdefault (d : gmap string F) (k : string) (v : F) : gmap string F :=
  match d !! k with
  | Some _ => d
  | None => <[k := v]> d
  end.

Definition default_rates : gmap string F :=
  <["DEFAULT" := f_zero]>
  (<["AMEX" := float_lit 3 (-2)]>
  (<["CUP" := float_lit 165 (-4)]>
  (<["VISA" := float_lit 165 (-4)]>
  (<["MC" := float_lit 2 (-2)]>
  (<["MIR" := float_lit 142 (-4)]> ∅))))).

Definition setup_path (w : World F) : Path :=
  {| dirname := getcwd w; basename := "setup.xlsx" |}.

(** The body of the [for _, row in df.iterrows()] loop. *)
Definition load_row (commission_rates : gmap string F) (row : gmap string (cell F))
  : result (gmap string F) :=
  let* c := getitem row CARD_TYPE_COL in
  let card_type := str_upper (str_strip (str c)) in
  let* v := getitem row RATE_COL in
  let* rate := float v in
  Ok (<[card_type := rate]> commission_rates).

(** The [try] block of [load_commission_rates]. *)
Definition load_commission_rates_try (w : World F) : result (gmap string F) :=
  if negb (path_exists w (setup_path w)) then Ok default_rates
  else
    let* df := read_excel w (setup_path w) in
    if df_empty df then Ok default_rates
    else
      let* commission_rates := for_each load_row (rows df) ∅ in
      let* d := dict_getitem default_rates "DEFAULT" in
      Ok (setdefault commission_rates "DEFAULT" d).

Definition load_commission_rates (w : World F) : gmap string F :=
  match load_commission_rates_try w with
  | Ok commission_rates => commission_rates
  | Raise _ => default_rates
  end.

Definition detect_encoding (w : World F) (file_path : Path) : result (option string) :=
  chardet_detect w file_path.

(** [file_path.endswith(('.csv', '.dsv', '.dsvp'))]: none of the suffixes
    holds a separator, so the test is one on the base name. *)
Definition is_delimited (name : string) : bool :=
  endswith name ".csv" || endswith name ".dsv" || endswith name ".dsvp".

Definition read_file_with_encoding (w : World F) (file_path : Path)
  : result (DataFrame F * option string) :=
  match
    (if is_delimited (basename file_path) then
       match read_csv w file_path (Some "utf-8") with
       | Ok df => Ok (df, Some "utf-8")
       | Raise UnicodeDecodeError =>
           match read_csv w file_path (Some "windows-1251") with
           | Ok df => Ok (df, Some "windows-1251")
           | Raise UnicodeDecodeError =>
               let* encoding := detect_encoding w file_path in
               let* df := read_csv w file_path encoding in
               Ok (df, encoding)
           | Raise e => Raise e
           end
       | Raise e => Raise e
       end
     else
       let* df := read_excel w file_path in
       Ok (df, None))
  with
  | Ok r => Ok r
  | Raise _ => Raise ValueError
  end.

Definition convert_amount (value : cell F) : result F :=
  match value with
  | CStr s => float (CStr (str_replace "," "." (str_replace " " EmptyString s)))
  | CNum _ => float value
  end.

(** [commission_rates.get(card_type, commission_rates['DEFAULT'])]: both
    arguments are evaluated before [get] is called. *)
Definition rate_of (commission_rates : gmap string F) (card_type : string) : result F :=
  let* d := dict_getitem commission_rates "DEFAULT" in
  Ok (default d (commission_rates !! card_type)).

Definition calculate_commission (row : gmap string (cell F))
           (commission_rates : gmap string F) : result F :=
  let* t := getitem row "TYPE" in
  if negb (cell_eq_str t PURCHASE) then Ok f_zero
  else
    match
      (let* c := getitem row "PMT_SYSTEM_CODE" in
       let card_type := str_upper (str_strip (str c)) in
       let* a := getitem row "AMOUNT" in
       let* amount := convert_amount a in
       let* rate := rate_of commission_rates card_type in
       let commission := py_round2 (f_mul amount rate) in
       Ok commission)
    with
    | Ok commission => Ok commission
    | Raise _ => Ok f_zero
    end.

Definition required_columns : list string :=
  ["TYPE"; "AMOUNT"; "COMMISSION"; "PMT_SYSTEM_CODE"].

(** The [lambda row] that fills the difference column. *)
Definition difference (row : gmap string (cell F)) : result F :=
  let* t := getitem row "TYPE" in
  if cell_eq_str t PURCHASE then
    let* c := getitem row "COMMISSION" in
    let* u := getitem row FEE_COL in
    cell_sub c u
  else Ok f_zero.

(** One element of [Series.round(2)] on the difference column. *)
Definition round2 (v : cell F) : result F :=
  match v with
  | CNum x => Ok (np_round2 x)
  | CStr _ => Raise TypeError
  end.

(** From the column check to the rounded difference column. *)
Definition annotate (df : DataFrame F) (commission_rates : gmap string F)
  : result (DataFrame F) :=
  let missing_columns :=
    List.filter (fun col => negb (bool_decide (col ∈ columns df))) required_columns in
  match missing_columns with
  | _ :: _ => Raise ValueError
  | [] =>
      let* df := series_apply "AMOUNT" convert_amount df in
      let* df := series_apply "COMMISSION" convert_amount df in
      let* df := assign_apply FEE_COL
                   (fun row => calculate_commission row commission_rates) df in
      let* df := assign_apply DELTA_COL difference df in
      series_apply DELTA_COL round2 df
  end.

Definition processed_path (file_path : Path) : Path :=
  let base_name := splitext_root (basename file_path) in
  {| dirname := dirname file_path; basename := base_name +:+ "_processed.xlsx" |}.

(** [process_file] returns the frame bound to [results_df] when control
    leaves the function, and the workbook it stored, if any.  The name
    [results_df] is rebound before the workbook is written, and the
    [except] clause returns whatever it is bound to at that moment.  The
    colouring loop runs inside the [with] block: when it raises, the
    workbook filled by [to_excel] is saved on the way out and the
    exception then reaches the [except] clause. *)
Definition process_file (w : World F) (file_path : Path) (results_df : DataFrame F)
           (commission_rates : gmap string F)
  : DataFrame F * list (Path * DataFrame F) :=
  match
    (let* r := read_file_with_encoding w file_path in
     annotate (fst r) commission_rates)
  with
  | Raise _ => (results_df, [])
  | Ok df =>
      let discrepancies := select_ne0 DELTA_COL df in
      let results_df :=
        if negb (df_empty discrepancies) then
          concat results_df
                 (assign_const FILE_COL (CStr (basename file_path)) discrepancies)
        else results_df in
      let new_path := processed_path file_path in
      match excel_writer w new_path df with
      | Ok _ => (results_df, [(new_path, df)])
      | Raise _ =>
          (results_df, if excel_saved w new_path df then [(new_path, df)] else [])
      end
  end.

Definition is_input (f : string) : bool :=
  (endswith f ".xlsx" || endswith f ".xls" || endswith f ".csv"
   || endswith f ".dsv" || endswith f ".dsvp")
  && negb (startswith f "results")
  && negb (endswith f "_processed.xlsx")
  && negb (endswith f "_processed.xls")
  && negb (endswith f "_processed.csv")
  && negb (String.eqb f "setup.xlsx").

Definition processed_files (w : World F) : list Path :=
  (fun f => {| dirname := getcwd w; basename := f |}) <$> List.filter is_input (listdir w).

(** The [for file_path in processed_files] loop, with the workbooks it stores. *)
Definition process_all (w : World F) (commission_rates : gmap string F)
           (files : list Path) (results_df : DataFrame F)
  : DataFrame F * list (Path * DataFrame F) :=
  fold_left
    (fun acc file_path =>
       let r := process_file w file_path (fst acc) commission_rates in
       (fst r, (snd acc ++ snd r)%list))
    files (results_df, []).

Definition results_path (w : World F) : Path :=
  {| dirname := getcwd w; basename := "results.xlsx" |}.

Definition main (w : World F) : Run F :=
  let commission_rates := load_commission_rates w in
  let results_df := empty_frame in
  match processed_files w with
  | [] => {| returned := Ok results_df; processed := []; results_xlsx := Untouched |}
  | _ :: _ =>
      let r := process_all w commission_rates (processed_files w) results_df in
      let results_df := fst r in
      let cleared := if path_exists w (results_path w) then Truncated else Untouched in
      if negb (df_empty results_df) then
        let results_df := assign_const TIME_COL (CStr (now w)) results_df in
        match excel_writer w (results_path w) results_df with
        | Ok _ => {| returned := Ok results_df; processed := snd r;
                     results_xlsx := Written results_df |}
        | Raise e =>
            {| returned := Raise e; processed := snd r;
               results_xlsx := if excel_saved w (results_path w) results_df
                               then Written results_df else cleared |}
        end
      else {| returned := Ok results_df; processed := snd r; results_xlsx := cleared |}
  end.

End Script.
End Commission_BRS.

(** ** [run_calc_comission_BRS.py]

    The second entry point neither normalizes card codes nor converts
    cells: the rate dictionary is keyed by raw cells and holds raw cells. *)

Module Comission_BRS.
Section Script.
Context {F : Type} `{PyRuntime F}.

(** [a == b] on cells *)
Definition cell_eqb (a b : cell F) : bool :=
  match a, b with
  | CStr s, CStr t => String.eqb s t
  | CNum x, CNum y => f_eqb x y
  | _, _ => false
  end.

(** A dictionary as its items in insertion order. *)
Fixpoint dict_lookup (d : list (cell F * cell F)) (k : cell F) : option (cell F) :=
  match d with
  | [] => None
  | (k', v) :: d' => if cell_eqb k' k then Some v else dict_lookup d' k
  end.

(** [d[k] = v] *)
Fixpoint dict_set (d : list (cell F * cell F)) (k v : cell F) : list (cell F * cell F) :=
  match d with
  | [] => [(k, v)]
  | (k', v') :: d' =>
      if cell_eqb k' k then (k', v) :: d' else (k', v') :: dict_set d' k v
  end.

(** [d[k]] *)
Definition dict_getitem (d : list (cell F * cell F)) (k : cell F) : result (cell F) :=
  match dict_lookup d k with
  | Some v => Ok v
  | None => Raise KeyError
  end.

(** [d.setdefault(k, v)] *)
Definition setdefault (d : list (cell F * cell F)) (k v : cell F) : list (cell F * cell F) :=
  match dict_lookup d k with
  | Some _ => d
  | None => dict_set d k v
  end.

(** The dictionary literal of the [except] clause. *)
Definition fallback_rates : list (cell F * cell F) :=
  [ (CStr "MIR", CNum (float_lit 142 (-4)));
    (CStr "MC", CNum (float_lit 200 (-4)));
    (CStr "VISA", CNum (float_lit 165 (-4)));
    (CStr "CUP", CNum (float_lit 165 (-4)));
    (CStr "DEFAULT", CNum f_zero) ].

Definition setup_path (w : World F) : Path :=
  {| dirname := getcwd w; basename := "setup.xlsx" |}.

Definition load_row (commission_rates : list (cell F * cell F)) (row : gmap string (cell F))
  : result (list (cell F * cell F)) :=
  let* card_type := getitem row CARD_TYPE_COL in
  let* rate := getitem row RATE_COL in
  Ok (dict_set commission_rates card_type rate).

(** The [try] block of [load_commission_rates]. *)
Definition load_commission_rates_try (w : World F) : result (list (cell F * cell F)) :=
  if negb (path_exists w (setup_path w)) then Raise FileNotFoundError
  else
    let* df := read_excel w (setup_path w) in
    if df_empty df then Raise ValueError
    else
      let* commission_rates := for_each load_row (rows df) [] in
      Ok (setdefault commission_rates (CStr "DEFAULT") (CNum (float_lit 1 (-2)))).

Definition load_commission_rates (w : World F) : list (cell F * cell F) :=
  match load_commission_rates_try w with
  | Ok commission_rates => commission_rates
  | Raise _ => fallback_rates
  end.

(** [a * b], which [round(_, 2)] then takes; with a text operand one of the
    two raises [TypeError]. *)
Definition cell_mul (a b : cell F) : result F :=
  match a, b with
  | CNum x, CNum y => Ok (f_mul x y)
  | _, _ => Raise TypeError
  end.

Definition calculate_commission (row : gmap string (cell F))
           (commission_rates : list (cell F * cell F)) : result F :=
  let* t := getitem row "TYPE" in
  if negb (cell_eq_str t PURCHASE) then Ok f_zero
  else
    let* card_type := getitem row "PMT_SYSTEM_CODE" in
    let* amount := getitem row "AMOUNT" in
    let* d := dict_getitem commission_rates (CStr "DEFAULT") in
    let rate := default d (dict_lookup commission_rates card_type) in
    let* product := cell_mul amount rate in
    Ok (py_round2 product).

Definition required_columns : list string :=
  ["TYPE"; "AMOUNT"; "COMMISSION"; "PMT_SYSTEM_CODE"].

(** The [lambda row] that fills the difference column. *)
Definition difference (row : gmap string (cell F)) : result F :=
  let* t := getitem row "TYPE" in
  if cell_eq_str t PURCHASE then
    let* c := getitem row "COMMISSION" in
    let* u := getitem row FEE_COL in
    cell_sub c u
  else Ok f_zero.

Definition round2 (v : cell F) : result F :=
  match v with
  | CNum x => Ok (np_round2 x)
  | CStr _ => Raise TypeError
  end.

(** From the column check to the rounded difference column. *)
Definition annotate (df : DataFrame F) (commission_rates : list (cell F * cell F))
  : result (DataFrame F) :=
  let missing_columns :=
    List.filter (fun col => negb (bool_decide (col ∈ columns df))) required_columns in
  match missing_columns with
  | _ :: _ => Raise ValueError
  | [] =>
      let* df := assign_apply FEE_COL
                   (fun row => calculate_commission row commission_rates) df in
      let* df := assign_apply DELTA_COL difference df in
      series_apply DELTA_COL round2 df
  end.

End Script.
End Comission_BRS.

(** ** An exact decimal runtime

    Numbers are integers counting millionths; products and roundings go to
    the nearest representable value, ties to even.  The text functions
    cover ASCII and the basic Cyrillic letters. *)

Module Decimal6.

Definition scale : Z := 1000000.

(** The integer nearest to [a / b] for [0 < b], ties to even. *)
Definition div_nearest (a b : Z) : Z :=
  let q := (a `div` b)%Z in
  let r := (a `mod` b)%Z in
  if (2 * r <? b)%Z then q
  else if (b <? 2 * r)%Z then (q + 1)%Z
  else if Z.even q then q else (q + 1)%Z.

Definition lit (m e : Z) : Z :=
  if (0 <=? 6 + e)%Z then (m * 10 ^ (6 + e))%Z
  else div_nearest m (10 ^ (- (6 + e))).

Definition mul (x y : Z) : Z := div_nearest (x * y) scale.

Definition round_cents (x : Z) : Z := (div_nearest x 10000 * 10000)%Z.

Definition is_space (c : ascii) : bool :=
  let n := nat_of_ascii c in
  (n =? 32)%nat || ((9 <=? n)%nat && (n <=? 13)%nat).

Fixpoint lstrip (s : string) : string :=
  match s with
  | EmptyString => EmptyString
  | String c s' => if is_space c then lstrip s' else s
  end.

Definition strip (s : string) : string :=
  String.rev (lstrip (String.rev (lstrip s))).

Fixpoint upper (s : string) : string :=
  match s with
  | EmptyString => EmptyString
  | String c s' =>
      let n := nat_of_ascii c in
      if (97 <=? n)%nat && (n <=? 122)%nat then
        String (ascii_of_nat (n - 32)) (upper s')
      else
        match s' with
        | String d s'' =>
            let m := nat_of_ascii d in
            if (n =? 208)%nat && (176 <=? m)%nat && (m <=? 191)%nat then
              String c (String (ascii_of_nat (m - 32)) (upper s''))
            else if (n =? 209)%nat && (128 <=? m)%nat && (m <=? 143)%nat then
              String (ascii_of_nat 208) (String (ascii_of_nat (m + 32)) (upper s''))
            else String c (upper s')
        | EmptyString => String c EmptyString
        end
  end.

Definition digit_of (c : ascii) : option Z :=
  let n := nat_of_ascii c in
  if (48 <=? n)%nat && (n <=? 57)%nat then Some (Z.of_nat (n - 48)) else None.

Fixpoint digits_value (s : string) (acc : Z) : option Z :=
  match s with
  | EmptyString => Some acc
  | String c s' =>
      match digit_of c with
      | Some d => digits_value s' (10 * acc + d)%Z
      | None => None
      end
  end.

Fixpoint split_dot (s : string) : string * option string :=
  match s with
  | EmptyString => (EmptyString, None)
  | String c s' =>
      if Ascii.eqb c "." then (EmptyString, Some s')
      else (String c (split_dot s').1, (split_dot s').2)
  end.

Definition parse_unsigned (s : string) : option Z :=
  let ip := (split_dot s).1 in
  let fp := default EmptyString (split_dot s).2 in
  if (String.length ip + String.length fp =? 0)%nat then None
  else
    match digits_value ip 0, digits_value fp 0,
          digits_value (String.substring 0 6 (fp +:+ "000000")) 0 with
    | Some i, Some _, Some f => Some (i * scale + f)%Z
    | _, _, _ => None
    end.

Definition parse (s : string) : option Z :=
  match strip s with
  | String "-" s' => Z.opp <$> parse_unsigned s'
  | String "+" s' => parse_unsigned s'
  | s' => parse_unsigned s'
  end.

Fixpoint digits_of (fuel : nat) (n : Z) (acc : string) : string :=
  match fuel with
  | O => acc
  | S fuel' =>
      let acc' := String (ascii_of_nat (48 + Z.to_nat (n `mod` 10)%Z)) acc in
      if (n <? 10)%Z then acc' else digits_of fuel' (n `div` 10)%Z acc'
  end.

Definition to_str (x : Z) : string :=
  let a := Z.abs x in
  let ip := (a `div` scale)%Z in
  let fp := (a `mod` scale)%Z in
  (if (x <? 0)%Z then "-" else EmptyString)
  +:+ digits_of (S (Z.to_nat ip)) ip EmptyString
  +:+ "." +:+ String.substring 1 6 (digits_of 7 (scale + fp)%Z EmptyString).

#[export] Instance runtime : PyRuntime Z := {|
  f_zero := 0%Z;
  float_lit := lit;
  f_mul := mul;
  f_sub := Z.sub;
  f_eqb := Z.eqb;
  py_round2 := round_cents;
  np_round2 := round_cents;
  float_of_str := parse;
  str_of_float := to_str;
  str_strip := strip;
  str_upper := upper;
|}.

End Decimal6.

(** ** Derived views used to state the properties *)

(** The specification's wording of the cleaning step of amount
    normalization: drop every space, turn every comma into a point. *)
Definition spec_clean_amount (s : string) : string :=
  string_of_list_ascii
    ((fun c => if Ascii.eqb c "," then "."%char else c)
       <$> List.filter (fun c => negb (Ascii.eqb c " ")) (list_ascii_of_string s)).

Section Views.
Context {F : Type} `{PyRuntime F}.

(** What the five column passes of [Commission_BRS.annotate] do to one row. *)
Definition annotate_row (commission_rates : gmap string F) (row : gmap string (cell F))
  : result (gmap string (cell F)) :=
  let* a := getitem row "AMOUNT" in
  let* amount := Commission_BRS.convert_amount a in
  let r1 := <["AMOUNT" := CNum amount]> row in
  let* c := getitem r1 "COMMISSION" in
  let* recorded := Commission_BRS.convert_amount c in
  let r2 := <["COMMISSION" := CNum recorded]> r1 in
  let* fee := Commission_BRS.calculate_commission r2 commission_rates in
  let r3 := <[FEE_COL := CNum fee]> r2 in
  let* delta := Commission_BRS.difference r3 in
  let r4 := <[DELTA_COL := CNum delta]> r3 in
  let* v := getitem r4 DELTA_COL in
  let* rounded := Commission_BRS.round2 v in
  Ok (<[DELTA_COL := CNum rounded]> r4).

(** The same for the three column passes of [Comission_BRS.annotate]. *)
Definition annotate_row_raw (commission_rates : list (cell F * cell F))
           (row : gmap string (cell F)) : result (gmap string (cell F)) :=
  let* fee := Comission_BRS.calculate_commission row commission_rates in
  let r1 := <[FEE_COL := CNum fee]> row in
  let* delta := Comission_BRS.difference r1 in
  let r2 := <[DELTA_COL := CNum delta]> r1 in
  let* v := getitem r2 DELTA_COL in
  let* rounded := Comission_BRS.round2 v in
  Ok (<[DELTA_COL := CNum rounded]> r2).

(** Reading a file and annotating it: the part of [process_file] that
    precedes the selection of discrepancies. *)
Definition prepare (w : World F) (file_path : Path) (commission_rates : gmap string F)
  : result (DataFrame F) :=
  let* r := Commission_BRS.read_file_with_encoding w file_path in
  Commission_BRS.annotate (fst r) commission_rates.

(** The rows one file adds to an empty collection. *)
Definition contribution (w : World F) (commission_rates : gmap string F)
           (file_path : Path) : list (gmap string (cell F)) :=
  rows (fst (Commission_BRS.process_file w file_path empty_frame commission_rates)).

(** The tag of line 129 and the time stamp of line 205, on one row. *)
Definition tag (file_path : Path) (row : gmap string (cell F)) : gmap string (cell F) :=
  <[FILE_COL := CStr (basename file_path)]> row.
Definition stamp (w : World F) (row : gmap string (cell F)) : gmap string (cell F) :=
  <[TIME_COL := CStr (now w)]> row.

End Views.

(** ** Sample files

    Concrete rows, frames and worlds over the decimal runtime, on which
    the definitions above are evaluated. *)

Module Sample.
Import Decimal6.

Definition tx_columns : list string :=
  ["TYPE"; "AMOUNT"; "COMMISSION"; "PMT_SYSTEM_CODE"].

Definition tx (type : string) (amount commission : cell Z) (code : string)
  : gmap string (cell Z) :=
  <["PMT_SYSTEM_CODE" := CStr code]>
  (<["COMMISSION" := commission]>
  (<["AMOUNT" := amount]>
  (<["TYPE" := CStr type]> ∅))).

(** A purchase of 1000 by a MIR card with a recorded fee of 15.00. *)
Definition row_mir : gmap string (cell Z) :=
  tx PURCHASE (CStr "1 000,00") (CStr "15,00") " mir ".

(** A purchase of 500 by a card of an unknown network, recorded fee 5.00. *)
Definition row_jcb : gmap string (cell Z) :=
  tx PURCHASE (CNum 500000000%Z) (CNum 5000000%Z) "JCB".

(** A refund. *)
Definition row_refund : gmap string (cell Z) :=
  tx "ВОЗВРАТ" (CStr "12,50") (CNum 1000000%Z) "VISA".

(** A purchase whose type is spelled in lower case between blanks. *)
Definition row_lower : gmap string (cell Z) :=
  tx " покупка " (CNum 1000000000%Z) (CNum 15000000%Z) "MIR".

(** A purchase whose amount is not a number. *)
Definition row_text_amount : gmap string (cell Z) :=
  tx PURCHASE (CStr "abc") (CNum 1000000%Z) "MIR".

Definition frame_a : DataFrame Z :=
  {| columns := tx_columns; rows := [row_mir; row_jcb; row_refund; row_lower] |}.

Definition frame_bad : DataFrame Z :=
  {| columns := tx_columns; rows := [row_text_amount; row_jcb] |}.

Definition frame_jcb : DataFrame Z :=
  {| columns := tx_columns; rows := [row_jcb] |}.

Definition frame_quiet : DataFrame Z :=
  {| columns := tx_columns; rows := [row_refund; row_lower] |}.

Definition rate_row (card_type rate : cell Z) : gmap string (cell Z) :=
  <[RATE_COL := rate]> (<[CARD_TYPE_COL := card_type]> ∅).

(** A rate file whose second row holds a rate that is not a number. *)
Definition setup_bad : DataFrame Z :=
  {| columns := [CARD_TYPE_COL; RATE_COL];
     rows := [rate_row (CStr " mir ") (CStr "0.015"); rate_row (CStr "VISA") (CStr "abc")] |}.

(** A rate file without a [DEFAULT] row. *)
Definition setup_good : DataFrame Z :=
  {| columns := [CARD_TYPE_COL; RATE_COL];
     rows := [rate_row (CStr " mir ") (CStr "0.015"); rate_row (CStr "visa") (CNum 20000%Z)] |}.

Fixpoint find_file (files : list (string * DataFrame Z)) (name : string)
  : result (DataFrame Z) :=
  match files with
  | [] => Raise FileNotFoundError
  | (f, df) :: files' => if String.eqb f name then Ok df else find_file files' name
  end.

(** A directory holding [files] and, possibly, a rate file; [can_write]
    tells whether workbooks can be stored in it: when they cannot, the
    writer is not even opened and nothing is saved. *)
Definition world (files : list (string * DataFrame Z)) (setup : option (DataFrame Z))
           (can_write : bool) : World Z :=
  {| getcwd := "/data";
     listdir := files.*1 ++ ["setup.xlsx"; "notes.txt"];
     path_exists := fun p => String.eqb (basename p) "setup.xlsx" && bool_decide (is_Some setup);
     read_excel := fun p =>
       if String.eqb (basename p) "setup.xlsx" then
         match setup with
         | Some df => Ok df
         | None => Raise FileNotFoundError
         end
       else find_file files (basename p);
     read_csv := fun p _ => find_file files (basename p);
     chardet_detect := fun _ => Ok None;
     excel_writer := fun _ _ => if can_write then Ok () else Raise OSError;
     excel_saved := fun _ _ => false;
     now := "2024-01-01 00:00:00" |}.

Definition path_of (name : string) : Path := {| dirname := "/data"; basename := name |}.

Definition world_a : World Z := world [("a.xlsx", frame_a)] None true.
Definition world_locked : World Z := world [("a.xlsx", frame_a)] None false.
Definition world_bad : World Z := world [("bad.csv", frame_bad)] None true.
Definition world_jcb : World Z := world [("jcb.csv", frame_jcb)] None true.
Definition world_quiet : World Z := world [("quiet.xlsx", frame_quiet)] None true.
Definition world_idle : World Z := world [] None true.
Definition world_two : World Z :=
  world [("a.xlsx", frame_a); ("bad.csv", frame_bad); ("jcb.csv", frame_jcb)] None true.
Definition world_setup_bad : World Z := world [] (Some setup_bad) true.
Definition world_setup_good : World Z := world [] (Some setup_good) true.

Definition frame_short : DataFrame Z :=
  {| columns := ["TYPE"; "AMOUNT"];
     rows := [<["AMOUNT" := CNum 1000000%Z]> (<["TYPE" := CStr PURCHASE]> ∅)] |}.
Definition world_short : World Z := world [("short.xlsx", frame_short)] None true.

(** The annotated frame of a file, when there is one. *)
Definition annotated (w : World Z) (name : string) : DataFrame Z :=
  match prepare w (path_of name) (Commission_BRS.load_commission_rates w) with
  | Ok df => df
  | Raise _ => empty_frame
  end.

(** The same for the second script, on an already loaded frame. *)
Definition annotated_raw (df : DataFrame Z) : DataFrame Z :=
  match Comission_BRS.annotate df Comission_BRS.fallback_rates with
  | Ok df' => df'
  | Raise _ => empty_frame
  end.

(** The first row of [frame_a] once annotated: fee 14.20, difference 0.80. *)
Definition annotated_mir : gmap string (cell Z) :=
  <[DELTA_COL := CNum 800000%Z]>
  (<[FEE_COL := CNum 14200000%Z]>
  (<["COMMISSION" := CNum 15000000%Z]>
  (<["AMOUNT" := CNum 1000000000%Z]> row_mir))).

(** The frame [main] returns, when it returns one. *)
Definition report (w : World Z) : DataFrame Z :=
  match returned (Commission_BRS.main w) with
  | Ok df => df
  | Raise _ => empty_frame
  end.

End Sample.

(** ** Reading a file in [run_calc_comission_BRS.py]

    The second script reads delimited files without [decimal=','], and its
    [except Exception] clause belongs to the first [try] only: what the
    handler of the first [UnicodeDecodeError] raises is not caught by it. *)

Module Comission_BRS_IO.
Section Script.
Context {F : Type} `{PyRuntime F}.

(** [pd.read_csv(path, encoding=enc, delimiter=';')] *)
Variable read_csv_plain : Path → option string → result (DataFrame F).

Definition detect_encoding (w : World F) (file_path : Path) : result (option string) :=
  chardet_detect w file_path.

Definition read_file_with_encoding (w : World F) (file_path : Path)
  : result (DataFrame F * option string) :=
  if Commission_BRS.is_delimited (basename file_path) then
    match read_csv_plain file_path (Some "utf-8") with
    | Ok df => Ok (df, Some "utf-8")
    | Raise UnicodeDecodeError =>
        match read_csv_plain file_path (Some "windows-1251") with
        | Ok df => Ok (df, Some "windows-1251")
        | Raise UnicodeDecodeError =>
            let* encoding := detect_encoding w file_path in
            let* df := read_csv_plain file_path encoding in
            Ok (df, encoding)
        | Raise e => Raise e
        end
    | Raise _ => Raise ValueError
    end
  else
    match read_excel w file_path with
    | Ok df => Ok (df, None)
    | Raise _ => Raise ValueError
    end.

End Script.
End Comission_BRS_IO.

(** ** Further sample files *)

Module Cases.
Import Decimal6.

(** A rate file in which the MIR rate is given twice. *)
Definition setup_twice : DataFrame Z :=
  {| columns := [CARD_TYPE_COL; RATE_COL];
     rows := [Sample.rate_row (CStr " mir ") (CStr "0.015");
              Sample.rate_row (CStr "visa") (CNum 20000%Z);
              Sample.rate_row (CStr "MIR") (CStr "0.016")] |}.
Definition world_twice : World Z := Sample.world [] (Some setup_twice) true.

(** A table without a [DEFAULT] entry. *)
Definition rates_no_default : gmap string Z := <["MIR" := 14200%Z]> ∅.

(** A frame whose cells need no conversion and whose codes are clean. *)
Definition frame_clean : DataFrame Z :=
  {| columns := Sample.tx_columns;
     rows := [Sample.tx PURCHASE (CNum 1000000000%Z) (CNum 15000000%Z) "MIR";
              Sample.row_jcb;
              Sample.tx "ВОЗВРАТ" (CNum 12500000%Z) (CNum 1000000%Z) "VISA"] |}.

(** One table in the form each script keeps it: a map from codes to
    rates, and a dictionary from code cells to rate cells. *)
Definition rate_items : list (string * Z) :=
  [("MIR", 14200%Z); ("MC", 20000%Z); ("VISA", 16500%Z); ("DEFAULT", 0%Z)].
Definition clean_rates : gmap string Z := list_to_map rate_items.
Definition raw_rates : list (cell Z * cell Z) :=
  (fun kv => (CStr kv.1, CNum kv.2)) <$> rate_items.

(** A directory in which [a.csv] and [a.xlsx] both wait for processing,
    next to outputs of an earlier run. *)
Definition world_pair : World Z :=
  Sample.world [("a.csv", Sample.frame_jcb); ("a.xlsx", Sample.frame_a);
                ("a_processed.xlsx", Sample.frame_jcb); ("results.xlsx", Sample.frame_jcb)]
               None true.

(** A directory whose earlier report is still there. *)
Definition world_stale : World Z :=
  {| getcwd := getcwd Sample.world_quiet;
     listdir := listdir Sample.world_quiet;
     path_exists := fun p => String.eqb (basename p) "results.xlsx";
     read_excel := read_excel Sample.world_quiet;
     read_csv := read_csv Sample.world_quiet;
     chardet_detect := chardet_detect Sample.world_quiet;
     excel_writer := excel_writer Sample.world_quiet;
     excel_saved := excel_saved Sample.world_quiet;
     now := now Sample.world_quiet |}.

(** Readers for the chain of encodings: [a.csv] is not UTF-8 but decodes
    as windows-1251; [b.csv] decodes as neither and cannot be opened for
    detection. *)
Definition csv_reader (p : Path) (enc : option string) : result (DataFrame Z) :=
  if String.eqb (basename p) "a.csv" then
    match enc with
    | Some "windows-1251" => Ok Sample.frame_jcb
    | _ => Raise UnicodeDecodeError
    end
  else Raise UnicodeDecodeError.

Definition world_legacy : World Z :=
  {| getcwd := "/data";
     listdir := ["a.csv"; "b.csv"];
     path_exists := fun _ => false;
     read_excel := fun _ => Raise FileNotFoundError;
     read_csv := csv_reader;
     chardet_detect := fun _ => Raise OSError;
     excel_writer := fun _ _ => Ok ();
     excel_saved := fun _ _ => false;
     now := "2024-01-01 00:00:00" |}.

End Cases.

(** * Properties *)

Import Commission_BRS.

(** ** Exceptions and loops *)

Lemma bind_Ok_inv {A B : Type} (r : result A) (k : A → result B) (b : B) :
  bind r k = Ok b → ∃ a, r = Ok a ∧ k a = Ok b.
Proof. destruct r as [a|e]; simpl; [eauto | discriminate]. Qed.

Lemma bind_raises_l {A B : Type} (r : result A) (k : A → result B) :
  raises r → raises (bind r k).
Proof. intros [e ->]. by exists e. Qed.

Lemma raises_not_Ok {A : Type} (r : result A) (a : A) : raises r → r ≠ Ok a.
Proof. intros [e ->]. discriminate. Qed.

Section ResultLemmas.
Context {A B C S : Type}.

Lemma map_result_Ok (f : A → result B) (l : list A) (k : list B) :
  map_result f l = Ok k → Forall2 (fun x y => f x = Ok y) l k.
Proof.
  revert k. induction l as [|x l IH]; intros k Hk; simpl in Hk.
  - injection Hk as <-. constructor.
  - apply bind_Ok_inv in Hk as (y & Hy & Hk).
    apply bind_Ok_inv in Hk as (ys & Hys & Hk).
    injection Hk as <-. constructor; auto.
Qed.

Lemma map_result_raises (f : A → result B) (l : list A) (x : A) :
  x ∈ l → raises (f x) → raises (map_result f l).
Proof.
  intros Hx Hf. induction Hx as [x l|x y l Hx IH]; simpl.
  - by apply bind_raises_l.
  - destruct (f y) as [b|e]; simpl; [|by exists e].
    apply bind_raises_l, IH, Hf.
Qed.

(** Two passes over a list amount to one pass with the composed body. *)
Lemma map_result_fuse (f : A → result B) (g : B → result C)
      (l : list A) (k : list B) (m : list C) :
  map_result f l = Ok k → map_result g k = Ok m →
  map_result (fun x => bind (f x) g) l = Ok m.
Proof.
  revert k m. induction l as [|x l IH]; intros k m Hk Hm; simpl in *.
  - injection Hk as <-. done.
  - apply bind_Ok_inv in Hk as (y & Hy & Hk).
    apply bind_Ok_inv in Hk as (ys & Hys & Hk).
    injection Hk as <-. simpl in Hm.
    apply bind_Ok_inv in Hm as (z & Hz & Hm).
    apply bind_Ok_inv in Hm as (zs & Hzs & Hm).
    injection Hm as <-.
    rewrite Hy. simpl. rewrite Hz. simpl.
    by rewrite (IH _ _ Hys Hzs).
Qed.

Lemma map_result_ext (f g : A → result B) (l : list A) :
  (∀ x, f x = g x) → map_result f l = map_result g l.
Proof. intros Hfg. induction l as [|x l IH]; simpl; [done|]. by rewrite Hfg, IH. Qed.

Lemma for_each_raises (body : S → A → result S) (l : list A) (x : A) (acc : S) :
  x ∈ l → (∀ s, raises (body s x)) → raises (for_each body l acc).
Proof.
  intros Hx Hbody. revert acc.
  induction Hx as [x l|x y l Hx IH]; intros acc; simpl.
  - apply bind_raises_l, Hbody.
  - destruct (body acc y) as [acc'|e]; simpl; [by apply IH | by exists e].
Qed.

End ResultLemmas.

(** ** Lists *)

Lemma Forall2_elem_of_l {A B : Type} (P : A → B → Prop) (Q : A → B → Prop)
      (l : list A) (k : list B) :
  Forall2 P l k → (∀ x y, x ∈ l → y ∈ k → P x y → Q x y) → Forall2 Q l k.
Proof.
  induction 1 as [|x y l k Hxy Hlk IH]; intros HPQ; constructor.
  - apply HPQ; [left | left | done].
  - apply IH. intros x' y' Hx' Hy'. apply HPQ; by right.
Qed.

Lemma Forall2_in_l {A B : Type} (P : A → B → Prop) (l : list A) (k : list B) (x : A) :
  Forall2 P l k → x ∈ l → ∃ y, y ∈ k ∧ P x y.
Proof.
  induction 1 as [|x' y l k Hxy Hlk IH]; intros Hx.
  - by apply not_elem_of_nil in Hx.
  - apply elem_of_cons in Hx as [-> | Hx].
    + exists y. split; [left | done].
    + destruct (IH Hx) as (y' & Hy' & HP). exists y'. split; [by right | done].
Qed.

Lemma Forall2_in_r {A B : Type} (P : A → B → Prop) (l : list A) (k : list B) (y : B) :
  Forall2 P l k → y ∈ k → ∃ x, x ∈ l ∧ P x y.
Proof.
  induction 1 as [|x y' l k Hxy Hlk IH]; intros Hy.
  - by apply not_elem_of_nil in Hy.
  - apply elem_of_cons in Hy as [-> | Hy].
    + exists x. split; [left | done].
    + destruct (IH Hy) as (x' & Hx' & HP). exists x'. split; [by right | done].
Qed.

Lemma length_flat_map {A B : Type} (f : A → list B) (l : list A) :
  length (flat_map f l) = sum_list (length ∘ f <$> l).
Proof.
  induction l as [|x l IH]; simpl; [done|]. by rewrite length_app, IH.
Qed.

(** ** Text cleaning *)

Lemma str_replace_space_comma (s : string) :
  str_replace "," "." (str_replace " " EmptyString s) = spec_clean_amount s.
Proof.
  unfold spec_clean_amount.
  induction s as [|c s IH]; simpl; [done|].
  destruct (Ascii.eqb c " ") eqn:Hsp; simpl.
  - exact IH.
  - rewrite IH. by destruct (Ascii.eqb c ",").
Qed.

Lemma spec_clean_amount_chars (s : string) (c : ascii) :
  c ∈ list_ascii_of_string (spec_clean_amount s) → c ≠ " "%char ∧ c ≠ ","%char.
Proof.
  unfold spec_clean_amount. rewrite list_ascii_of_string_of_list_ascii.
  intros (c0 & -> & Hc0)%list_elem_of_fmap.
  apply list_elem_of_In, filter_In in Hc0 as [_ Hc0].
  apply negb_true_iff, Ascii.eqb_neq in Hc0.
  destruct (Ascii.eqb c0 ",") eqn:Hcomma.
  - split; discriminate.
  - apply Ascii.eqb_neq in Hcomma. done.
Qed.

Section Properties.
Context {F : Type} `{PyRuntime F}.

(** ** Amount normalization *)

(** C8. [convert_amount] on a text removes the spaces and turns the commas
    into points before the numeric conversion, so that the text
    ["1 234,56"] is converted as ["1234.56"] is; a number is returned
    unchanged; and when the cleaned text is not a number the call raises
    [ValueError] instead of returning a value. *)
Theorem C8_convert_amount :
  (∀ s, convert_amount (CStr s) = float (CStr (spec_clean_amount s)))
  ∧ (∀ s c, c ∈ list_ascii_of_string (spec_clean_amount s) →
            c ≠ " "%char ∧ c ≠ ","%char)
  ∧ (∀ x, float_of_str "1234.56" = Some x →
          convert_amount (CStr "1 234,56") = Ok x)
  ∧ (∀ x, convert_amount (CNum x) = Ok x)
  ∧ (∀ s, float_of_str (spec_clean_amount s) = None →
          convert_amount (CStr s) = Raise ValueError).
Proof.
  assert (Hclean : ∀ s, convert_amount (CStr s) = float (CStr (spec_clean_amount s))).
  { intros s. unfold convert_amount. by rewrite str_replace_space_comma. }
  split_and!.
  - exact Hclean.
  - apply spec_clean_amount_chars.
  - intros x Hx. rewrite Hclean.
    change (spec_clean_amount "1 234,56") with "1234.56".
    simpl. by rewrite Hx.
  - done.
  - intros s Hs. rewrite Hclean. simpl. by rewrite Hs.
Qed.

(** C9. Normalizing a normalized amount changes nothing: when
    [convert_amount] succeeds on a value, applying it to its result
    succeeds with the same result. *)
Theorem C9_convert_amount_idempotent (v : cell F) (x : F) :
  convert_amount v = Ok x →
  convert_amount (CNum x) = Ok x
  ∧ bind (convert_amount v) (fun y => convert_amount (CNum y)) = convert_amount v.
Proof. intros Hv. rewrite Hv. done. Qed.

(** ** The rate table *)

Lemma default_rates_DEFAULT : (default_rates (F:=F)) !! "DEFAULT" = Some f_zero.
Proof. unfold default_rates. apply lookup_insert_eq. Qed.

Lemma setdefault_lookup (d : gmap string F) (k : string) (v : F) :
  is_Some (setdefault d k v !! k).
Proof.
  unfold setdefault. destruct (d !! k) as [x|] eqn:Hk.
  - rewrite Hk. eauto.
  - rewrite lookup_insert_eq. eauto.
Qed.

Lemma load_commission_rates_DEFAULT (w : World F) :
  is_Some (load_commission_rates w !! "DEFAULT").
Proof.
  pose proof default_rates_DEFAULT as Hd.
  unfold load_commission_rates, load_commission_rates_try.
  destruct (negb (path_exists w (setup_path w))); [rewrite Hd; eauto|].
  destruct (read_excel w (setup_path w)) as [df|e]; simpl; [|rewrite Hd; eauto].
  destruct (df_empty df); [rewrite Hd; eauto|].
  destruct (for_each load_row (rows df) ∅) as [rates|e]; simpl; [|rewrite Hd; eauto].
  unfold dict_getitem. rewrite Hd. simpl. apply setdefault_lookup.
Qed.

Lemma rate_of_Ok (rates : gmap string F) (code : string) (d : F) :
  rates !! "DEFAULT" = Some d →
  rate_of rates code = Ok (default d (rates !! code)).
Proof. intros Hd. unfold rate_of, dict_getitem. by rewrite Hd. Qed.

(** C6. On every table that [load_commission_rates] returns, the lookup of
    line 94 returns a rate for every code: the table has a [DEFAULT]
    entry, a code of the table gets its own rate and any other code gets
    the [DEFAULT] rate. *)
Theorem C6_rate_lookup_total (w : World F) (code : string) :
  ∃ d r,
    load_commission_rates w !! "DEFAULT" = Some d
    ∧ rate_of (load_commission_rates w) code = Ok r
    ∧ (load_commission_rates w !! code = None → r = d)
    ∧ (∀ v, load_commission_rates w !! code = Some v → r = v).
Proof.
  destruct (load_commission_rates_DEFAULT w) as [d Hd].
  exists d, (default d (load_commission_rates w !! code)).
  split_and!; [done | by apply rate_of_Ok | by intros -> | by intros v ->].
Qed.

Lemma load_row_raises (row : gmap string (cell F)) :
  (row !! CARD_TYPE_COL = None ∨ row !! RATE_COL = None
   ∨ ∃ s, row !! RATE_COL = Some (CStr s) ∧ float_of_str s = None) →
  ∀ acc, raises (load_row acc row).
Proof.
  intros Hbad acc. unfold load_row, getitem.
  destruct Hbad as [-> | [-> | (s & -> & Hs)]]; simpl.
  - by exists KeyError.
  - destruct (row !! CARD_TYPE_COL); by exists KeyError.
  - destruct (row !! CARD_TYPE_COL); simpl; [|by exists KeyError].
    rewrite Hs. by exists ValueError.
Qed.

Lemma legacy_load_row_raises (row : gmap string (cell F)) :
  (row !! CARD_TYPE_COL = None ∨ row !! RATE_COL = None) →
  ∀ acc, raises (Comission_BRS.load_row acc row).
Proof.
  intros Hbad acc. unfold Comission_BRS.load_row, getitem.
  destruct Hbad as [-> | ->]; simpl.
  - by exists KeyError.
  - destruct (row !! CARD_TYPE_COL); by exists KeyError.
Qed.

(** C5. [load_commission_rates] is a total function of the world: it
    returns a table and lets no exception out.  When [setup.xlsx] is
    missing, unreadable or empty, or when one of its rows lacks a column or
    holds a rate that is not a number, the table returned is the built-in
    one, whatever the rows before the failing one held; otherwise it is
    the table built from all rows.  The second script falls back to its
    own built-in table in the same cases (it converts no rate, so only a
    row that lacks a column fails there). *)
Theorem C5_load_falls_back (w : World F) :
  ((path_exists w (setup_path w) = false
    ∨ raises (read_excel w (setup_path w))
    ∨ ∃ df, read_excel w (setup_path w) = Ok df
        ∧ (df_empty df = true
           ∨ ∃ row, row ∈ rows df
               ∧ (row !! CARD_TYPE_COL = None ∨ row !! RATE_COL = None
                  ∨ ∃ s, row !! RATE_COL = Some (CStr s) ∧ float_of_str s = None))) →
   load_commission_rates w = default_rates)
  ∧ (load_commission_rates w = default_rates
     ∨ ∃ df rates, read_excel w (setup_path w) = Ok df
         ∧ for_each load_row (rows df) ∅ = Ok rates
         ∧ load_commission_rates w = setdefault rates "DEFAULT" f_zero)
  ∧ ((path_exists w (Comission_BRS.setup_path w) = false
      ∨ raises (read_excel w (Comission_BRS.setup_path w))
      ∨ ∃ df, read_excel w (Comission_BRS.setup_path w) = Ok df
          ∧ (df_empty df = true
             ∨ ∃ row, row ∈ rows df
                 ∧ (row !! CARD_TYPE_COL = None ∨ row !! RATE_COL = None))) →
     Comission_BRS.load_commission_rates w = Comission_BRS.fallback_rates).
Proof.
  split_and!.
  - unfold load_commission_rates, load_commission_rates_try.
    intros [-> | [[e ->] | (df & -> & Hdf)]]; simpl; [done | |].
    + by destruct (negb _).
    + destruct (negb _); [done|].
      destruct Hdf as [-> | (row & Hrow & Hbad)]; [done|].
      destruct (df_empty df); [done|].
      destruct (for_each_raises load_row (rows df) row ∅ Hrow
                  (load_row_raises row Hbad)) as [e ->].
      done.
  - unfold load_commission_rates, load_commission_rates_try.
    destruct (negb _); [by left|].
    destruct (read_excel w (setup_path w)) as [df|e]; simpl; [|by left].
    destruct (df_empty df); [by left|].
    destruct (for_each load_row (rows df) ∅) as [rates|e] eqn:Hloop; simpl; [|by left].
    right. exists df, rates. unfold dict_getitem.
    by rewrite default_rates_DEFAULT.
  - unfold Comission_BRS.load_commission_rates, Comission_BRS.load_commission_rates_try.
    intros [-> | [[e ->] | (df & -> & Hdf)]]; simpl; [done | |].
    + by destruct (negb _).
    + destruct (negb _); [done|].
      destruct Hdf as [-> | (row & Hrow & Hbad)]; [done|].
      destruct (df_empty df); [done|].
      destruct (for_each_raises Comission_BRS.load_row (rows df) row [] Hrow
                  (legacy_load_row_raises row Hbad)) as [e ->].
      done.
Qed.

(** ** Annotation, row by row *)

Lemma missing_columns_nil (cols : list string) (required : list string) :
  List.filter (fun col => negb (bool_decide (col ∈ cols))) required = [] →
  ∀ col, col ∈ required → col ∈ cols.
Proof.
  intros Hnil col Hcol.
  destruct (decide (col ∈ cols)) as [|Hn]; [done|].
  assert (Hin : In col (List.filter (fun col => negb (bool_decide (col ∈ cols))) required)).
  { apply filter_In. split; [by apply list_elem_of_In|].
    by rewrite bool_decide_eq_false_2. }
  rewrite Hnil in Hin. destruct Hin.
Qed.

Lemma missing_columns_cons (cols : list string) (required : list string) (col : string) :
  col ∈ required → col ∉ cols →
  ∃ c l, List.filter (fun col => negb (bool_decide (col ∈ cols))) required = c :: l.
Proof.
  intros Hcol Hn.
  destruct (List.filter _ required) as [|c l] eqn:Hf; [|eauto].
  destruct Hn. by eapply missing_columns_nil.
Qed.

Lemma annotate_row_passes (rates : gmap string F) (row : gmap string (cell F)) :
  bind (bind (bind (bind
    (let* v := getitem row "AMOUNT" in
     let* x := convert_amount v in Ok (<["AMOUNT" := CNum x]> row))
    (fun row => let* v := getitem row "COMMISSION" in
                let* x := convert_amount v in Ok (<["COMMISSION" := CNum x]> row)))
    (fun row => let* x := calculate_commission row rates in
                Ok (<[FEE_COL := CNum x]> row)))
    (fun row => let* x := difference row in Ok (<[DELTA_COL := CNum x]> row)))
    (fun row => let* v := getitem row DELTA_COL in
                let* x := round2 v in Ok (<[DELTA_COL := CNum x]> row))
  = annotate_row rates row.
Proof.
  unfold annotate_row.
  destruct (getitem row "AMOUNT") as [a|e]; simpl; [|done].
  destruct (convert_amount a) as [x|e]; simpl; [|done].
  destruct (getitem _ "COMMISSION") as [c|e]; simpl; [|done].
  destruct (convert_amount c) as [y|e]; simpl; [|done].
  destruct (calculate_commission _ rates) as [u|e]; simpl; [|done].
  destruct (difference _) as [dl|e]; simpl; [|done].
  done.
Qed.

Lemma annotate_Ok (df df' : DataFrame F) (rates : gmap string F) :
  annotate df rates = Ok df' →
  (∀ col, col ∈ required_columns → col ∈ columns df)
  ∧ map_result (annotate_row rates) (rows df) = Ok (rows df').
Proof.
  unfold annotate. intros Hann.
  destruct (List.filter _ required_columns) as [|c l] eqn:Hmiss; [|discriminate].
  split; [by apply missing_columns_nil|].
  unfold series_apply, assign_apply in Hann.
  apply bind_Ok_inv in Hann as (df1 & H1 & Hann).
  apply bind_Ok_inv in H1 as (rows1 & H1 & [= <-]).
  apply bind_Ok_inv in Hann as (df2 & H2 & Hann).
  apply bind_Ok_inv in H2 as (rows2 & H2 & [= <-]).
  apply bind_Ok_inv in Hann as (df3 & H3 & Hann).
  apply bind_Ok_inv in H3 as (rows3 & H3 & [= <-]).
  apply bind_Ok_inv in Hann as (df4 & H4 & Hann).
  apply bind_Ok_inv in H4 as (rows4 & H4 & [= <-]).
  apply bind_Ok_inv in Hann as (rows5 & H5 & [= <-]).
  simpl in *.
  pose proof (map_result_fuse _ _ _ _ _ H1 H2) as H12.
  pose proof (map_result_fuse _ _ _ _ _ H12 H3) as H123.
  pose proof (map_result_fuse _ _ _ _ _ H123 H4) as H1234.
  pose proof (map_result_fuse _ _ _ _ _ H1234 H5) as Hall.
  rewrite <- Hall. symmetry. apply map_result_ext.
  intros row. apply annotate_row_passes.
Qed.

Lemma annotate_row_Ok (rates : gmap string F) (row row' : gmap string (cell F)) :
  annotate_row rates row = Ok row' →
  ∃ a amount c recorded fee delta,
    row !! "AMOUNT" = Some a ∧ convert_amount a = Ok amount
    ∧ row !! "COMMISSION" = Some c ∧ convert_amount c = Ok recorded
    ∧ calculate_commission
        (<["COMMISSION" := CNum recorded]> (<["AMOUNT" := CNum amount]> row)) rates = Ok fee
    ∧ difference
        (<[FEE_COL := CNum fee]>
           (<["COMMISSION" := CNum recorded]> (<["AMOUNT" := CNum amount]> row))) = Ok delta
    ∧ row' !! FEE_COL = Some (CNum fee)
    ∧ row' !! DELTA_COL = Some (CNum (np_round2 delta)).
Proof.
  unfold annotate_row, getitem. intros Hrow.
  destruct (row !! "AMOUNT") as [a|] eqn:Ha; simpl in Hrow; [|discriminate].
  destruct (convert_amount a) as [amount|] eqn:Hamount; simpl in Hrow; [|discriminate].
  rewrite lookup_insert_ne in Hrow by done.
  destruct (row !! "COMMISSION") as [c|] eqn:Hc; simpl in Hrow; [|discriminate].
  destruct (convert_amount c) as [recorded|] eqn:Hrecorded; simpl in Hrow; [|discriminate].
  destruct (calculate_commission _ rates) as [fee|] eqn:Hfee; simpl in Hrow; [|discriminate].
  destruct (difference _) as [delta|] eqn:Hdelta; simpl in Hrow; [|discriminate].
  rewrite lookup_insert_eq in Hrow. simpl in Hrow. injection Hrow as <-.
  exists a, amount, c, recorded, fee, delta.
  split_and!; try done.
  - rewrite !lookup_insert_ne by done. apply lookup_insert_eq.
  - apply lookup_insert_eq.
Qed.

Lemma calculate_commission_other (rates : gmap string F) (row : gmap string (cell F))
      (t : cell F) :
  row !! "TYPE" = Some t → cell_eq_str t PURCHASE = false →
  calculate_commission row rates = Ok f_zero.
Proof.
  intros Ht Hne. unfold calculate_commission, getitem. rewrite Ht. simpl.
  by rewrite Hne.
Qed.

Lemma calculate_commission_purchase (rates : gmap string F) (row : gmap string (cell F))
      (t code : cell F) (amount d : F) :
  row !! "TYPE" = Some t → cell_eq_str t PURCHASE = true →
  row !! "PMT_SYSTEM_CODE" = Some code →
  row !! "AMOUNT" = Some (CNum amount) →
  rates !! "DEFAULT" = Some d →
  calculate_commission row rates
  = Ok (py_round2 (f_mul amount (default d (rates !! str_upper (str_strip (str code)))))).
Proof.
  intros Ht Heq Hcode Ha Hd. unfold calculate_commission, getitem.
  rewrite Ht. simpl. rewrite Heq. simpl. rewrite Hcode. simpl.
  rewrite Ha. simpl. by rewrite (rate_of_Ok _ _ d Hd).
Qed.

Lemma difference_other (row : gmap string (cell F)) (t : cell F) :
  row !! "TYPE" = Some t → cell_eq_str t PURCHASE = false →
  difference row = Ok f_zero.
Proof.
  intros Ht Hne. unfold difference, getitem. rewrite Ht. simpl. by rewrite Hne.
Qed.

Lemma difference_purchase (row : gmap string (cell F)) (t : cell F) (recorded fee : F) :
  row !! "TYPE" = Some t → cell_eq_str t PURCHASE = true →
  row !! "COMMISSION" = Some (CNum recorded) →
  row !! FEE_COL = Some (CNum fee) →
  difference row = Ok (f_sub recorded fee).
Proof.
  intros Ht Heq Hc Hu. unfold difference, getitem. rewrite Ht. simpl.
  rewrite Heq, Hc. simpl. by rewrite Hu.
Qed.

Lemma annotate_row_TYPE (rates : gmap string F) (row row' : gmap string (cell F)) :
  annotate_row rates row = Ok row' → is_Some (row !! "TYPE").
Proof.
  intros (a & amount & c & recorded & fee & delta & _ & _ & _ & _ & Hfee & _)%annotate_row_Ok.
  unfold calculate_commission, getitem in Hfee.
  rewrite !lookup_insert_ne in Hfee by done.
  destruct (row !! "TYPE"); [eauto | discriminate].
Qed.

Lemma frame_wf_lookup (df : DataFrame F) (row : gmap string (cell F)) (col : string) :
  frame_wf df = true → row ∈ rows df → col ∈ columns df → is_Some (row !! col).
Proof.
  unfold frame_wf. intros Hwf Hrow Hcol.
  rewrite forallb_forall in Hwf.
  specialize (Hwf row (proj1 (list_elem_of_In _ _) Hrow)).
  rewrite forallb_forall in Hwf.
  specialize (Hwf col (proj1 (list_elem_of_In _ _) Hcol)).
  by apply bool_decide_eq_true in Hwf.
Qed.

(** C1. In a file that [process_file] annotates, every row whose type is
    not the purchase marker gets the computed fee 0 and the difference 0,
    whatever its amount and card code; every purchase row gets the
    computed fee [round(amount * rate, 2)], where [amount] is the
    normalized amount and [rate] is looked up under the stripped,
    upper-cased card code (the [DEFAULT] rate for a code the table lacks),
    and the difference is the normalized recorded fee minus the computed
    fee, rounded to two decimals. *)
Theorem C1_fee_and_delta (df df' : DataFrame F) (rates : gmap string F) (d : F) :
  np_round2 f_zero = f_zero →
  rates !! "DEFAULT" = Some d →
  frame_wf df = true →
  annotate df rates = Ok df' →
  Forall2
    (fun row row' =>
       ∃ t, row !! "TYPE" = Some t
         ∧ if cell_eq_str t PURCHASE then
             ∃ code a c amount recorded,
               row !! "PMT_SYSTEM_CODE" = Some code
               ∧ row !! "AMOUNT" = Some a ∧ convert_amount a = Ok amount
               ∧ row !! "COMMISSION" = Some c ∧ convert_amount c = Ok recorded
               ∧ let rate := default d (rates !! str_upper (str_strip (str code))) in
                 let fee := py_round2 (f_mul amount rate) in
                 row' !! FEE_COL = Some (CNum fee)
                 ∧ row' !! DELTA_COL = Some (CNum (np_round2 (f_sub recorded fee)))
           else
             row' !! FEE_COL = Some (CNum f_zero)
             ∧ row' !! DELTA_COL = Some (CNum f_zero))
    (rows df) (rows df').
Proof.
  intros Hround Hd Hwf Hann.
  apply annotate_Ok in Hann as [Hcols Hrows].
  apply map_result_Ok in Hrows.
  eapply Forall2_elem_of_l; [exact Hrows|].
  intros row row' Hrow _ Hrow'. simpl in Hrow'.
  destruct (annotate_row_TYPE _ _ _ Hrow') as [t Ht].
  apply annotate_row_Ok in Hrow'
    as (a & amount & c & recorded & fee & delta & Ha & Hamount & Hc & Hrecorded
        & Hfee & Hdelta & Hfee' & Hdelta').
  exists t. split; [done|].
  set (r2 := <["COMMISSION" := CNum recorded]> (<["AMOUNT" := CNum amount]> row)) in *.
  assert (Ht2 : r2 !! "TYPE" = Some t).
  { unfold r2. by rewrite !lookup_insert_ne by done. }
  assert (Ht3 : <[FEE_COL := CNum fee]> r2 !! "TYPE" = Some t).
  { by rewrite lookup_insert_ne by done. }
  destruct (cell_eq_str t PURCHASE) eqn:Heq.
  - destruct (frame_wf_lookup df row "PMT_SYSTEM_CODE" Hwf Hrow) as [code Hcode].
    { apply Hcols. unfold required_columns. set_solver. }
    exists code, a, c, amount, recorded. split_and!; try done.
    assert (Hcode2 : r2 !! "PMT_SYSTEM_CODE" = Some code).
    { unfold r2. by rewrite !lookup_insert_ne by done. }
    assert (Ha2 : r2 !! "AMOUNT" = Some (CNum amount)).
    { unfold r2. rewrite lookup_insert_ne by done. apply lookup_insert_eq. }
    rewrite (calculate_commission_purchase rates r2 t code amount d
               Ht2 Heq Hcode2 Ha2 Hd) in Hfee.
    injection Hfee as Hfee. subst fee.
    assert (Hc3 : <[FEE_COL := CNum
                     (py_round2 (f_mul amount
                        (default d (rates !! str_upper (str_strip (str code))))))]> r2
                  !! "COMMISSION" = Some (CNum recorded)).
    { unfold r2. rewrite lookup_insert_ne by done. apply lookup_insert_eq. }
    rewrite (difference_purchase _ t recorded _ Ht3 Heq Hc3 (lookup_insert_eq _ _ _))
      in Hdelta.
    injection Hdelta as Hdelta. subst delta. done.
  - rewrite (calculate_commission_other rates r2 t Ht2 Heq) in Hfee.
    injection Hfee as Hfee. subst fee.
    rewrite (difference_other _ t Ht3 Heq) in Hdelta.
    injection Hdelta as Hdelta. subst delta.
    by rewrite Hround in Hdelta'.
Qed.

(** ** The purchase check *)

Lemma legacy_annotate_row_passes (rates : list (cell F * cell F))
      (row : gmap string (cell F)) :
  bind (bind
    (let* x := Comission_BRS.calculate_commission row rates in
     Ok (<[FEE_COL := CNum x]> row))
    (fun row => let* x := Comission_BRS.difference row in
                Ok (<[DELTA_COL := CNum x]> row)))
    (fun row => let* v := getitem row DELTA_COL in
                let* x := Comission_BRS.round2 v in Ok (<[DELTA_COL := CNum x]> row))
  = annotate_row_raw rates row.
Proof.
  unfold annotate_row_raw.
  destruct (Comission_BRS.calculate_commission row rates) as [u|e]; simpl; [|done].
  destruct (Comission_BRS.difference _) as [dl|e]; simpl; done.
Qed.

Lemma legacy_annotate_Ok (df df' : DataFrame F) (rates : list (cell F * cell F)) :
  Comission_BRS.annotate df rates = Ok df' →
  map_result (annotate_row_raw rates) (rows df) = Ok (rows df').
Proof.
  unfold Comission_BRS.annotate. intros Hann.
  destruct (List.filter _ Comission_BRS.required_columns); [|discriminate].
  unfold series_apply, assign_apply in Hann.
  apply bind_Ok_inv in Hann as (df1 & H1 & Hann).
  apply bind_Ok_inv in H1 as (rows1 & H1 & [= <-]).
  apply bind_Ok_inv in Hann as (df2 & H2 & Hann).
  apply bind_Ok_inv in H2 as (rows2 & H2 & [= <-]).
  apply bind_Ok_inv in Hann as (rows3 & H3 & [= <-]).
  simpl in *.
  pose proof (map_result_fuse _ _ _ _ _ H1 H2) as H12.
  pose proof (map_result_fuse _ _ _ _ _ H12 H3) as Hall.
  rewrite <- Hall. symmetry. apply map_result_ext.
  intros row. apply legacy_annotate_row_passes.
Qed.

Lemma row_ne0_zero (row : gmap string (cell F)) (col : string) :
  f_eqb f_zero f_zero = true →
  row !! col = Some (CNum f_zero) → row_ne0 col row = false.
Proof. intros Hz Hrow. unfold row_ne0. rewrite Hrow. simpl. by rewrite Hz. Qed.

Lemma not_selected (df : DataFrame F) (row : gmap string (cell F)) (col : string) :
  row_ne0 col row = false → row ∉ rows (select_ne0 col df).
Proof.
  intros Hrow Hin. simpl in Hin.
  apply list_elem_of_In, filter_In in Hin as [_ Hin]. congruence.
Qed.

Lemma String_eqb_ne (s t : string) : s ≠ t → String.eqb s t = false.
Proof. intros Hne. by apply String.eqb_neq. Qed.

(** C10. The purchase check is an exact comparison with the marker: a
    row whose type is any other text (so also one that differs from the
    marker only in letter case or in surrounding blanks) gets the computed
    fee 0 and the difference 0 and is not selected as a discrepancy, in
    both scripts; whereas in [run_calc_commission_BRS.py] the computed fee
    depends on the card code only through its stripped, upper-cased form. *)
Theorem C10_purchase_check_is_exact (df df' : DataFrame F) (t : string) :
  np_round2 f_zero = f_zero →
  f_eqb f_zero f_zero = true →
  t ≠ PURCHASE →
  (∀ rates, annotate df rates = Ok df' →
     Forall2
       (fun row row' =>
          row !! "TYPE" = Some (CStr t) →
          row' !! FEE_COL = Some (CNum f_zero)
          ∧ row' !! DELTA_COL = Some (CNum f_zero)
          ∧ row' ∉ rows (select_ne0 DELTA_COL df'))
       (rows df) (rows df'))
  ∧ (∀ rates, Comission_BRS.annotate df rates = Ok df' →
     Forall2
       (fun row row' =>
          row !! "TYPE" = Some (CStr t) →
          row' !! FEE_COL = Some (CNum f_zero)
          ∧ row' !! DELTA_COL = Some (CNum f_zero)
          ∧ row' ∉ rows (select_ne0 DELTA_COL df'))
       (rows df) (rows df'))
  ∧ (∀ rates row c1 c2,
       str_upper (str_strip (str c1)) = str_upper (str_strip (str c2)) →
       calculate_commission (<["PMT_SYSTEM_CODE" := c1]> row) rates
       = calculate_commission (<["PMT_SYSTEM_CODE" := c2]> row) rates).
Proof.
  intros Hround Hzero Hne.
  assert (Hcmp : cell_eq_str (CStr t : cell F) PURCHASE = false).
  { simpl. by apply String_eqb_ne. }
  split_and!.
  - intros rates Hann.
    apply annotate_Ok in Hann as [_ Hrows]. apply map_result_Ok in Hrows.
    eapply Forall2_impl; [exact Hrows|].
    intros row row' Hrow' Ht. simpl in Hrow'.
    apply annotate_row_Ok in Hrow'
      as (a & amount & c & recorded & fee & delta & Ha & Hamount & Hc & Hrecorded
          & Hfee & Hdelta & Hfee' & Hdelta').
    rewrite (calculate_commission_other rates _ (CStr t)) in Hfee;
      [|by rewrite !lookup_insert_ne by done|done].
    injection Hfee as Hfee. subst fee.
    rewrite (difference_other _ (CStr t)) in Hdelta;
      [|by rewrite !lookup_insert_ne by done|done].
    injection Hdelta as Hdelta. subst delta.
    rewrite Hround in Hdelta'.
    split_and!; [done | done |].
    by apply not_selected, row_ne0_zero.
  - intros rates Hann.
    apply legacy_annotate_Ok in Hann. apply map_result_Ok in Hann.
    eapply Forall2_impl; [exact Hann|].
    intros row row' Hrow' Ht. simpl in Hrow'.
    unfold annotate_row_raw, Comission_BRS.calculate_commission,
      Comission_BRS.difference, getitem in Hrow'.
    rewrite Ht in Hrow'. simpl in Hrow'.
    rewrite (String_eqb_ne _ _ Hne) in Hrow'. simpl in Hrow'.
    rewrite lookup_insert_ne in Hrow' by done.
    rewrite Ht in Hrow'. simpl in Hrow'.
    rewrite (String_eqb_ne _ _ Hne) in Hrow'. simpl in Hrow'.
    rewrite lookup_insert_eq in Hrow'. simpl in Hrow'.
    rewrite Hround in Hrow'. injection Hrow' as <-.
    assert (Hdelta : <[DELTA_COL := CNum f_zero]>
              (<[DELTA_COL := CNum f_zero]> (<[FEE_COL := CNum f_zero]> row))
              !! DELTA_COL = Some (CNum f_zero)) by apply lookup_insert_eq.
    split_and!; [|done|].
    + rewrite !lookup_insert_ne by done. apply lookup_insert_eq.
    + by apply not_selected, row_ne0_zero.
  - intros rates row c1 c2 Hcodes.
    unfold calculate_commission, getitem.
    rewrite !lookup_insert_eq. simpl.
    rewrite !lookup_insert_ne by done.
    by rewrite Hcodes.
Qed.

(** ** One file, then all files *)

Lemma add_column_nonempty (cols : list string) (col : string) : add_column cols col ≠ [].
Proof.
  unfold add_column. case_bool_decide as Hin.
  - intros ->. by apply not_elem_of_nil in Hin.
  - by destruct cols.
Qed.

Lemma annotate_columns (df df' : DataFrame F) (rates : gmap string F) :
  annotate df rates = Ok df' → columns df' ≠ [].
Proof.
  unfold annotate. intros Hann.
  destruct (List.filter _ required_columns); [|discriminate].
  unfold series_apply, assign_apply in Hann.
  apply bind_Ok_inv in Hann as (df1 & H1 & Hann).
  apply bind_Ok_inv in Hann as (df2 & H2 & Hann).
  apply bind_Ok_inv in Hann as (df3 & H3 & Hann).
  apply bind_Ok_inv in Hann as (df4 & H4 & Hann).
  apply bind_Ok_inv in H4 as (rows4 & H4 & [= <-]).
  apply bind_Ok_inv in Hann as (rows5 & H5 & [= <-]).
  simpl. apply add_column_nonempty.
Qed.

Lemma df_empty_rows (df : DataFrame F) :
  columns df ≠ [] → df_empty df = true → rows df = [].
Proof. unfold df_empty. destruct (columns df), (rows df); done. Qed.

Lemma rows_nil_df_empty (df : DataFrame F) : rows df = [] → df_empty df = true.
Proof. unfold df_empty. intros ->. by destruct (columns df). Qed.

(** A file that cannot be read or annotated leaves the collection as it was
    and stores no workbook. *)
Lemma process_file_raises (w : World F) (p : Path) (results_df : DataFrame F)
      (rates : gmap string F) :
  raises (prepare w p rates) → process_file w p results_df rates = (results_df, []).
Proof. unfold prepare, process_file. by intros [e ->]. Qed.

(** A file that is annotated appends its selected rows, tagged, however
    the block that writes its workbook is left. *)
Lemma process_file_Ok (w : World F) (p : Path) (results_df df : DataFrame F)
      (rates : gmap string F) :
  prepare w p rates = Ok df →
  rows (fst (process_file w p results_df rates))
  = (rows results_df ++ (tag p <$> List.filter (row_ne0 DELTA_COL) (rows df)))%list
  ∧ snd (process_file w p results_df rates)
    = match excel_writer w (processed_path p) df with
      | Ok _ => [(processed_path p, df)]
      | Raise _ =>
          if excel_saved w (processed_path p) df then [(processed_path p, df)] else []
      end
  ∧ (columns results_df ≠ [] → columns (fst (process_file w p results_df rates)) ≠ [])
  ∧ (rows (fst (process_file w p results_df rates)) ≠ [] →
     rows results_df = [] →
     columns (fst (process_file w p results_df rates)) ≠ []).
Proof.
  intros Hprep.
  assert (Hcols : columns df ≠ []).
  { unfold prepare in Hprep. apply bind_Ok_inv in Hprep as (r & _ & Hann).
    by eapply annotate_columns. }
  unfold prepare in Hprep. unfold process_file. rewrite Hprep.
  destruct (df_empty (select_ne0 DELTA_COL df)) eqn:Hempty; simpl.
  - apply df_empty_rows in Hempty; [|done]. simpl in Hempty.
    destruct (excel_writer w (processed_path p) df); simpl;
      rewrite Hempty, app_nil_r; done.
  - assert (Hcat : ∀ cols, (columns results_df ++ List.filter
               (fun c => negb (bool_decide (c ∈ columns results_df)))
               (add_column cols FILE_COL))%list ≠ []).
    { intros cols Hnil. apply app_eq_nil in Hnil as [Hres Hnil].
      rewrite Hres in Hnil.
      rewrite (filter_ext _ (fun _ => true)) in Hnil.
      - clear Hres. induction (add_column cols FILE_COL) as [|c l IH] eqn:Hl;
          [by eapply add_column_nonempty | discriminate].
      - intros c. by rewrite bool_decide_eq_false_2 by apply not_elem_of_nil. }
    destruct (excel_writer w (processed_path p) df); simpl; split_and!; try done;
      intros; apply Hcat.
Qed.

Lemma contribution_eq (w : World F) (rates : gmap string F) (p : Path) :
  contribution w rates p
  = match prepare w p rates with
    | Ok df => tag p <$> List.filter (row_ne0 DELTA_COL) (rows df)
    | Raise _ => []
    end.
Proof.
  unfold contribution.
  destruct (prepare w p rates) as [df|e] eqn:Hprep.
  - by destruct (process_file_Ok w p empty_frame df rates Hprep) as [-> _].
  - rewrite process_file_raises; [done | by exists e].
Qed.

Lemma process_file_rows (w : World F) (p : Path) (results_df : DataFrame F)
      (rates : gmap string F) :
  rows (fst (process_file w p results_df rates))
  = (rows results_df ++ contribution w rates p)%list.
Proof.
  rewrite contribution_eq.
  destruct (prepare w p rates) as [df|e] eqn:Hprep.
  - by destruct (process_file_Ok w p results_df df rates Hprep) as [-> _].
  - rewrite process_file_raises; [simpl; by rewrite app_nil_r | by exists e].
Qed.

(** Rows imply labels: a collection with rows has labels. *)
Lemma process_file_labelled (w : World F) (p : Path) (results_df : DataFrame F)
      (rates : gmap string F) :
  (rows results_df ≠ [] → columns results_df ≠ []) →
  rows (fst (process_file w p results_df rates)) ≠ [] →
  columns (fst (process_file w p results_df rates)) ≠ [].
Proof.
  intros Hinv Hrows.
  destruct (prepare w p rates) as [df|e] eqn:Hprep.
  - destruct (process_file_Ok w p results_df df rates Hprep) as (_ & _ & Hkeep & Hnew).
    destruct (rows results_df) eqn:Hres; [by apply Hnew | by apply Hkeep, Hinv].
  - rewrite process_file_raises in *; [|by exists e..]. by apply Hinv.
Qed.

Lemma process_all_rows (w : World F) (rates : gmap string F) (files : list Path)
      (results_df : DataFrame F) :
  rows (fst (process_all w rates files results_df))
  = (rows results_df ++ flat_map (contribution w rates) files)%list
  ∧ ((rows results_df ≠ [] → columns results_df ≠ []) →
     rows (fst (process_all w rates files results_df)) ≠ [] →
     columns (fst (process_all w rates files results_df)) ≠ []).
Proof.
  unfold process_all. generalize (@nil (Path * DataFrame F)) as outs.
  revert results_df.
  induction files as [|p files IH]; intros results_df outs; simpl.
  - by rewrite app_nil_r.
  - destruct (IH (fst (process_file w p results_df rates))
                 (outs ++ snd (process_file w p results_df rates))%list) as [-> Hlab].
    split.
    + by rewrite process_file_rows, app_assoc.
    + intros Hinv. apply Hlab. by apply process_file_labelled.
Qed.

(** Every annotated row holds a number in the difference column. *)
Lemma prepare_delta (w : World F) (p : Path) (rates : gmap string F)
      (df : DataFrame F) (row : gmap string (cell F)) :
  prepare w p rates = Ok df → row ∈ rows df →
  ∃ x, row !! DELTA_COL = Some (CNum x).
Proof.
  unfold prepare. intros (r & _ & Hann)%bind_Ok_inv Hrow.
  apply annotate_Ok in Hann as [_ Hrows]. apply map_result_Ok in Hrows.
  destruct (Forall2_in_r _ _ _ _ Hrows Hrow) as (row0 & _ & Hpass).
  apply annotate_row_Ok in Hpass
    as (a & amount & c & recorded & fee & delta & _ & _ & _ & _ & _ & _ & _ & Hdelta).
  eauto.
Qed.

Lemma tag_preserves_ne0 (p : Path) (row : gmap string (cell F)) :
  row_ne0 DELTA_COL (tag p row) = row_ne0 DELTA_COL row.
Proof. unfold row_ne0, tag. by rewrite lookup_insert_ne by done. Qed.

(** C2. The rows a file contributes are exactly its annotated rows whose
    rounded difference is not zero, tagged, in the order of the file; a
    file that cannot be read or annotated contributes none; and the rows
    of the aggregate report (and of the frame [main] returns) are the
    time-stamped concatenation of the contributions in the order in which
    the files are processed, so that their number is the sum of the
    numbers of contributed rows. *)
Theorem C2_report_is_concatenation (w : World F) :
  (∀ rates p df,
     prepare w p rates = Ok df →
     contribution w rates p = tag p <$> List.filter (row_ne0 DELTA_COL) (rows df)
     ∧ ∀ row, row ∈ rows df →
         ∃ x, row !! DELTA_COL = Some (CNum x)
              ∧ (tag p row ∈ contribution w rates p ↔ f_eqb x f_zero = false))
  ∧ (∀ rates p, raises (prepare w p rates) → contribution w rates p = [])
  ∧ (∀ report,
       returned (main w) = Ok report ∨ results_xlsx (main w) = Written report →
       rows report
       = stamp w <$> flat_map (contribution w (load_commission_rates w)) (processed_files w)
       ∧ length (rows report)
         = sum_list (length ∘ contribution w (load_commission_rates w)
                       <$> processed_files w)).
Proof.
  split_and!.
  - intros rates p df Hprep. rewrite contribution_eq, Hprep. split; [done|].
    intros row Hrow.
    destruct (prepare_delta w p rates df row Hprep Hrow) as [x Hx].
    exists x. split; [done|].
    assert (Hne0 : row_ne0 DELTA_COL row = negb (f_eqb x f_zero)).
    { unfold row_ne0. by rewrite Hx. }
    rewrite list_elem_of_fmap. split.
    + intros (row0 & Htag & Hrow0).
      apply list_elem_of_In, filter_In in Hrow0 as [_ Hrow0].
      rewrite <- tag_preserves_ne0 with (p := p), <- Htag, tag_preserves_ne0 in Hrow0.
      rewrite Hne0 in Hrow0. by apply negb_true_iff.
    + intros Hzero. exists row. split; [done|].
      apply list_elem_of_In, filter_In. split; [by apply list_elem_of_In|].
      rewrite Hne0. by apply negb_true_iff.
  - intros rates p [e He]. by rewrite contribution_eq, He.
  - intros report Hreport.
    assert (Hrows : rows report
              = stamp w <$> flat_map (contribution w (load_commission_rates w))
                              (processed_files w)).
    { unfold main in Hreport.
      destruct (processed_files w) as [|p files] eqn:Hfiles.
      { simpl in Hreport. destruct Hreport as [[= <-] | ?]; done. }
      rewrite <- Hfiles in *. clear Hfiles p files.
      destruct (process_all_rows w (load_commission_rates w) (processed_files w)
                  empty_frame) as [Hall Hlab].
      simpl in Hall. rewrite <- Hall.
      destruct (df_empty (fst (process_all _ _ _ _))) eqn:Hempty; simpl in Hreport.
      - destruct Hreport as [[= <-] | Hreport].
        + destruct (rows (fst (process_all w (load_commission_rates w)
                                 (processed_files w) empty_frame))) eqn:Hr; [done|].
          apply df_empty_rows in Hempty; [congruence|].
          by apply Hlab.
        + by destruct (path_exists w (results_path w)).
      - destruct (excel_writer w (results_path w) _); simpl in Hreport.
        + destruct Hreport as [[= <-] | [= <-]]; done.
        + destruct Hreport as [? | Hreport]; [done|].
          destruct (excel_saved w (results_path w) _); [by injection Hreport as <-|].
          by destruct (path_exists w (results_path w)). }
    split; [done|].
    by rewrite Hrows, length_fmap, length_flat_map.
Qed.

(** C7. With no input file, [main] stores no workbook and leaves
    [results.xlsx] alone; when no file contributes a row, [results.xlsx]
    is at most cleared, never written; and a report that is written has at
    least one row, so that "no report" and "a report without rows" cannot
    be confused. *)
Theorem C7_no_report_without_discrepancies (w : World F) :
  (processed_files w = [] →
     processed (main w) = [] ∧ results_xlsx (main w) = Untouched
     ∧ returned (main w) = Ok empty_frame)
  ∧ ((∀ p, p ∈ processed_files w → contribution w (load_commission_rates w) p = []) →
     (results_xlsx (main w) = Untouched ∨ results_xlsx (main w) = Truncated)
     ∧ ∀ report, results_xlsx (main w) ≠ Written report)
  ∧ (∀ report, results_xlsx (main w) = Written report → rows report ≠ []).
Proof.
  split_and!.
  - intros Hfiles. unfold main. by rewrite Hfiles.
  - intros Hnone.
    assert (Hflat : flat_map (contribution w (load_commission_rates w))
                      (processed_files w) = []).
    { induction (processed_files w) as [|p files IH]; simpl; [done|].
      rewrite Hnone by left. apply IH. intros q Hq. apply Hnone. by right. }
    unfold main.
    destruct (processed_files w) as [|p files] eqn:Hfiles; simpl; [by split; [left|]|].
    rewrite <- Hfiles in *.
    destruct (process_all_rows w (load_commission_rates w) (processed_files w)
                empty_frame) as [Hall _].
    rewrite Hflat in Hall. simpl in Hall.
    rewrite (rows_nil_df_empty _ Hall). simpl.
    destruct (path_exists w (results_path w)); split; auto; done.
  - intros report Hreport. unfold main in Hreport.
    destruct (processed_files w) as [|p files]; simpl in Hreport; [done|].
    destruct (df_empty (fst (process_all _ _ _ _))) eqn:Hempty; simpl in Hreport.
    + by destruct (path_exists w (results_path w)).
    + assert (Hstamped : ∀ df : DataFrame F,
                df_empty df = false →
                Written (assign_const TIME_COL (CStr (now w)) df) = Written report →
                rows report ≠ []).
      { intros df Hdf [= <-]. simpl. intros Hnil%fmap_nil_inv.
        apply rows_nil_df_empty in Hnil. congruence. }
      destruct (excel_writer w (results_path w) _); simpl in Hreport.
      * by eapply Hstamped.
      * destruct (excel_saved w (results_path w) _); [by eapply Hstamped|].
        by destruct (path_exists w (results_path w)).
Qed.

(** ** Failures *)

Lemma annotate_missing_column (df : DataFrame F) (rates : gmap string F) (col : string) :
  col ∈ required_columns → col ∉ columns df → annotate df rates = Raise ValueError.
Proof.
  intros Hcol Hn. unfold annotate.
  by destruct (missing_columns_cons (columns df) required_columns col Hcol Hn)
    as (c & l & ->).
Qed.

(** One cell of the amount or recorded-fee column that is not a number
    makes the whole annotation raise. *)
Lemma annotate_bad_cell (df : DataFrame F) (rates : gmap string F)
      (row : gmap string (cell F)) (col : string) (v : cell F) :
  row ∈ rows df → col = "AMOUNT" ∨ col = "COMMISSION" →
  row !! col = Some v → raises (convert_amount v) →
  raises (annotate df rates).
Proof.
  intros Hrow Hcol Hv Hbad. unfold annotate.
  destruct (List.filter _ required_columns); [|by exists ValueError].
  destruct (series_apply "AMOUNT" convert_amount df) as [df1|e] eqn:H1; simpl;
    [|by exists e].
  unfold series_apply in H1.
  apply bind_Ok_inv in H1 as (rows1 & H1 & [= <-]).
  destruct Hcol as [-> | ->].
  - exfalso. eapply raises_not_Ok; [|exact H1].
    eapply map_result_raises; [exact Hrow|].
    unfold getitem. rewrite Hv. simpl. by apply bind_raises_l.
  - apply map_result_Ok in H1.
    destruct (Forall2_in_l _ _ _ _ H1 Hrow) as (row1 & Hrow1 & Hpass).
    apply bind_Ok_inv in Hpass as (a & _ & Hpass).
    apply bind_Ok_inv in Hpass as (x & _ & [= <-]).
    apply bind_raises_l. unfold series_apply. simpl.
    apply bind_raises_l.
    eapply map_result_raises; [exact Hrow1|].
    unfold getitem. rewrite lookup_insert_ne by done. rewrite Hv. simpl.
    by apply bind_raises_l.
Qed.

(** C4, as the code has it.  A file whose reading, column check or
    normalization fails leaves the accumulated collection unchanged and
    stores no workbook.  A file whose failure comes later, inside the
    block that writes and colours its annotated workbook, has already had
    its discrepancies appended: the collection returned is the accumulated
    one followed by the tagged rows of the file whose difference is not
    zero. *)
Theorem C4_failure_contribution (w : World F) (p : Path) (results_df : DataFrame F)
        (rates : gmap string F) :
  (raises (read_file_with_encoding w p) →
     process_file w p results_df rates = (results_df, []))
  ∧ (∀ df enc col,
       read_file_with_encoding w p = Ok (df, enc) →
       col ∈ required_columns → col ∉ columns df →
       process_file w p results_df rates = (results_df, []))
  ∧ (∀ df enc row col v,
       read_file_with_encoding w p = Ok (df, enc) →
       row ∈ rows df → col = "AMOUNT" ∨ col = "COMMISSION" →
       row !! col = Some v → raises (convert_amount v) →
       process_file w p results_df rates = (results_df, []))
  ∧ (∀ df,
       prepare w p rates = Ok df →
       raises (excel_writer w (processed_path p) df) →
       rows (fst (process_file w p results_df rates))
       = (rows results_df ++ (tag p <$> List.filter (row_ne0 DELTA_COL) (rows df)))%list).
Proof.
  split_and!.
  - intros Hread. apply process_file_raises. unfold prepare. by apply bind_raises_l.
  - intros df enc col Hread Hcol Hn. apply process_file_raises.
    unfold prepare. rewrite Hread. simpl.
    rewrite (annotate_missing_column df rates col Hcol Hn). by exists ValueError.
  - intros df enc row col v Hread Hrow Hcol Hv Hbad. apply process_file_raises.
    unfold prepare. rewrite Hread. simpl. by eapply annotate_bad_cell.
  - intros df Hprep _.
    by destruct (process_file_Ok w p results_df df rates Hprep) as (Hrows & _).
Qed.

End Properties.

(** * The properties on the sample files *)

Import Decimal6.

Lemma C8_convert_amount_witness :
  float_of_str "1234.56" = Some 1234560000%Z
  ∧ convert_amount (CStr "1 234,56" : cell Z) = Ok 1234560000%Z
  ∧ float_of_str (spec_clean_amount "12 a,5") = (None : option Z)
  ∧ convert_amount (CStr "12 a,5" : cell Z) = Raise ValueError.
Proof.
  destruct (C8_convert_amount (F := Z)) as (_ & _ & Hscenario & _ & Hbad).
  split_and!;
    [reflexivity | apply Hscenario; reflexivity | reflexivity | apply Hbad; reflexivity].
Defined.

Lemma C9_convert_amount_idempotent_witness :
  convert_amount (CStr "1 234,56" : cell Z) = Ok 1234560000%Z
  ∧ convert_amount (CNum 1234560000%Z) = Ok 1234560000%Z
  ∧ bind (convert_amount (CStr "1 234,56" : cell Z)) (fun y => convert_amount (CNum y))
    = convert_amount (CStr "1 234,56" : cell Z).
Proof.
  split; [reflexivity|].
  apply (C9_convert_amount_idempotent (CStr "1 234,56" : cell Z) 1234560000%Z).
  reflexivity.
Defined.

Lemma C6_rate_lookup_total_witness :
  load_commission_rates Sample.world_setup_good !! "JCB" = None
  ∧ ∃ d r, load_commission_rates Sample.world_setup_good !! "DEFAULT" = Some d
      ∧ rate_of (load_commission_rates Sample.world_setup_good) "JCB" = Ok r
      ∧ r = d.
Proof.
  assert (Hjcb : load_commission_rates Sample.world_setup_good !! "JCB" = None)
    by (vm_compute; reflexivity).
  split; [exact Hjcb|].
  destruct (C6_rate_lookup_total Sample.world_setup_good "JCB")
    as (d & r & Hd & Hr & Hnone & _).
  exists d, r. split_and!; [exact Hd | exact Hr | exact (Hnone Hjcb)].
Defined.

Lemma C5_load_falls_back_witness :
  (read_excel Sample.world_setup_bad (setup_path Sample.world_setup_bad)
     = Ok Sample.setup_bad
   ∧ Sample.rate_row (CStr "VISA") (CStr "abc") ∈ rows Sample.setup_bad
   ∧ Sample.rate_row (CStr "VISA") (CStr "abc") !! RATE_COL = Some (CStr "abc")
   ∧ float_of_str "abc" = (None : option Z)
   ∧ load_commission_rates Sample.world_setup_bad = default_rates)
  ∧ (path_exists Sample.world_idle (Comission_BRS.setup_path Sample.world_idle) = false
     ∧ Comission_BRS.load_commission_rates Sample.world_idle
       = Comission_BRS.fallback_rates).
Proof.
  assert (Hread : read_excel Sample.world_setup_bad (setup_path Sample.world_setup_bad)
                  = Ok Sample.setup_bad) by reflexivity.
  assert (Hrow : Sample.rate_row (CStr "VISA") (CStr "abc") ∈ rows Sample.setup_bad)
    by (apply list_elem_of_further, list_elem_of_here).
  assert (Hcell : Sample.rate_row (CStr "VISA") (CStr "abc") !! RATE_COL
                  = Some (CStr "abc")) by (vm_compute; reflexivity).
  assert (Hnan : float_of_str "abc" = (None : option Z)) by reflexivity.
  assert (Hmissing : path_exists Sample.world_idle
                       (Comission_BRS.setup_path Sample.world_idle) = false)
    by reflexivity.
  destruct (C5_load_falls_back Sample.world_setup_bad) as (Hnew & _ & _).
  destruct (C5_load_falls_back Sample.world_idle) as (_ & _ & Hold).
  split; [split_and!; [exact Hread | exact Hrow | exact Hcell | exact Hnan |]
         | split; [exact Hmissing|]].
  - apply Hnew. right. right. exists Sample.setup_bad. split; [exact Hread|].
    right. exists (Sample.rate_row (CStr "VISA") (CStr "abc")).
    split; [exact Hrow|]. right. right. exists "abc". split; [exact Hcell | exact Hnan].
  - apply Hold. left. exact Hmissing.
Defined.

Lemma C1_fee_and_delta_witness :
  np_round2 (f_zero : Z) = f_zero
  ∧ default_rates !! "DEFAULT" = Some 0%Z
  ∧ frame_wf Sample.frame_a = true
  ∧ annotate Sample.frame_a default_rates = Ok (Sample.annotated Sample.world_a "a.xlsx")
  ∧ Forall2
      (fun row row' =>
         ∃ t, row !! "TYPE" = Some t
           ∧ if cell_eq_str t PURCHASE then
               ∃ code a c amount recorded,
                 row !! "PMT_SYSTEM_CODE" = Some code
                 ∧ row !! "AMOUNT" = Some a ∧ convert_amount a = Ok amount
                 ∧ row !! "COMMISSION" = Some c ∧ convert_amount c = Ok recorded
                 ∧ let rate := default 0%Z (default_rates !! str_upper (str_strip (str code))) in
                   let fee := py_round2 (f_mul amount rate) in
                   row' !! FEE_COL = Some (CNum fee)
                   ∧ row' !! DELTA_COL = Some (CNum (np_round2 (f_sub recorded fee)))
             else
               row' !! FEE_COL = Some (CNum f_zero)
               ∧ row' !! DELTA_COL = Some (CNum f_zero))
      (rows Sample.frame_a) (rows (Sample.annotated Sample.world_a "a.xlsx")).
Proof.
  assert (Hround : np_round2 (f_zero : Z) = f_zero) by reflexivity.
  assert (Hd : (default_rates (F := Z)) !! "DEFAULT" = Some 0%Z)
    by (vm_compute; reflexivity).
  assert (Hwf : frame_wf Sample.frame_a = true) by (vm_compute; reflexivity).
  assert (Hann : annotate Sample.frame_a default_rates
                 = Ok (Sample.annotated Sample.world_a "a.xlsx"))
    by (vm_compute; reflexivity).
  split_and!; [exact Hround | exact Hd | exact Hwf | exact Hann |].
  exact (C1_fee_and_delta Sample.frame_a (Sample.annotated Sample.world_a "a.xlsx")
           default_rates 0%Z Hround Hd Hwf Hann).
Defined.

Lemma C10_purchase_check_is_exact_witness :
  np_round2 (f_zero : Z) = f_zero
  ∧ f_eqb (f_zero : Z) f_zero = true
  ∧ " покупка " ≠ PURCHASE
  ∧ str_upper (str_strip " покупка ") = PURCHASE
  ∧ Sample.row_lower !! "TYPE" = Some (CStr " покупка ")
  ∧ (annotate Sample.frame_a default_rates = Ok (Sample.annotated Sample.world_a "a.xlsx")
     ∧ Forall2
         (fun row row' =>
            row !! "TYPE" = Some (CStr " покупка ") →
            row' !! FEE_COL = Some (CNum f_zero)
            ∧ row' !! DELTA_COL = Some (CNum f_zero)
            ∧ row' ∉ rows (select_ne0 DELTA_COL (Sample.annotated Sample.world_a "a.xlsx")))
         (rows Sample.frame_a) (rows (Sample.annotated Sample.world_a "a.xlsx")))
  ∧ (Comission_BRS.annotate Sample.frame_quiet Comission_BRS.fallback_rates
       = Ok (Sample.annotated_raw Sample.frame_quiet)
     ∧ Forall2
         (fun row row' =>
            row !! "TYPE" = Some (CStr " покупка ") →
            row' !! FEE_COL = Some (CNum f_zero)
            ∧ row' !! DELTA_COL = Some (CNum f_zero)
            ∧ row' ∉ rows (select_ne0 DELTA_COL (Sample.annotated_raw Sample.frame_quiet)))
         (rows Sample.frame_quiet) (rows (Sample.annotated_raw Sample.frame_quiet)))
  ∧ (str_upper (str_strip (str (CStr " mir " : cell Z)))
       = str_upper (str_strip (str (CStr "MIR" : cell Z)))
     ∧ calculate_commission (<["PMT_SYSTEM_CODE" := CStr " mir "]> Sample.row_jcb) default_rates
       = calculate_commission (<["PMT_SYSTEM_CODE" := CStr "MIR"]> Sample.row_jcb) default_rates).
Proof.
  assert (Hround : np_round2 (f_zero : Z) = f_zero) by reflexivity.
  assert (Hzero : f_eqb (f_zero : Z) f_zero = true) by reflexivity.
  assert (Hne : " покупка " ≠ PURCHASE) by discriminate.
  assert (Hann : annotate Sample.frame_a default_rates
                 = Ok (Sample.annotated Sample.world_a "a.xlsx"))
    by (vm_compute; reflexivity).
  assert (Hraw : Comission_BRS.annotate Sample.frame_quiet Comission_BRS.fallback_rates
                 = Ok (Sample.annotated_raw Sample.frame_quiet))
    by (vm_compute; reflexivity).
  assert (Hcodes : str_upper (str_strip (str (CStr " mir " : cell Z)))
                   = str_upper (str_strip (str (CStr "MIR" : cell Z))))
    by reflexivity.
  destruct (C10_purchase_check_is_exact Sample.frame_a
              (Sample.annotated Sample.world_a "a.xlsx") " покупка " Hround Hzero Hne)
    as (Hnew & _ & Hcode).
  destruct (C10_purchase_check_is_exact Sample.frame_quiet
              (Sample.annotated_raw Sample.frame_quiet) " покупка " Hround Hzero Hne)
    as (_ & Hold & _).
  split_and!;
    [ exact Hround | exact Hzero | exact Hne | reflexivity | vm_compute; reflexivity
    | exact Hann | exact (Hnew default_rates Hann)
    | exact Hraw | exact (Hold Comission_BRS.fallback_rates Hraw)
    | exact Hcodes | exact (Hcode default_rates Sample.row_jcb _ _ Hcodes) ].
Defined.

Lemma C2_report_is_concatenation_witness :
  (prepare Sample.world_two (Sample.path_of "a.xlsx")
           (load_commission_rates Sample.world_two)
   = Ok (Sample.annotated Sample.world_two "a.xlsx")
   ∧ contribution Sample.world_two (load_commission_rates Sample.world_two)
                  (Sample.path_of "a.xlsx")
     = tag (Sample.path_of "a.xlsx")
         <$> List.filter (row_ne0 DELTA_COL)
               (rows (Sample.annotated Sample.world_two "a.xlsx"))
   ∧ Sample.annotated_mir ∈ rows (Sample.annotated Sample.world_two "a.xlsx")
   ∧ ∃ x, Sample.annotated_mir !! DELTA_COL = Some (CNum x)
       ∧ (tag (Sample.path_of "a.xlsx") Sample.annotated_mir
            ∈ contribution Sample.world_two (load_commission_rates Sample.world_two)
                (Sample.path_of "a.xlsx")
          ↔ f_eqb x f_zero = false))
  ∧ (raises (prepare Sample.world_two (Sample.path_of "bad.csv")
               (load_commission_rates Sample.world_two))
     ∧ contribution Sample.world_two (load_commission_rates Sample.world_two)
         (Sample.path_of "bad.csv") = [])
  ∧ (returned (main Sample.world_two) = Ok (Sample.report Sample.world_two)
     ∧ rows (Sample.report Sample.world_two)
       = stamp Sample.world_two
           <$> flat_map (contribution Sample.world_two
                           (load_commission_rates Sample.world_two))
                        (processed_files Sample.world_two)
     ∧ length (rows (Sample.report Sample.world_two))
       = sum_list (length ∘ contribution Sample.world_two
                              (load_commission_rates Sample.world_two)
                     <$> processed_files Sample.world_two)).
Proof.
  assert (Hprep : prepare Sample.world_two (Sample.path_of "a.xlsx")
                          (load_commission_rates Sample.world_two)
                  = Ok (Sample.annotated Sample.world_two "a.xlsx"))
    by (vm_compute; reflexivity).
  assert (Hrow : Sample.annotated_mir ∈ rows (Sample.annotated Sample.world_two "a.xlsx")).
  { apply list_elem_of_In. vm_compute. left. reflexivity. }
  assert (Hbad : raises (prepare Sample.world_two (Sample.path_of "bad.csv")
                           (load_commission_rates Sample.world_two))).
  { exists ValueError. vm_compute. reflexivity. }
  assert (Hret : returned (main Sample.world_two) = Ok (Sample.report Sample.world_two))
    by (vm_compute; reflexivity).
  destruct (C2_report_is_concatenation Sample.world_two) as (Hfile & Hskip & Hall).
  destruct (Hfile _ _ _ Hprep) as [Hcontrib Hiff].
  destruct (Hall (Sample.report Sample.world_two) (or_introl Hret)) as [Hrows Hlen].
  split_and!;
    [ exact Hprep | exact Hcontrib | exact Hrow | exact (Hiff _ Hrow)
    | exact Hbad | exact (Hskip _ _ Hbad)
    | exact Hret | exact Hrows | exact Hlen ].
Defined.

Lemma C7_no_report_without_discrepancies_witness :
  (processed_files Sample.world_idle = []
   ∧ processed (main Sample.world_idle) = []
   ∧ results_xlsx (main Sample.world_idle) = Untouched)
  ∧ ((∀ p, p ∈ processed_files Sample.world_quiet →
           contribution Sample.world_quiet (load_commission_rates Sample.world_quiet) p = [])
     ∧ (results_xlsx (main Sample.world_quiet) = Untouched
        ∨ results_xlsx (main Sample.world_quiet) = Truncated))
  ∧ (results_xlsx (main Sample.world_a) = Written (Sample.report Sample.world_a)
     ∧ rows (Sample.report Sample.world_a) ≠ []).
Proof.
  assert (Hidle : processed_files Sample.world_idle = []) by reflexivity.
  assert (Hquiet : ∀ p, p ∈ processed_files Sample.world_quiet →
            contribution Sample.world_quiet (load_commission_rates Sample.world_quiet) p = []).
  { intros p Hp. apply list_elem_of_singleton in Hp. rewrite Hp.
    vm_compute. reflexivity. }
  assert (Hwritten : results_xlsx (main Sample.world_a)
                     = Written (Sample.report Sample.world_a))
    by (vm_compute; reflexivity).
  destruct (C7_no_report_without_discrepancies Sample.world_idle) as (Hnone & _ & _).
  destruct (C7_no_report_without_discrepancies Sample.world_quiet) as (_ & Hclean & _).
  destruct (C7_no_report_without_discrepancies Sample.world_a) as (_ & _ & Hrows).
  destruct (Hnone Hidle) as (Hp & Hr & _).
  destruct (Hclean Hquiet) as [Hq _].
  split_and!; [exact Hidle | exact Hp | exact Hr | exact Hquiet | exact Hq
               | exact Hwritten | exact (Hrows _ Hwritten)].
Defined.

Lemma C4_failure_contribution_witness :
  (raises (read_file_with_encoding Sample.world_idle (Sample.path_of "gone.csv"))
   ∧ process_file Sample.world_idle (Sample.path_of "gone.csv")
       Sample.frame_jcb default_rates = (Sample.frame_jcb, []))
  ∧ (read_file_with_encoding Sample.world_short (Sample.path_of "short.xlsx")
       = Ok (Sample.frame_short, None)
     ∧ "COMMISSION" ∈ required_columns ∧ ("COMMISSION" ∉ columns Sample.frame_short)
     ∧ process_file Sample.world_short (Sample.path_of "short.xlsx")
         Sample.frame_jcb default_rates = (Sample.frame_jcb, []))
  ∧ (read_file_with_encoding Sample.world_bad (Sample.path_of "bad.csv")
       = Ok (Sample.frame_bad, Some "utf-8")
     ∧ Sample.row_text_amount ∈ rows Sample.frame_bad
     ∧ Sample.row_text_amount !! "AMOUNT" = Some (CStr "abc")
     ∧ raises (convert_amount (CStr "abc" : cell Z))
     ∧ process_file Sample.world_bad (Sample.path_of "bad.csv")
         Sample.frame_jcb default_rates = (Sample.frame_jcb, []))
  ∧ (prepare Sample.world_locked (Sample.path_of "a.xlsx") default_rates
       = Ok (Sample.annotated Sample.world_locked "a.xlsx")
     ∧ raises (excel_writer Sample.world_locked (processed_path (Sample.path_of "a.xlsx"))
                 (Sample.annotated Sample.world_locked "a.xlsx"))
     ∧ rows (fst (process_file Sample.world_locked (Sample.path_of "a.xlsx")
                    Sample.frame_jcb default_rates))
       = (rows Sample.frame_jcb
          ++ (tag (Sample.path_of "a.xlsx")
                <$> List.filter (row_ne0 DELTA_COL)
                      (rows (Sample.annotated Sample.world_locked "a.xlsx"))))%list).
Proof.
  assert (Hgone : raises (read_file_with_encoding Sample.world_idle
                            (Sample.path_of "gone.csv")))
    by (exists ValueError; reflexivity).
  assert (Hshort : read_file_with_encoding Sample.world_short (Sample.path_of "short.xlsx")
                   = Ok (Sample.frame_short, None)) by reflexivity.
  assert (Hreq : "COMMISSION" ∈ required_columns)
    by (do 2 apply list_elem_of_further; apply list_elem_of_here).
  assert (Hlack : "COMMISSION" ∉ columns Sample.frame_short).
  { intros Hin. apply elem_of_cons in Hin as [Hin | Hin]; [discriminate|].
    apply list_elem_of_singleton in Hin. discriminate. }
  assert (Hbad : read_file_with_encoding Sample.world_bad (Sample.path_of "bad.csv")
                 = Ok (Sample.frame_bad, Some "utf-8")) by reflexivity.
  assert (Hrow : Sample.row_text_amount ∈ rows Sample.frame_bad)
    by apply list_elem_of_here.
  assert (Hcell : Sample.row_text_amount !! "AMOUNT" = Some (CStr "abc"))
    by (vm_compute; reflexivity).
  assert (Habc : raises (convert_amount (CStr "abc" : cell Z)))
    by (exists ValueError; reflexivity).
  assert (Hprep : prepare Sample.world_locked (Sample.path_of "a.xlsx") default_rates
                  = Ok (Sample.annotated Sample.world_locked "a.xlsx"))
    by (vm_compute; reflexivity).
  assert (Hlocked : raises (excel_writer Sample.world_locked
                              (processed_path (Sample.path_of "a.xlsx"))
                              (Sample.annotated Sample.world_locked "a.xlsx")))
    by (exists OSError; reflexivity).
  destruct (C4_failure_contribution Sample.world_idle (Sample.path_of "gone.csv")
              Sample.frame_jcb default_rates) as (Hread & _ & _ & _).
  destruct (C4_failure_contribution Sample.world_short (Sample.path_of "short.xlsx")
              Sample.frame_jcb default_rates) as (_ & Hschema & _ & _).
  destruct (C4_failure_contribution Sample.world_bad (Sample.path_of "bad.csv")
              Sample.frame_jcb default_rates) as (_ & _ & Hnorm & _).
  destruct (C4_failure_contribution Sample.world_locked (Sample.path_of "a.xlsx")
              Sample.frame_jcb default_rates) as (_ & _ & _ & Hwrite).
  split_and!;
    [ exact Hgone | exact (Hread Hgone)
    | exact Hshort | exact Hreq | exact Hlack
    | exact (Hschema _ _ _ Hshort Hreq Hlack)
    | exact Hbad | exact Hrow | exact Hcell | exact Habc
    | exact (Hnorm _ _ _ _ _ Hbad Hrow (or_introl eq_refl) Hcell Habc)
    | exact Hprep | exact Hlocked | exact (Hwrite _ Hprep Hlocked) ].
Defined.

(** C4 as stated fails when the failure comes from the block that writes
    the annotated workbook: the file [a.xlsx] is annotated, the block
    raises, and [process_file], called with the empty collection, returns
    a collection of two rows.  Hence it is not true that every file whose
    processing fails leaves the collection unchanged. *)
Lemma C4_counterexample :
  (prepare Sample.world_locked (Sample.path_of "a.xlsx") default_rates
   = Ok (Sample.annotated Sample.world_locked "a.xlsx")
   ∧ excel_writer Sample.world_locked (processed_path (Sample.path_of "a.xlsx"))
       (Sample.annotated Sample.world_locked "a.xlsx") = Raise OSError
   ∧ length (rows (fst (process_file Sample.world_locked (Sample.path_of "a.xlsx")
                          empty_frame default_rates))) = 2
   ∧ fst (process_file Sample.world_locked (Sample.path_of "a.xlsx")
            empty_frame default_rates) ≠ empty_frame)
  ∧ ¬ (∀ (w : World Z) (p : Path) (results_df : DataFrame Z) (rates : gmap string Z),
         (raises (prepare w p rates)
          ∨ ∃ df, prepare w p rates = Ok df
                  ∧ raises (excel_writer w (processed_path p) df)) →
         fst (process_file w p results_df rates) = results_df).
Proof.
  assert (Hprep : prepare Sample.world_locked (Sample.path_of "a.xlsx") default_rates
                  = Ok (Sample.annotated Sample.world_locked "a.xlsx"))
    by (vm_compute; reflexivity).
  assert (Hwrite : excel_writer Sample.world_locked
                     (processed_path (Sample.path_of "a.xlsx"))
                     (Sample.annotated Sample.world_locked "a.xlsx") = Raise OSError)
    by reflexivity.
  assert (Hne : fst (process_file Sample.world_locked (Sample.path_of "a.xlsx")
                       empty_frame default_rates) ≠ empty_frame).
  { intros Heq. apply (f_equal (fun df => length (rows df))) in Heq.
    vm_compute in Heq. discriminate. }
  split.
  - split_and!; [exact Hprep | exact Hwrite | vm_compute; reflexivity | exact Hne].
  - intros Hatomic. apply Hne, Hatomic. right.
    exists (Sample.annotated Sample.world_locked "a.xlsx").
    split; [exact Hprep | by exists OSError].
Qed.

(** C3, evaluated.  The file [bad.csv] holds a purchase whose amount is the
    text ["abc"], followed by a purchase with a difference of 5.00.  On
    the first row alone [calculate_commission] answers 0.0 without
    raising; but [process_file] converts the amount column before it
    computes any fee, so the file is abandoned: nothing is added to the
    collection and no workbook is stored, although the second row, in a
    file of its own, is reported. *)
Theorem C3_bad_amount_discards_file :
  calculate_commission Sample.row_text_amount default_rates = Ok 0%Z
  ∧ raises (convert_amount (CStr "abc" : cell Z))
  ∧ rows Sample.frame_bad = [Sample.row_text_amount; Sample.row_jcb]
  ∧ process_file Sample.world_bad (Sample.path_of "bad.csv") empty_frame default_rates
    = (empty_frame, [])
  ∧ contribution Sample.world_bad default_rates (Sample.path_of "bad.csv") = []
  ∧ contribution Sample.world_jcb default_rates (Sample.path_of "jcb.csv")
    = [tag (Sample.path_of "jcb.csv")
         (<[DELTA_COL := CNum 5000000%Z]> (<[FEE_COL := CNum 0%Z]> Sample.row_jcb))].
Proof.
  split_and!; try (vm_compute; reflexivity).
  exists ValueError. reflexivity.
Qed.

(** * Further properties of the two scripts *)

(** ** Texts *)

Lemma append_cons (c : ascii) (s t : string) : String c s +:+ t = String c (s +:+ t).
Proof. reflexivity. Qed.

Lemma append_assoc (s t u : string) : (s +:+ t) +:+ u = s +:+ (t +:+ u).
Proof.
  induction s as [|c s IH]; [done|]. by rewrite !append_cons, IH.
Qed.

Lemma append_empty_r (s : string) : s +:+ EmptyString = s.
Proof.
  induction s as [|c s IH]; [done|]. by rewrite append_cons, IH.
Qed.

Lemma rev_app_spec (s acc : string) : String.rev_app s acc = String.rev s +:+ acc.
Proof.
  unfold String.rev. revert acc.
  induction s as [|c s IH]; intros acc; simpl; [done|].
  rewrite (IH (String c EmptyString)), IH.
  by rewrite append_assoc.
Qed.

Lemma rev_cons (c : ascii) (s : string) :
  String.rev (String c s) = String.rev s +:+ String c EmptyString.
Proof. unfold String.rev at 1. simpl. apply rev_app_spec. Qed.

Lemma rev_append (s t : string) : String.rev (s +:+ t) = String.rev t +:+ String.rev s.
Proof.
  induction s as [|c s IH].
  - change (EmptyString +:+ t) with t. by rewrite append_empty_r.
  - by rewrite append_cons, !rev_cons, IH, append_assoc.
Qed.

Lemma prefix_append (s t : string) : String.prefix s (s +:+ t) = true.
Proof.
  induction s as [|c s IH]; [by destruct t|].
  rewrite append_cons. simpl. by destruct (Ascii.ascii_dec c c).
Qed.

Lemma endswith_append (s suffix : string) : endswith (s +:+ suffix) suffix = true.
Proof. unfold endswith. rewrite rev_append. apply prefix_append. Qed.

Lemma str_replace_absent (old : ascii) (new s : string) :
  (∀ c, c ∈ list_ascii_of_string s → c ≠ old) → str_replace old new s = s.
Proof.
  induction s as [|c s IH]; intros Hs; simpl; [done|].
  destruct (Ascii.eqb c old) eqn:Hc.
  - apply Ascii.eqb_eq in Hc. destruct (Hs c); [left | done].
  - rewrite IH; [done|]. intros c' Hc'. apply Hs. by right.
Qed.

Section MoreProperties.
Context {F : Type} `{PyRuntime F}.

(** ** Reading *)

(** X1. [read_file_with_encoding] of [run_calc_commission_BRS.py] raises
    nothing but [ValueError]; the pair it returns is truthful: a workbook
    comes from [read_excel] with no encoding, a delimited file comes from
    [read_csv] under the encoding returned, which is UTF-8, or
    windows-1251 after UTF-8 failed to decode, or the detected encoding
    after both failed to decode; and an error of the UTF-8 attempt that is
    not a decoding error ends the chain. *)
Theorem X1_read_file_with_encoding_sound (w : World F) (p : Path) :
  (∀ e, read_file_with_encoding w p = Raise e → e = ValueError)
  ∧ (∀ df enc,
       read_file_with_encoding w p = Ok (df, enc) →
       if is_delimited (basename p) then
         read_csv w p enc = Ok df
         ∧ (enc = Some "utf-8"
            ∨ (enc = Some "windows-1251"
               ∧ read_csv w p (Some "utf-8") = Raise UnicodeDecodeError)
            ∨ (read_csv w p (Some "utf-8") = Raise UnicodeDecodeError
               ∧ read_csv w p (Some "windows-1251") = Raise UnicodeDecodeError
               ∧ detect_encoding w p = Ok enc))
       else enc = None ∧ read_excel w p = Ok df)
  ∧ (∀ e, is_delimited (basename p) = true →
          read_csv w p (Some "utf-8") = Raise e → e ≠ UnicodeDecodeError →
          read_file_with_encoding w p = Raise ValueError).
Proof.
  unfold read_file_with_encoding. split_and!.
  - intros e. destruct (is_delimited (basename p)).
    + destruct (read_csv w p (Some "utf-8")) as [df|[]]; try by intros [= <-].
      destruct (read_csv w p (Some "windows-1251")) as [df|[]]; try by intros [= <-].
      destruct (detect_encoding w p) as [enc|e']; simpl; [|by intros [= <-]].
      destruct (read_csv w p enc); simpl; [done | by intros [= <-]].
    + destruct (read_excel w p); simpl; [done | by intros [= <-]].
  - intros df enc. destruct (is_delimited (basename p)).
    + destruct (read_csv w p (Some "utf-8")) as [df0|[]] eqn:Hutf; try done.
      { intros [= <- <-]. split; [done | by left]. }
      destruct (read_csv w p (Some "windows-1251")) as [df1|[]] eqn:Hwin; try done.
      { intros [= <- <-]. split; [done | right; by left]. }
      destruct (detect_encoding w p) as [enc'|e'] eqn:Hdet; simpl; [|done].
      destruct (read_csv w p enc') as [df2|e2] eqn:Hread; simpl; [|done].
      intros [= <- <-]. split; [done | right; right; done].
    + destruct (read_excel w p) as [df0|e0]; simpl; [|done].
      by intros [= <- <-].
  - intros e -> -> Hne. by destruct e.
Qed.

(** X2. [read_file_with_encoding] of [run_calc_comission_BRS.py], given
    the same reader of delimited files, returns a frame exactly when the
    one of [run_calc_commission_BRS.py] does, and then the same frame and
    encoding.  Its errors differ: an error of the UTF-8 attempt that is
    not a decoding error, and any error of [read_excel], becomes
    [ValueError]; but once the UTF-8 attempt failed to decode, an error of
    the later attempts (reading as windows-1251, detecting the encoding,
    reading under the detected encoding) leaves the function as it is,
    not turned into [ValueError]. *)
Theorem X2_legacy_read_errors (read_csv_plain : Path → option string → result (DataFrame F))
        (w : World F) (p : Path) :
  (∀ r, Comission_BRS_IO.read_file_with_encoding (read_csv w) w p = Ok r
        ↔ read_file_with_encoding w p = Ok r)
  ∧ (is_delimited (basename p) = false →
   ∀ e, Comission_BRS_IO.read_file_with_encoding read_csv_plain w p = Raise e →
        e = ValueError)
  ∧ (is_delimited (basename p) = true →
     ∀ e, read_csv_plain p (Some "utf-8") = Raise e → e ≠ UnicodeDecodeError →
          Comission_BRS_IO.read_file_with_encoding read_csv_plain w p = Raise ValueError)
  ∧ (is_delimited (basename p) = true →
     read_csv_plain p (Some "utf-8") = Raise UnicodeDecodeError →
     (∀ e, read_csv_plain p (Some "windows-1251") = Raise e → e ≠ UnicodeDecodeError →
           Comission_BRS_IO.read_file_with_encoding read_csv_plain w p = Raise e)
     ∧ (read_csv_plain p (Some "windows-1251") = Raise UnicodeDecodeError →
        (∀ e, Comission_BRS_IO.detect_encoding w p = Raise e →
              Comission_BRS_IO.read_file_with_encoding read_csv_plain w p = Raise e)
        ∧ (∀ enc e, Comission_BRS_IO.detect_encoding w p = Ok enc →
                    read_csv_plain p enc = Raise e →
                    Comission_BRS_IO.read_file_with_encoding read_csv_plain w p = Raise e))).
Proof.
  unfold Comission_BRS_IO.read_file_with_encoding. split_and!.
  - intros r. unfold read_file_with_encoding, Comission_BRS_IO.detect_encoding,
      detect_encoding.
    destruct (is_delimited (basename p)).
    + destruct (read_csv w p (Some "utf-8")) as [df|[]]; try done.
      destruct (read_csv w p (Some "windows-1251")) as [df|[]]; try done.
      destruct (chardet_detect w p) as [enc|e]; simpl; [|done].
      by destruct (read_csv w p enc).
    + by destruct (read_excel w p).
  - intros -> e. destruct (read_excel w p); [done | by intros [= <-]].
  - intros -> e -> Hne. by destruct e.
  - intros -> ->. split.
    + intros e -> Hne. by destruct e.
    + intros ->. split.
      * by intros e ->.
      * intros enc e Hdet Hread. rewrite Hdet. simpl. by rewrite Hread.
Qed.

(** ** Amounts *)

Lemma spec_clean_amount_idem (s : string) :
  spec_clean_amount (spec_clean_amount s) = spec_clean_amount s.
Proof.
  rewrite <- (str_replace_space_comma (spec_clean_amount s)).
  rewrite (str_replace_absent " "); [rewrite (str_replace_absent ","); [done|]|];
    intros c Hc; by apply spec_clean_amount_chars in Hc as [? ?].
Qed.

(** X3. Cleaning an amount text is idempotent, and [convert_amount] sees a
    text only through its cleaned form: a cleaned text converts as the
    text it came from, and two texts with the same cleaned form (such as
    ["1 234,56"] and ["1234.56"]) convert alike, whether to a number or to
    an error. *)
Theorem X3_convert_amount_by_cleaned_text (s s' : string) :
  spec_clean_amount (spec_clean_amount s) = spec_clean_amount s
  ∧ convert_amount (CStr (spec_clean_amount s) : cell F) = convert_amount (CStr s)
  ∧ (spec_clean_amount s = spec_clean_amount s' →
     convert_amount (CStr s : cell F) = convert_amount (CStr s')).
Proof.
  split_and!.
  - apply spec_clean_amount_idem.
  - unfold convert_amount. by rewrite !str_replace_space_comma, spec_clean_amount_idem.
  - intros Hclean. unfold convert_amount. by rewrite !str_replace_space_comma, Hclean.
Qed.

(** ** Fees *)

(** X4. [calculate_commission] raises only when the row has no [TYPE]
    cell, and then [KeyError]; on every other row it returns a number.
    For a purchase row that number is [0.0] whenever anything inside the
    [try] block fails: the card code or the amount is missing, the amount
    is not a number, or the table has no [DEFAULT] entry, the last even
    when the table holds the row's card code. *)
Theorem X4_calculate_commission_errors (row : gmap string (cell F))
        (rates : gmap string F) :
  (row !! "TYPE" = None → calculate_commission row rates = Raise KeyError)
  ∧ (is_Some (row !! "TYPE") → ∃ x, calculate_commission row rates = Ok x)
  ∧ (∀ t, row !! "TYPE" = Some t → cell_eq_str t PURCHASE = true →
          (row !! "PMT_SYSTEM_CODE" = None
           ∨ row !! "AMOUNT" = None
           ∨ (∃ a, row !! "AMOUNT" = Some a ∧ raises (convert_amount a))
           ∨ rates !! "DEFAULT" = None) →
          calculate_commission row rates = Ok f_zero).
Proof.
  unfold calculate_commission, getitem. split_and!.
  - by intros ->.
  - intros [t ->]. simpl. destruct (negb (cell_eq_str t PURCHASE)); [eauto|].
    match goal with
    | |- ∃ x, match ?r with Ok _ => _ | Raise _ => _ end = Ok x =>
        destruct r; eauto
    end.
  - intros t -> Heq Hfail. simpl. rewrite Heq. simpl.
    destruct (row !! "PMT_SYSTEM_CODE") as [code|]; simpl; [|done].
    destruct (row !! "AMOUNT") as [a|]; simpl; [|done].
    destruct (convert_amount a) as [amount|e] eqn:Hamount; simpl; [|done].
    destruct Hfail as [? | [? | [(a' & [= <-] & Hbad) | Hd]]]; try done.
    + exfalso. by eapply raises_not_Ok.
    + unfold rate_of, dict_getitem. by rewrite Hd.
Qed.

(** ** The loaded rate table *)

Lemma for_each_Ok {A S : Type} (body : S → A → result S) (l : list A) :
  (∀ x, x ∈ l → ∀ s, ∃ s', body s x = Ok s') →
  ∀ acc, ∃ r, for_each body l acc = Ok r.
Proof.
  induction l as [|x l IH]; intros Hbody acc; simpl; [eauto|].
  destruct (Hbody x (list_elem_of_here _ _) acc) as [acc' ->]. simpl.
  apply IH. intros y Hy. apply Hbody. by right.
Qed.

Lemma load_row_Ok (acc acc' : gmap string F) (row : gmap string (cell F)) :
  load_row acc row = Ok acc' →
  ∃ c v x, row !! CARD_TYPE_COL = Some c ∧ row !! RATE_COL = Some v
           ∧ float v = Ok x ∧ acc' = <[str_upper (str_strip (str c)) := x]> acc.
Proof.
  unfold load_row, getitem. intros Hrow.
  destruct (row !! CARD_TYPE_COL) as [c|]; simpl in Hrow; [|discriminate].
  destruct (row !! RATE_COL) as [v|]; simpl in Hrow; [|discriminate].
  destruct (float v) as [x|] eqn:Hx; simpl in Hrow; [|discriminate].
  injection Hrow as <-. by exists c, v, x.
Qed.

(** What the loop over the rows of [setup.xlsx] leaves under each key. *)
Lemma for_each_load_row (l : list (gmap string (cell F))) (acc rates : gmap string F) :
  for_each load_row l acc = Ok rates →
  (∀ k, (∀ row c, row ∈ l → row !! CARD_TYPE_COL = Some c →
                  str_upper (str_strip (str c)) ≠ k) →
        rates !! k = acc !! k)
  ∧ (∀ l1 row l2 c v x,
       l = (l1 ++ row :: l2)%list →
       row !! CARD_TYPE_COL = Some c → row !! RATE_COL = Some v → float v = Ok x →
       (∀ row' c', row' ∈ l2 → row' !! CARD_TYPE_COL = Some c' →
                   str_upper (str_strip (str c')) ≠ str_upper (str_strip (str c))) →
       rates !! str_upper (str_strip (str c)) = Some x).
Proof.
  revert acc. induction l as [|row0 l IH]; intros acc Hloop; simpl in Hloop.
  - injection Hloop as <-. split; [done|].
    intros l1 row l2 c v x Hl. by destruct l1.
  - apply bind_Ok_inv in Hloop as (acc' & Hrow0 & Hloop).
    apply load_row_Ok in Hrow0 as (c0 & v0 & x0 & Hc0 & Hv0 & Hx0 & ->).
    destruct (IH _ Hloop) as [IHother IHlast]. split.
    + intros k Hk. rewrite IHother.
      * apply lookup_insert_ne. eapply Hk; [left | done].
      * intros row c Hrow. apply Hk. by right.
    + intros l1 row l2 c v x Hl Hc Hv Hx Hlater.
      destruct l1 as [|r l1]; simpl in Hl; injection Hl as -> ->.
      * rewrite IHother by done.
        rewrite Hc in Hc0. injection Hc0 as <-.
        rewrite Hv in Hv0. injection Hv0 as <-.
        rewrite Hx in Hx0. injection Hx0 as <-.
        apply lookup_insert_eq.
      * by eapply IHlast.
Qed.

(** X5. When [setup.xlsx] exists, is not empty and every row of it has a
    card type and a rate that [float] accepts, the table returned holds
    the rows of the file and nothing of the built-in table: a code other
    than [DEFAULT] that no row gives, once stripped and upper-cased, is
    absent (also [MIR] or [VISA]); [DEFAULT] is [0.0] unless a row gives
    it; and under the stripped, upper-cased code of a row stands the rate
    of the last row with that code. *)
Theorem X5_loaded_rates (w : World F) (df : DataFrame F) :
  path_exists w (setup_path w) = true →
  read_excel w (setup_path w) = Ok df →
  df_empty df = false →
  (∀ row, row ∈ rows df →
     ∃ c v x, row !! CARD_TYPE_COL = Some c ∧ row !! RATE_COL = Some v ∧ float v = Ok x) →
  (∀ k, k ≠ "DEFAULT" →
        (∀ row c, row ∈ rows df → row !! CARD_TYPE_COL = Some c →
                  str_upper (str_strip (str c)) ≠ k) →
        load_commission_rates w !! k = None)
  ∧ ((∀ row c, row ∈ rows df → row !! CARD_TYPE_COL = Some c →
               str_upper (str_strip (str c)) ≠ "DEFAULT") →
     load_commission_rates w !! "DEFAULT" = Some f_zero)
  ∧ (∀ l1 row l2 c v x,
       rows df = (l1 ++ row :: l2)%list →
       row !! CARD_TYPE_COL = Some c → row !! RATE_COL = Some v → float v = Ok x →
       (∀ row' c', row' ∈ l2 → row' !! CARD_TYPE_COL = Some c' →
                   str_upper (str_strip (str c')) ≠ str_upper (str_strip (str c))) →
       load_commission_rates w !! str_upper (str_strip (str c)) = Some x).
Proof.
  intros Hexists Hread Hempty Hparse.
  destruct (for_each_Ok load_row (rows df)) with (acc := (∅ : gmap string F))
    as [rates Hloop].
  { intros row Hrow acc. destruct (Hparse row Hrow) as (c & v & x & Hc & Hv & Hx).
    unfold load_row, getitem. rewrite Hc, Hv. simpl. rewrite Hx. simpl. eauto. }
  assert (Hload : load_commission_rates w = setdefault rates "DEFAULT" f_zero).
  { unfold load_commission_rates, load_commission_rates_try.
    rewrite Hexists, Hread. simpl. rewrite Hempty, Hloop. simpl.
    unfold dict_getitem. by rewrite default_rates_DEFAULT. }
  rewrite Hload. clear Hload.
  destruct (for_each_load_row _ _ _ Hloop) as [Hother Hlast].
  unfold setdefault. split_and!.
  - intros k Hk Hnone.
    destruct (rates !! "DEFAULT"); [|rewrite lookup_insert_ne by done];
      by rewrite Hother.
  - intros Hnone. rewrite (Hother "DEFAULT" Hnone), lookup_empty.
    apply lookup_insert_eq.
  - intros l1 row l2 c v x Hl Hc Hv Hx Hlater.
    pose proof (Hlast l1 row l2 c v x Hl Hc Hv Hx Hlater) as Hk.
    destruct (rates !! "DEFAULT") eqn:Hd; [done|].
    rewrite lookup_insert_ne; [done|]. intros Heq. congruence.
Qed.

(** ** The annotated frame *)

Lemma annotate_row_shape (rates : gmap string F) (row row' : gmap string (cell F)) :
  annotate_row rates row = Ok row' →
  ∃ amount recorded fee delta,
    row' = <[DELTA_COL := CNum (np_round2 delta)]>
             (<[DELTA_COL := CNum delta]>
                (<[FEE_COL := CNum fee]>
                   (<["COMMISSION" := CNum recorded]>
                      (<["AMOUNT" := CNum amount]> row)))).
Proof.
  unfold annotate_row, getitem. intros Hrow.
  destruct (row !! "AMOUNT") as [a|]; simpl in Hrow; [|discriminate].
  destruct (convert_amount a) as [amount|]; simpl in Hrow; [|discriminate].
  rewrite lookup_insert_ne in Hrow by done.
  destruct (row !! "COMMISSION") as [c|]; simpl in Hrow; [|discriminate].
  destruct (convert_amount c) as [recorded|]; simpl in Hrow; [|discriminate].
  destruct (calculate_commission _ rates) as [fee|]; simpl in Hrow; [|discriminate].
  destruct (difference _) as [delta|]; simpl in Hrow; [|discriminate].
  rewrite lookup_insert_eq in Hrow. simpl in Hrow. injection Hrow as <-.
  by exists amount, recorded, fee, delta.
Qed.

Lemma annotate_columns_eq (df df' : DataFrame F) (rates : gmap string F) :
  annotate df rates = Ok df' →
  columns df' = add_column (add_column (columns df) FEE_COL) DELTA_COL.
Proof.
  unfold annotate. intros Hann.
  destruct (List.filter _ required_columns); [|discriminate].
  unfold series_apply, assign_apply in Hann.
  apply bind_Ok_inv in Hann as (df1 & H1 & Hann).
  apply bind_Ok_inv in H1 as (rows1 & H1 & [= <-]).
  apply bind_Ok_inv in Hann as (df2 & H2 & Hann).
  apply bind_Ok_inv in H2 as (rows2 & H2 & [= <-]).
  apply bind_Ok_inv in Hann as (df3 & H3 & Hann).
  apply bind_Ok_inv in H3 as (rows3 & H3 & [= <-]).
  apply bind_Ok_inv in Hann as (df4 & H4 & Hann).
  apply bind_Ok_inv in H4 as (rows4 & H4 & [= <-]).
  apply bind_Ok_inv in Hann as (rows5 & H5 & [= <-]).
  done.
Qed.

Lemma add_column_elem (cols : list string) (col c : string) :
  c ∈ add_column cols col ↔ c ∈ cols ∨ c = col.
Proof.
  unfold add_column. case_bool_decide as Hin.
  - split; [by left | by intros [? | ->]].
  - rewrite elem_of_app, list_elem_of_singleton. done.
Qed.

Lemma add_column_prefix (cols : list string) (col : string) :
  cols `prefix_of` add_column cols col.
Proof.
  unfold add_column. case_bool_decide; [done | by apply prefix_app_r].
Qed.

(** X6. Annotation keeps the file as it is and adds to it: the annotated
    frame has the rows of the frame read, in number and in order; in each
    row every cell outside the amount, recorded-fee, computed-fee and
    difference columns is unchanged, and these four hold numbers; the
    labels are those of the frame read, in their order, followed by the
    labels of the two computed columns where they are new; and when every
    row of the frame read has a cell under every label, so has every row
    of the annotated frame. *)
Theorem X6_annotated_frame (df df' : DataFrame F) (rates : gmap string F) :
  annotate df rates = Ok df' →
  length (rows df') = length (rows df)
  ∧ Forall2
      (fun row row' =>
         (∀ c, c ≠ "AMOUNT" → c ≠ "COMMISSION" → c ≠ FEE_COL → c ≠ DELTA_COL →
               row' !! c = row !! c)
         ∧ ∃ amount recorded fee delta,
             row' !! "AMOUNT" = Some (CNum amount)
             ∧ row' !! "COMMISSION" = Some (CNum recorded)
             ∧ row' !! FEE_COL = Some (CNum fee)
             ∧ row' !! DELTA_COL = Some (CNum delta))
      (rows df) (rows df')
  ∧ columns df `prefix_of` columns df'
  ∧ (∀ c, c ∈ columns df' ↔ c ∈ columns df ∨ c = FEE_COL ∨ c = DELTA_COL)
  ∧ (frame_wf df = true → frame_wf df' = true).
Proof.
  intros Hann.
  pose proof (annotate_columns_eq _ _ _ Hann) as Hcols.
  apply annotate_Ok in Hann as [_ Hrows]. apply map_result_Ok in Hrows.
  assert (Hshape : Forall2
            (fun row row' =>
               (∀ c, c ≠ "AMOUNT" → c ≠ "COMMISSION" → c ≠ FEE_COL → c ≠ DELTA_COL →
                     row' !! c = row !! c)
               ∧ ∃ amount recorded fee delta,
                   row' !! "AMOUNT" = Some (CNum amount)
                   ∧ row' !! "COMMISSION" = Some (CNum recorded)
                   ∧ row' !! FEE_COL = Some (CNum fee)
                   ∧ row' !! DELTA_COL = Some (CNum delta))
            (rows df) (rows df')).
  { eapply Forall2_impl; [exact Hrows|].
    intros row row' (amount & recorded & fee & delta & ->)%annotate_row_shape. split.
    - intros c ? ? ? ?. by rewrite !lookup_insert_ne by done.
    - exists amount, recorded, fee, (np_round2 delta). split_and!.
      + rewrite !lookup_insert_ne by done. apply lookup_insert_eq.
      + rewrite !lookup_insert_ne by done. apply lookup_insert_eq.
      + rewrite !lookup_insert_ne by done. apply lookup_insert_eq.
      + apply lookup_insert_eq. }
  assert (Hlabels : ∀ c, c ∈ columns df' ↔ c ∈ columns df ∨ c = FEE_COL ∨ c = DELTA_COL).
  { intros c. rewrite Hcols, !add_column_elem. tauto. }
  split_and!.
  - symmetry. by eapply Forall2_length.
  - exact Hshape.
  - rewrite Hcols. etrans; apply add_column_prefix.
  - exact Hlabels.
  - intros Hwf. unfold frame_wf. apply forallb_forall. intros row' Hrow'.
    apply list_elem_of_In in Hrow'.
    destruct (Forall2_in_r _ _ _ _ Hshape Hrow')
      as (row & Hrow & Hkeep & amount & recorded & fee & delta & Ha & Hc & Hf & Hd).
    apply forallb_forall. intros c Hc'. apply list_elem_of_In, Hlabels in Hc'.
    apply bool_decide_eq_true.
    destruct (decide (c = "AMOUNT")) as [-> | ?]; [by rewrite Ha|].
    destruct (decide (c = "COMMISSION")) as [-> | ?]; [by rewrite Hc|].
    destruct (decide (c = FEE_COL)) as [-> | ?]; [by rewrite Hf|].
    destruct (decide (c = DELTA_COL)) as [-> | ?]; [by rewrite Hd|].
    rewrite Hkeep by done.
    destruct Hc' as [Hc' | [? | ?]]; [|done..].
    by eapply frame_wf_lookup.
Qed.

(** ** When annotation succeeds *)

Lemma map_result_total {A B : Type} (f : A → result B) (l : list A) :
  (∀ x, x ∈ l → ∃ y, f x = Ok y) → ∃ k, map_result f l = Ok k.
Proof.
  induction l as [|x l IH]; intros Hf; simpl; [eauto|].
  destruct (Hf x (list_elem_of_here _ _)) as [y ->]. simpl.
  destruct IH as [k ->]; [|simpl; eauto].
  intros x' Hx'. apply Hf. by right.
Qed.

Lemma map_result_unfuse {A B C : Type} (f : A → result B) (g : B → result C)
      (l : list A) (m : list C) :
  map_result (fun x => bind (f x) g) l = Ok m →
  ∃ k, map_result f l = Ok k ∧ map_result g k = Ok m.
Proof.
  revert m. induction l as [|x l IH]; intros m Hm; simpl in Hm.
  - injection Hm as <-. by exists [].
  - apply bind_Ok_inv in Hm as (z & Hz & Hm).
    apply bind_Ok_inv in Hm as (zs & Hzs & [= <-]).
    apply bind_Ok_inv in Hz as (y & Hy & Hz).
    destruct (IH _ Hzs) as (k & Hk & Hgk).
    exists (y :: k). simpl. by rewrite Hy, Hk, Hz, Hgk.
Qed.

Lemma missing_columns_present (cols required : list string) :
  (∀ col, col ∈ required → col ∈ cols) →
  List.filter (fun col => negb (bool_decide (col ∈ cols))) required = [].
Proof.
  induction required as [|col required IH]; intros Hall; simpl; [done|].
  rewrite bool_decide_eq_true_2 by (apply Hall; left). simpl.
  apply IH. intros c Hc. apply Hall. by right.
Qed.

(** The column passes succeed as soon as the row function does on every row. *)
Lemma annotate_of_rows (df : DataFrame F) (rates : gmap string F)
      (rows' : list (gmap string (cell F))) :
  (∀ col, col ∈ required_columns → col ∈ columns df) →
  map_result (annotate_row rates) (rows df) = Ok rows' →
  ∃ df', annotate df rates = Ok df'.
Proof.
  intros Hcols Hrows.
  erewrite map_result_ext in Hrows
    by (intros row; symmetry; apply annotate_row_passes).
  apply map_result_unfuse in Hrows as (rows4 & Hrows & H5).
  apply map_result_unfuse in Hrows as (rows3 & Hrows & H4).
  apply map_result_unfuse in Hrows as (rows2 & Hrows & H3).
  apply map_result_unfuse in Hrows as (rows1 & H1 & H2).
  unfold annotate. rewrite (missing_columns_present _ _ Hcols).
  unfold series_apply, assign_apply. rewrite H1. simpl. rewrite H2. simpl.
  rewrite H3. simpl. rewrite H4. simpl. rewrite H5. simpl. eauto.
Qed.

Lemma calculate_commission_total (row : gmap string (cell F)) (rates : gmap string F) :
  is_Some (row !! "TYPE") → ∃ x, calculate_commission row rates = Ok x.
Proof.
  intros [t Ht]. unfold calculate_commission, getitem. rewrite Ht. simpl.
  destruct (negb (cell_eq_str t PURCHASE)); [eauto|].
  match goal with
  | |- ∃ x, match ?r with Ok _ => _ | Raise _ => _ end = Ok x => destruct r; eauto
  end.
Qed.

Lemma annotate_row_total (rates : gmap string F) (row : gmap string (cell F))
      (t a c : cell F) (amount recorded : F) :
  row !! "TYPE" = Some t →
  row !! "AMOUNT" = Some a → convert_amount a = Ok amount →
  row !! "COMMISSION" = Some c → convert_amount c = Ok recorded →
  ∃ row', annotate_row rates row = Ok row'.
Proof.
  intros Ht Ha Hamount Hc Hrecorded. unfold annotate_row, getitem.
  rewrite Ha. simpl. rewrite Hamount. simpl.
  rewrite lookup_insert_ne by done. rewrite Hc. simpl. rewrite Hrecorded. simpl.
  set (r2 := <["COMMISSION" := CNum recorded]> (<["AMOUNT" := CNum amount]> row)).
  assert (Ht2 : r2 !! "TYPE" = Some t).
  { unfold r2. by rewrite !lookup_insert_ne by done. }
  destruct (calculate_commission_total r2 rates) as [fee ->]; [eauto|]. simpl.
  assert (Hdelta : ∃ delta, difference (<[FEE_COL := CNum fee]> r2) = Ok delta).
  { unfold difference, getitem. rewrite lookup_insert_ne by done. rewrite Ht2. simpl.
    destruct (cell_eq_str t PURCHASE); [|eauto].
    rewrite lookup_insert_ne by done. unfold r2. rewrite lookup_insert_eq. simpl.
    rewrite lookup_insert_eq. simpl. eauto. }
  destruct Hdelta as [delta ->]. simpl.
  rewrite lookup_insert_eq. simpl. eauto.
Qed.

(** X7. A frame in which every row has a cell under every label is
    annotated exactly when it has the four required columns and every
    cell of its amount and recorded-fee columns is one that
    [convert_amount] accepts: nothing else in the rows (a card code, a
    type, a rate table without the code or without [DEFAULT]) can make
    the annotation of a file fail. *)
Theorem X7_annotate_succeeds_iff (df : DataFrame F) (rates : gmap string F) :
  frame_wf df = true →
  ((∃ df', annotate df rates = Ok df')
   ↔ (∀ col, col ∈ required_columns → col ∈ columns df)
     ∧ ∀ row v, row ∈ rows df →
         row !! "AMOUNT" = Some v ∨ row !! "COMMISSION" = Some v →
         ∃ x, convert_amount v = Ok x).
Proof.
  intros Hwf. split.
  - intros [df' Hann]. apply annotate_Ok in Hann as [Hcols Hrows].
    split; [done|]. apply map_result_Ok in Hrows.
    intros row v Hrow Hv.
    destruct (Forall2_in_l _ _ _ _ Hrows Hrow) as (row' & _ & Hpass).
    apply annotate_row_Ok in Hpass
      as (a & amount & c & recorded & fee & delta & Ha & Hamount & Hc & Hrecorded & _).
    destruct Hv as [Hv | Hv].
    + rewrite Ha in Hv. injection Hv as <-. eauto.
    + rewrite Hc in Hv. injection Hv as <-. eauto.
  - intros [Hcols Hcells].
    assert (Hreq : ∀ col, col ∈ required_columns →
                          ∀ row, row ∈ rows df → is_Some (row !! col)).
    { intros col Hcol row Hrow. eapply frame_wf_lookup; eauto. }
    destruct (map_result_total (annotate_row rates) (rows df)) as [rows' Hrows].
    { intros row Hrow.
      destruct (Hreq "TYPE") with (row := row) as [t Ht];
        [unfold required_columns; set_solver | done |].
      destruct (Hreq "AMOUNT") with (row := row) as [a Ha];
        [unfold required_columns; set_solver | done |].
      destruct (Hreq "COMMISSION") with (row := row) as [c Hc];
        [unfold required_columns; set_solver | done |].
      destruct (Hcells row a Hrow (or_introl Ha)) as [amount Hamount].
      destruct (Hcells row c Hrow (or_intror Hc)) as [recorded Hrecorded].
      by eapply annotate_row_total. }
    by eapply annotate_of_rows.
Qed.

(** ** The loop over the files *)

Lemma process_file_out (w : World F) (p : Path) (results_df : DataFrame F)
      (rates : gmap string F) (path : Path) (df : DataFrame F) :
  (path, df) ∈ snd (process_file w p results_df rates) →
  path = processed_path p ∧ prepare w p rates = Ok df.
Proof.
  destruct (prepare w p rates) as [df0|e] eqn:Hprep.
  - destruct (process_file_Ok w p results_df df0 rates Hprep) as (_ & -> & _).
    destruct (excel_writer w (processed_path p) df0) as [[]|];
      [|destruct (excel_saved w (processed_path p) df0)].
    + intros [= -> ->]%list_elem_of_singleton. done.
    + intros [= -> ->]%list_elem_of_singleton. done.
    + by intros ?%not_elem_of_nil.
  - rewrite process_file_raises by (by exists e). by intros ?%not_elem_of_nil.
Qed.

Lemma process_file_snd (w : World F) (p : Path) (results_df results_df' : DataFrame F)
      (rates : gmap string F) :
  snd (process_file w p results_df rates) = snd (process_file w p results_df' rates).
Proof.
  destruct (prepare w p rates) as [df|e] eqn:Hprep.
  - destruct (process_file_Ok w p results_df df rates Hprep) as (_ & -> & _).
    by destruct (process_file_Ok w p results_df' df rates Hprep) as (_ & -> & _).
  - by rewrite !process_file_raises by (by exists e).
Qed.

Lemma process_all_snd (w : World F) (rates : gmap string F) (files : list Path)
      (results_df : DataFrame F) :
  snd (process_all w rates files results_df)
  = flat_map (fun p => snd (process_file w p empty_frame rates)) files.
Proof.
  unfold process_all.
  assert (Hgen : ∀ results_df outs,
            snd (fold_left
                   (fun acc file_path =>
                      let r := process_file w file_path (fst acc) rates in
                      (fst r, (snd acc ++ snd r)%list))
                   files (results_df, outs))
            = (outs ++ flat_map (fun p => snd (process_file w p empty_frame rates))
                         files)%list).
  { induction files as [|p files IH]; intros res outs; simpl.
    - by rewrite app_nil_r.
    - rewrite IH, <- app_assoc. f_equal. f_equal. apply process_file_snd. }
  by rewrite Hgen.
Qed.

Lemma process_all_ind (w : World F) (rates : gmap string F) (P : DataFrame F → Prop) :
  (∀ p results_df, P results_df → P (fst (process_file w p results_df rates))) →
  ∀ files results_df, P results_df → P (fst (process_all w rates files results_df)).
Proof.
  intros Hstep files. unfold process_all.
  generalize (@nil (Path * DataFrame F)) as outs.
  induction files as [|p files IH]; intros outs results_df HP; simpl; [done|].
  apply IH. by apply Hstep.
Qed.

(** X8. The order in which the files are processed decides only the order
    of the result: processing the same files in another order gives the
    same rows in the collection and the same annotated workbooks, up to a
    permutation. *)
Theorem X8_order_of_files (w : World F) (rates : gmap string F)
        (files files' : list Path) (results_df : DataFrame F) :
  files ≡ₚ files' →
  rows (fst (process_all w rates files results_df))
    ≡ₚ rows (fst (process_all w rates files' results_df))
  ∧ snd (process_all w rates files results_df)
    ≡ₚ snd (process_all w rates files' results_df).
Proof.
  intros Hperm. split.
  - destruct (process_all_rows w rates files results_df) as [-> _].
    destruct (process_all_rows w rates files' results_df) as [-> _].
    apply Permutation_app_head. by apply Permutation_flat_map.
  - rewrite !process_all_snd. by apply Permutation_flat_map.
Qed.

(** ** The report *)

Lemma main_report_rows (w : World F) (report : DataFrame F) :
  returned (main w) = Ok report ∨ results_xlsx (main w) = Written report →
  rows report
  = stamp w <$> flat_map (contribution w (load_commission_rates w)) (processed_files w).
Proof.
  intros Hreport. unfold main in Hreport.
  destruct (processed_files w) as [|p files] eqn:Hfiles.
  { simpl in Hreport. destruct Hreport as [[= <-] | ?]; done. }
  rewrite <- Hfiles in *. clear Hfiles p files.
  destruct (process_all_rows w (load_commission_rates w) (processed_files w)
              empty_frame) as [Hall Hlab].
  simpl in Hall. rewrite <- Hall.
  destruct (df_empty (fst (process_all _ _ _ _))) eqn:Hempty; simpl in Hreport.
  - destruct Hreport as [[= <-] | Hreport].
    + destruct (rows (fst (process_all w (load_commission_rates w)
                             (processed_files w) empty_frame))) eqn:Hr; [done|].
      apply df_empty_rows in Hempty; [congruence|]. by apply Hlab.
    + by destruct (path_exists w (results_path w)).
  - destruct (excel_writer w (results_path w) _); simpl in Hreport.
    + destruct Hreport as [[= <-] | [= <-]]; done.
    + destruct Hreport as [? | Hreport]; [done|].
      destruct (excel_saved w (results_path w) _); [by injection Hreport as <-|].
      by destruct (path_exists w (results_path w)).
Qed.

Lemma main_report_columns (w : World F) (report : DataFrame F) :
  returned (main w) = Ok report ∨ results_xlsx (main w) = Written report →
  rows report ≠ [] →
  columns report
  = add_column (columns (fst (process_all w (load_commission_rates w)
                                (processed_files w) empty_frame))) TIME_COL.
Proof.
  intros Hreport Hrows. unfold main in Hreport.
  destruct (processed_files w) as [|p files] eqn:Hfiles.
  { simpl in Hreport. destruct Hreport as [[= <-] | ?]; done. }
  rewrite <- Hfiles in *. clear Hfiles p files.
  destruct (df_empty (fst (process_all _ _ _ _))) eqn:Hempty; simpl in Hreport.
  - destruct Hreport as [[= <-] | Hreport].
    + destruct (process_all_rows w (load_commission_rates w) (processed_files w)
                  empty_frame) as [_ Hlab].
      apply df_empty_rows in Hempty; [done | by apply Hlab].
    + by destruct (path_exists w (results_path w)).
  - destruct (excel_writer w (results_path w) _); simpl in Hreport.
    + destruct Hreport as [[= <-] | [= <-]]; done.
    + destruct Hreport as [? | Hreport]; [done|].
      destruct (excel_saved w (results_path w) _); [by injection Hreport as <-|].
      by destruct (path_exists w (results_path w)).
Qed.

Lemma processed_files_elem (w : World F) (p : Path) :
  p ∈ processed_files w →
  dirname p = getcwd w ∧ is_input (basename p) = true ∧ basename p ∈ listdir w.
Proof.
  unfold processed_files. intros (f & -> & Hf)%list_elem_of_fmap.
  apply list_elem_of_In, filter_In in Hf as [Hf Hin]. simpl.
  split_and!; [done | done | by apply list_elem_of_In].
Qed.

Lemma elem_of_flat_map {A B : Type} (f : A → list B) (l : list A) (y : B) :
  y ∈ flat_map f l ↔ ∃ x, x ∈ l ∧ y ∈ f x.
Proof.
  rewrite list_elem_of_In, in_flat_map. split.
  - intros (x & Hx & Hy). exists x. by rewrite !list_elem_of_In.
  - intros (x & Hx & Hy). exists x. by rewrite <- !list_elem_of_In.
Qed.

(** X9. Every row of the report, and of the frame [main] returns, is a row
    of the annotated frame of one of the input files found in the working
    directory; it carries the name of that file, the time stamp of the
    run, and a difference that is a number other than zero. *)
Theorem X9_report_rows_sound (w : World F) (report : DataFrame F)
        (row : gmap string (cell F)) :
  returned (main w) = Ok report ∨ results_xlsx (main w) = Written report →
  row ∈ rows report →
  ∃ p df row0 x,
    p ∈ processed_files w ∧ is_input (basename p) = true ∧ dirname p = getcwd w
    ∧ prepare w p (load_commission_rates w) = Ok df ∧ row0 ∈ rows df
    ∧ row = stamp w (tag p row0)
    ∧ row !! FILE_COL = Some (CStr (basename p))
    ∧ row !! TIME_COL = Some (CStr (now w))
    ∧ row !! DELTA_COL = Some (CNum x) ∧ f_eqb x f_zero = false.
Proof.
  intros Hreport Hrow. rewrite (main_report_rows w report Hreport) in Hrow.
  apply list_elem_of_fmap in Hrow as (row1 & -> & Hrow1).
  apply elem_of_flat_map in Hrow1 as (p & Hp & Hrow1).
  rewrite contribution_eq in Hrow1.
  destruct (prepare w p (load_commission_rates w)) as [df|e] eqn:Hprep;
    [|by apply not_elem_of_nil in Hrow1].
  apply list_elem_of_fmap in Hrow1 as (row0 & -> & Hrow0).
  apply list_elem_of_In, filter_In in Hrow0 as [Hrow0 Hne0].
  apply list_elem_of_In in Hrow0.
  destruct (prepare_delta w p _ df row0 Hprep Hrow0) as [x Hx].
  destruct (processed_files_elem w p Hp) as (Hdir & Hinput & _).
  exists p, df, row0, x. unfold stamp, tag. split_and!; try done.
  - rewrite lookup_insert_ne by done. apply lookup_insert_eq.
  - apply lookup_insert_eq.
  - by rewrite !lookup_insert_ne by done.
  - unfold row_ne0 in Hne0. rewrite Hx in Hne0. simpl in Hne0.
    by apply negb_true_iff.
Qed.

Lemma concat_columns_elem (a b : DataFrame F) (c : string) :
  c ∈ columns b → c ∈ columns (concat a b).
Proof.
  intros Hc. unfold concat. simpl. apply elem_of_app.
  destruct (decide (c ∈ columns a)) as [Hin | Hn]; [by left | right].
  apply list_elem_of_In, filter_In. split; [by apply list_elem_of_In|].
  by rewrite bool_decide_eq_false_2.
Qed.

Lemma process_file_labels (w : World F) (p : Path) (results_df : DataFrame F)
      (rates : gmap string F) (c : string) :
  c ∈ required_columns ∨ c = FEE_COL ∨ c = DELTA_COL ∨ c = FILE_COL →
  (rows results_df ≠ [] → c ∈ columns results_df) →
  rows (fst (process_file w p results_df rates)) ≠ [] →
  c ∈ columns (fst (process_file w p results_df rates)).
Proof.
  intros Hc Hinv.
  destruct (prepare w p rates) as [df|e] eqn:Hprep;
    [|by rewrite process_file_raises by (by exists e)].
  assert (Hdf : c ∈ add_column (columns df) FILE_COL).
  { unfold prepare in Hprep. apply bind_Ok_inv in Hprep as (r & _ & Hann).
    apply add_column_elem. rewrite (annotate_columns_eq _ _ _ Hann), !add_column_elem.
    apply annotate_Ok in Hann as [Hcols _].
    destruct Hc as [Hc | [-> | [-> | ->]]]; eauto. }
  unfold prepare in Hprep. unfold process_file. rewrite Hprep.
  destruct (df_empty (select_ne0 DELTA_COL df)) eqn:Hempty;
    destruct (excel_writer w (processed_path p) df); simpl; try done;
    intros _; by apply (concat_columns_elem results_df
                          (assign_const FILE_COL (CStr (basename p))
                             (select_ne0 DELTA_COL df))).
Qed.

(** X10. A report with rows has every label that the code looks up or
    shows: the four required columns, the computed fee, the difference,
    the source file and the processing time.  In particular the lookup of
    the difference column before the report is coloured cannot fail. *)
Theorem X10_report_labels (w : World F) (report : DataFrame F) (c : string) :
  returned (main w) = Ok report ∨ results_xlsx (main w) = Written report →
  rows report ≠ [] →
  c ∈ required_columns ∨ c = FEE_COL ∨ c = DELTA_COL ∨ c = FILE_COL ∨ c = TIME_COL →
  c ∈ columns report.
Proof.
  intros Hreport Hrows Hc.
  rewrite (main_report_columns w report Hreport Hrows), add_column_elem.
  destruct (decide (c = TIME_COL)) as [-> | Hne]; [by right | left].
  assert (Hc' : c ∈ required_columns ∨ c = FEE_COL ∨ c = DELTA_COL ∨ c = FILE_COL)
    by tauto.
  assert (Hsome : rows (fst (process_all w (load_commission_rates w)
                               (processed_files w) empty_frame)) ≠ []).
  { destruct (process_all_rows w (load_commission_rates w) (processed_files w)
                empty_frame) as [-> _]. simpl.
    rewrite (main_report_rows w report Hreport) in Hrows.
    intros Hnil. by rewrite Hnil in Hrows. }
  revert Hsome.
  apply (process_all_ind w (load_commission_rates w)
           (fun df => rows df ≠ [] → c ∈ columns df)); [|done].
  intros p results_df Hinv. by apply process_file_labels.
Qed.

Lemma is_input_processed (base : string) : is_input (base +:+ "_processed.xlsx") = false.
Proof.
  unfold is_input. rewrite (endswith_append base "_processed.xlsx"). simpl.
  by rewrite andb_false_r.
Qed.

(** X11. Every workbook that [main] stores while it processes the files
    holds the annotated frame of an input file and lies next to it under
    a name that ends in [_processed.xlsx]; such a name is never taken as
    an input, so a later run does not process the outputs of an earlier
    one, and it is neither [results.xlsx] nor [setup.xlsx]. *)
Theorem X11_outputs_are_not_inputs (w : World F) (path : Path) (df : DataFrame F) :
  (path, df) ∈ processed (main w) →
  ∃ p, p ∈ processed_files w
       ∧ path = processed_path p
       ∧ prepare w p (load_commission_rates w) = Ok df
       ∧ dirname path = getcwd w
       ∧ is_input (basename path) = false
       ∧ path ≠ results_path w ∧ path ≠ setup_path w.
Proof.
  intros Hin.
  assert (Hall : (path, df) ∈ snd (process_all w (load_commission_rates w)
                                     (processed_files w) empty_frame)).
  { unfold main in Hin. destruct (processed_files w) as [|p files] eqn:Hfiles.
    - by apply not_elem_of_nil in Hin.
    - rewrite <- Hfiles in *.
      destruct (df_empty (fst (process_all _ _ _ _))); simpl in Hin; [done|].
      by destruct (excel_writer w (results_path w) _). }
  rewrite process_all_snd in Hall.
  apply elem_of_flat_map in Hall as (p & Hp & Hout).
  apply process_file_out in Hout as (-> & Hprep).
  destruct (processed_files_elem w p Hp) as (Hdir & _ & _).
  exists p. split_and!; try done.
  - unfold processed_path. simpl. apply is_input_processed.
  - intros Heq. apply (f_equal (fun q => endswith (basename q) "_processed.xlsx")) in Heq.
    unfold processed_path, results_path in Heq. simpl in Heq.
    rewrite endswith_append in Heq. vm_compute in Heq. discriminate.
  - intros Heq. apply (f_equal (fun q => endswith (basename q) "_processed.xlsx")) in Heq.
    unfold processed_path, setup_path in Heq. simpl in Heq.
    rewrite endswith_append in Heq. vm_compute in Heq. discriminate.
Qed.

Lemma df_nonempty (df : DataFrame F) :
  columns df ≠ [] → rows df ≠ [] → df_empty df = false.
Proof. unfold df_empty. by destruct (columns df), (rows df). Qed.

(** X12. Provided [results.xlsx] can be written, [main] writes a report
    exactly when some input file contributes a row.  And whenever there
    is an input file at all, a [results.xlsx] left by an earlier run does
    not survive the run as it was: it is emptied before anything is
    decided, also when no file contributes. *)
Theorem X12_when_the_report_is_written (w : World F) :
  ((∀ df, excel_writer w (results_path w) df = Ok ()) →
   ((∃ report, results_xlsx (main w) = Written report)
    ↔ ∃ p, p ∈ processed_files w ∧ contribution w (load_commission_rates w) p ≠ []))
  ∧ (processed_files w ≠ [] → path_exists w (results_path w) = true →
     results_xlsx (main w) ≠ Untouched).
Proof.
  split.
  - intros Hwrite. split.
    + intros [report Hreport].
      pose proof (main_report_rows w report (or_intror Hreport)) as Hrows.
      assert (Hne : rows report ≠ []).
      { unfold main in Hreport.
        destruct (processed_files w) as [|p files]; simpl in Hreport; [done|].
        destruct (df_empty (fst (process_all _ _ _ _))) eqn:Hempty; simpl in Hreport.
        - by destruct (path_exists w (results_path w)).
        - rewrite Hwrite in Hreport. injection Hreport as <-. simpl.
          intros Hnil%fmap_nil_inv. apply rows_nil_df_empty in Hnil. congruence. }
      rewrite Hrows in Hne.
      destruct (flat_map _ (processed_files w)) as [|row l] eqn:Hflat; [done|].
      assert (Hrow : row ∈ flat_map (contribution w (load_commission_rates w))
                             (processed_files w)) by (rewrite Hflat; left).
      apply elem_of_flat_map in Hrow as (p & Hp & Hrow).
      exists p. split; [done|]. intros Hnil. rewrite Hnil in Hrow.
      by apply not_elem_of_nil in Hrow.
    + intros (p & Hp & Hcontrib).
      destruct (process_all_rows w (load_commission_rates w) (processed_files w)
                  empty_frame) as [Hall Hlab].
      simpl in Hall.
      assert (Hrows : rows (fst (process_all w (load_commission_rates w)
                                   (processed_files w) empty_frame)) ≠ []).
      { rewrite Hall. intros Hnil. apply Hcontrib.
        destruct (contribution w (load_commission_rates w) p) as [|row l] eqn:Hc;
          [done|].
        assert (Hrow : row ∈ flat_map (contribution w (load_commission_rates w))
                               (processed_files w)).
        { apply elem_of_flat_map. exists p. split; [done|]. rewrite Hc. left. }
        rewrite Hnil in Hrow. by apply not_elem_of_nil in Hrow. }
      unfold main. destruct (processed_files w) as [|q files] eqn:Hfiles.
      { by apply not_elem_of_nil in Hp. }
      rewrite <- Hfiles in *.
      rewrite (df_nonempty _ (Hlab ltac:(done) Hrows) Hrows). simpl.
      rewrite Hwrite. simpl. eauto.
  - intros Hfiles Hexists. unfold main.
    destruct (processed_files w) as [|p files]; [done|].
    rewrite Hexists.
    destruct (df_empty (fst (process_all _ _ _ _))); simpl; [done|].
    destruct (excel_writer w (results_path w) _); [done|].
    by destruct (excel_saved w (results_path w) _).
Qed.

(** ** The name of the annotated workbook *)

Lemma only_dots_append (s t : string) : only_dots (s +:+ t) = only_dots s && only_dots t.
Proof.
  induction s as [|c s IH]; [done|].
  rewrite append_cons. simpl. by rewrite IH, andb_assoc.
Qed.

Lemma only_dots_rev (s : string) : only_dots (String.rev s) = only_dots s.
Proof.
  induction s as [|c s IH]; [done|].
  rewrite rev_cons, only_dots_append, IH. simpl.
  by rewrite andb_true_r, andb_comm.
Qed.

Lemma rev_involutive (s : string) : String.rev (String.rev s) = s.
Proof.
  induction s as [|c s IH]; [done|].
  by rewrite rev_cons, rev_append, IH.
Qed.

Lemma after_first_dot_append (x y : string) :
  after_first_dot x = None → after_first_dot (x +:+ String "." y) = Some y.
Proof.
  induction x as [|c x IH]; [done|].
  rewrite append_cons. simpl. by destruct (Ascii.eqb c ".").
Qed.

Lemma splitext_root_ext (base ext : string) :
  only_dots base = false → after_first_dot (String.rev ext) = None →
  splitext_root (base +:+ String "." ext) = base.
Proof.
  intros Hbase Hext. unfold splitext_root.
  rewrite rev_append, rev_cons, append_assoc.
  change (String "." EmptyString +:+ String.rev base) with (String "." (String.rev base)).
  rewrite (after_first_dot_append _ _ Hext), only_dots_rev, Hbase.
  apply rev_involutive.
Qed.

(** X13. For a file named [base.ext], where [base] has a character other
    than a dot and [ext] is one of the five extensions that [main]
    accepts, the annotated workbook is named [base_processed.xlsx] in the
    same directory, whatever the extension.  So two input files that
    differ only in their extension are annotated into one and the same
    path. *)
Theorem X13_processed_path_by_base (dir base ext ext' : string) :
  only_dots base = false →
  ext ∈ ["xlsx"; "xls"; "csv"; "dsv"; "dsvp"] →
  ext' ∈ ["xlsx"; "xls"; "csv"; "dsv"; "dsvp"] →
  processed_path {| dirname := dir; basename := base +:+ String "." ext |}
  = {| dirname := dir; basename := base +:+ "_processed.xlsx" |}
  ∧ processed_path {| dirname := dir; basename := base +:+ String "." ext |}
    = processed_path {| dirname := dir; basename := base +:+ String "." ext' |}.
Proof.
  intros Hbase Hext Hext'.
  assert (Hroot : ∀ e, e ∈ ["xlsx"; "xls"; "csv"; "dsv"; "dsvp"] →
            processed_path {| dirname := dir; basename := base +:+ String "." e |}
            = {| dirname := dir; basename := base +:+ "_processed.xlsx" |}).
  { intros e He. unfold processed_path. simpl.
    rewrite splitext_root_ext; [done | done |].
    repeat (apply elem_of_cons in He as [-> | He]; [done|]).
    by apply not_elem_of_nil in He. }
  split; [by apply Hroot | by rewrite !Hroot].
Qed.

(** ** The rate dictionary of the second script *)

Lemma dict_lookup_set_eq (d : list (cell F * cell F)) (k v : cell F) :
  Comission_BRS.cell_eqb k k = true →
  Comission_BRS.dict_lookup (Comission_BRS.dict_set d k v) k = Some v.
Proof.
  intros Hk. induction d as [|[k0 v0] d IH]; simpl.
  - by rewrite Hk.
  - destruct (Comission_BRS.cell_eqb k0 k) eqn:Hk0; simpl; by rewrite Hk0.
Qed.

Lemma cell_eqb_text (k0 : cell F) (k : string) :
  Comission_BRS.cell_eqb k0 (CStr k) = true → k0 = CStr k.
Proof.
  destruct k0 as [s|x]; simpl; [|done]. by intros ->%String.eqb_eq.
Qed.

Lemma dict_lookup_set_ne (d : list (cell F * cell F)) (k k' : string) (v : cell F) :
  k ≠ k' →
  Comission_BRS.dict_lookup (Comission_BRS.dict_set d (CStr k) v) (CStr k')
  = Comission_BRS.dict_lookup d (CStr k').
Proof.
  intros Hne. induction d as [|[k0 v0] d IH]; simpl.
  - by rewrite String_eqb_ne.
  - destruct (Comission_BRS.cell_eqb k0 (CStr k)) eqn:Hk0; simpl.
    + apply cell_eqb_text in Hk0 as ->. simpl. by rewrite String_eqb_ne.
    + by rewrite IH.
Qed.

(** X14. The dictionary of rates of [run_calc_comission_BRS.py]: after
    [d[k] = v] the key [k] reads [v] (for any key equal to itself, so for
    every text) and every other text key reads what it read before; and
    whatever [setup.xlsx] holds, the table that [load_commission_rates]
    returns has an entry under ['DEFAULT'], so that the lookup
    [commission_rates['DEFAULT']] in [calculate_commission] cannot raise
    [KeyError]. *)
Theorem X14_legacy_rates (w : World F) :
  (∀ d k v, Comission_BRS.cell_eqb k k = true →
            Comission_BRS.dict_lookup (Comission_BRS.dict_set d k v) k = Some v)
  ∧ (∀ d (k k' : string) v, k ≠ k' →
       Comission_BRS.dict_lookup (Comission_BRS.dict_set d (CStr k) v) (CStr k')
       = Comission_BRS.dict_lookup d (CStr k'))
  ∧ ∃ v, Comission_BRS.dict_getitem (Comission_BRS.load_commission_rates w)
           (CStr "DEFAULT") = Ok v.
Proof.
  split_and!.
  - apply dict_lookup_set_eq.
  - apply dict_lookup_set_ne.
  - unfold Comission_BRS.dict_getitem, Comission_BRS.load_commission_rates.
    destruct (Comission_BRS.load_commission_rates_try w) as [rates|e] eqn:Htry.
    + unfold Comission_BRS.load_commission_rates_try in Htry.
      destruct (negb _); [discriminate|].
      destruct (read_excel w _) as [df|]; simpl in Htry; [|discriminate].
      destruct (df_empty df); [discriminate|].
      destruct (for_each _ _ _) as [loaded|]; simpl in Htry; [|discriminate].
      injection Htry as <-. unfold Comission_BRS.setdefault.
      destruct (Comission_BRS.dict_lookup loaded (CStr "DEFAULT")) as [v|] eqn:Hd.
      * rewrite Hd. eauto.
      * rewrite dict_lookup_set_eq by done. eauto.
    + simpl. eauto.
Qed.

(** ** The two scripts on clean files *)

Lemma map_result_ext_in {A B : Type} (f g : A → result B) (l : list A) :
  (∀ x, x ∈ l → f x = g x) → map_result f l = map_result g l.
Proof.
  induction l as [|x l IH]; intros Hfg; simpl; [done|].
  rewrite Hfg by left. rewrite IH; [done|]. intros y Hy. apply Hfg. by right.
Qed.

Lemma map_result_id {A : Type} (f : A → result A) (l : list A) :
  (∀ x, x ∈ l → f x = Ok x) → map_result f l = Ok l.
Proof.
  induction l as [|x l IH]; intros Hf; simpl; [done|].
  rewrite Hf by left. simpl. rewrite IH; [done|]. intros y Hy. apply Hf. by right.
Qed.

Lemma series_apply_numbers (col : string) (df : DataFrame F) :
  (∀ row, row ∈ rows df → ∃ x, row !! col = Some (CNum x)) →
  series_apply col convert_amount df = Ok df.
Proof.
  intros Hnum. unfold series_apply. rewrite map_result_id; [by destruct df|].
  intros row Hrow. destruct (Hnum row Hrow) as [x Hx].
  unfold getitem. rewrite Hx. simpl. by rewrite insert_id.
Qed.

Lemma raw_table_lookup (items : list (string * F)) (k : string) :
  Comission_BRS.dict_lookup ((fun kv => (CStr kv.1, CNum kv.2)) <$> items) (CStr k)
  = CNum <$> (list_to_map items : gmap string F) !! k.
Proof.
  induction items as [|[k0 v0] items IH]; simpl; [by rewrite lookup_empty|].
  destruct (String.eqb k0 k) eqn:Hk.
  - apply String.eqb_eq in Hk as ->. by rewrite lookup_insert_eq.
  - apply String.eqb_neq in Hk. by rewrite lookup_insert_ne.
Qed.

(** X15. On a frame whose amounts and recorded fees are numbers and whose
    card codes are texts that stripping and upper-casing leave unchanged,
    and with one rate table that has a [DEFAULT] entry, given to each
    script in its own form, the two scripts annotate alike: the same
    frame, or the same error. *)
Theorem X15_scripts_agree_on_clean_frames (df : DataFrame F) (m : gmap string F)
        (d : list (cell F * cell F)) :
  (∀ k, Comission_BRS.dict_lookup d (CStr k) = CNum <$> m !! k) →
  is_Some (m !! "DEFAULT") →
  (∀ row, row ∈ rows df →
     ∃ a c code, row !! "AMOUNT" = Some (CNum a) ∧ row !! "COMMISSION" = Some (CNum c)
                 ∧ row !! "PMT_SYSTEM_CODE" = Some (CStr code)
                 ∧ str_upper (str_strip code) = code) →
  annotate df m = Comission_BRS.annotate df d.
Proof.
  intros Htable [dflt Hdflt] Hclean.
  unfold annotate, Comission_BRS.annotate.
  change Comission_BRS.required_columns with required_columns.
  destruct (List.filter _ required_columns); [|done].
  rewrite series_apply_numbers
    by (intros row Hrow; destruct (Hclean row Hrow) as (a & c & code & ? & ? & ?); eauto).
  simpl.
  rewrite series_apply_numbers
    by (intros row Hrow; destruct (Hclean row Hrow) as (a & c & code & ? & ? & ?); eauto).
  simpl.
  assert (Hfee : assign_apply FEE_COL (fun row => calculate_commission row m) df
                 = assign_apply FEE_COL
                     (fun row => Comission_BRS.calculate_commission row d) df).
  { unfold assign_apply. f_equal. apply map_result_ext_in.
    intros row Hrow. destruct (Hclean row Hrow) as (a & c & code & Ha & Hc & Hcode & Hnorm).
    f_equal.
    unfold calculate_commission, Comission_BRS.calculate_commission, getitem.
    destruct (row !! "TYPE") as [t|]; simpl; [|done].
    destruct (negb (cell_eq_str t PURCHASE)); [done|].
    rewrite Hcode, Ha. simpl. rewrite Hnorm.
    unfold rate_of, dict_getitem, Comission_BRS.dict_getitem.
    rewrite (Htable "DEFAULT"), Hdflt. simpl.
    rewrite (Htable code). by destruct (m !! code). }
  by rewrite Hfee.
Qed.

(** ** Errors of the second script *)

(** X16. [calculate_commission] of [run_calc_comission_BRS.py] catches
    nothing.  A row that is not a purchase gets 0 whatever else it holds;
    a purchase row raises [KeyError] when its card code or amount is
    missing or the table has no [DEFAULT] entry, and [TypeError] when its
    amount or the rate found for it is a text; and a frame with the four
    required columns and one row on which it raises is not annotated at
    all. *)
Theorem X16_legacy_calculate_commission_errors (row : gmap string (cell F))
        (rates : list (cell F * cell F)) (t : cell F) :
  row !! "TYPE" = Some t →
  (cell_eq_str t PURCHASE = false →
   Comission_BRS.calculate_commission row rates = Ok f_zero)
  ∧ (cell_eq_str t PURCHASE = true →
     (row !! "PMT_SYSTEM_CODE" = None ∨ row !! "AMOUNT" = None
      ∨ Comission_BRS.dict_lookup rates (CStr "DEFAULT") = None) →
     Comission_BRS.calculate_commission row rates = Raise KeyError)
  ∧ (cell_eq_str t PURCHASE = true →
     ∀ code a dflt,
       row !! "PMT_SYSTEM_CODE" = Some code → row !! "AMOUNT" = Some a →
       Comission_BRS.dict_lookup rates (CStr "DEFAULT") = Some dflt →
       match a, default dflt (Comission_BRS.dict_lookup rates code) with
       | CNum x, CNum r =>
           Comission_BRS.calculate_commission row rates = Ok (py_round2 (f_mul x r))
       | _, _ => Comission_BRS.calculate_commission row rates = Raise TypeError
       end)
  ∧ (∀ df, row ∈ rows df →
           raises (Comission_BRS.calculate_commission row rates) →
           raises (Comission_BRS.annotate df rates)).
Proof.
  intros Ht. unfold Comission_BRS.calculate_commission, getitem. rewrite Ht. simpl.
  split_and!.
  - by intros ->.
  - intros -> Hmiss. simpl.
    destruct (row !! "PMT_SYSTEM_CODE") as [code|]; simpl; [|done].
    destruct (row !! "AMOUNT") as [a|]; simpl; [|done].
    unfold Comission_BRS.dict_getitem.
    destruct Hmiss as [? | [? | ->]]; done.
  - intros -> code a dflt -> -> Hd. simpl.
    unfold Comission_BRS.dict_getitem. rewrite Hd. simpl.
    destruct a as [s|x]; [done|].
    by destruct (default dflt (Comission_BRS.dict_lookup rates code)).
  - intros df Hrow Hbad. unfold Comission_BRS.annotate.
    destruct (List.filter _ Comission_BRS.required_columns); [|by exists ValueError].
    apply bind_raises_l. unfold assign_apply. apply bind_raises_l.
    eapply map_result_raises; [exact Hrow|].
    apply bind_raises_l.
    unfold Comission_BRS.calculate_commission, getitem. by rewrite Ht.
Qed.

(** ** Labels without repetition *)

Lemma add_column_NoDup (cols : list string) (col : string) :
  NoDup cols → NoDup (add_column cols col).
Proof.
  intros Hnd. unfold add_column. case_bool_decide as Hin; [done|].
  apply NoDup_app. split_and!; [done | | apply NoDup_singleton].
  intros c Hc ->%list_elem_of_singleton. done.
Qed.

Lemma concat_NoDup (a b : DataFrame F) :
  NoDup (columns a) → NoDup (columns b) → NoDup (columns (concat a b)).
Proof.
  intros Ha Hb. unfold concat. simpl. apply NoDup_app. split_and!; [done | |].
  - intros c Hc Hin. apply list_elem_of_In, filter_In in Hin as [_ Hin].
    by rewrite bool_decide_eq_true_2 in Hin.
  - apply NoDup_ListNoDup, List.NoDup_filter. by apply NoDup_ListNoDup.
Qed.

(** X17. When the labels of every frame that is read are pairwise
    distinct, so are the labels of every annotated frame and of the
    report: to each of the labels that the colouring code looks up
    corresponds one column. *)
Theorem X17_labels_are_distinct (w : World F) :
  (∀ p r, read_file_with_encoding w p = Ok r → NoDup (columns (fst r))) →
  (∀ rates p df, prepare w p rates = Ok df → NoDup (columns df))
  ∧ (∀ report,
       returned (main w) = Ok report ∨ results_xlsx (main w) = Written report →
       NoDup (columns report)).
Proof.
  intros Hread.
  assert (Hprep : ∀ rates p df, prepare w p rates = Ok df → NoDup (columns df)).
  { intros rates p df Hprep. unfold prepare in Hprep.
    apply bind_Ok_inv in Hprep as (r & Hr & Hann).
    rewrite (annotate_columns_eq _ _ _ Hann).
    do 2 apply add_column_NoDup. by eapply Hread. }
  split; [exact Hprep|].
  intros report Hreport.
  assert (Hall : NoDup (columns (fst (process_all w (load_commission_rates w)
                                        (processed_files w) empty_frame)))).
  { apply (process_all_ind w (load_commission_rates w) (fun df => NoDup (columns df)));
      [|apply NoDup_nil_2].
    intros p results_df Hres.
    destruct (prepare w p (load_commission_rates w)) as [df|e] eqn:Hp;
      [|by rewrite process_file_raises by (by exists e)].
    pose proof (Hprep _ _ _ Hp) as Hdf.
    unfold prepare in Hp. unfold process_file. rewrite Hp.
    destruct (df_empty (select_ne0 DELTA_COL df));
      destruct (excel_writer w (processed_path p) df); simpl; try done;
      apply (concat_NoDup results_df
               (assign_const FILE_COL (CStr (basename p)) (select_ne0 DELTA_COL df)));
      try done; by apply add_column_NoDup. }
  unfold main in Hreport.
  destruct (processed_files w) as [|p files] eqn:Hfiles.
  { simpl in Hreport. destruct Hreport as [[= <-] | ?]; [apply NoDup_nil_2 | done]. }
  rewrite <- Hfiles in *.
  destruct (df_empty (fst (process_all _ _ _ _))); simpl in Hreport.
  - destruct Hreport as [[= <-] | Hreport]; [done|].
    by destruct (path_exists w (results_path w)).
  - destruct (excel_writer w (results_path w) _); simpl in Hreport.
    + destruct Hreport as [[= <-] | [= <-]]; by apply add_column_NoDup.
    + destruct Hreport as [? | Hreport]; [done|].
      destruct (excel_saved w (results_path w) _);
        [injection Hreport as <-; by apply add_column_NoDup|].
      by destruct (path_exists w (results_path w)).
Qed.

End MoreProperties.

(** * The further properties on the sample files *)

Lemma X1_read_file_with_encoding_sound_witness :
  (read_file_with_encoding Sample.world_idle (Sample.path_of "gone.csv") = Raise ValueError
   ∧ ValueError = ValueError)
  ∧ (read_file_with_encoding Cases.world_legacy (Sample.path_of "a.csv")
       = Ok (Sample.frame_jcb, Some "windows-1251")
     ∧ read_csv Cases.world_legacy (Sample.path_of "a.csv") (Some "windows-1251")
       = Ok Sample.frame_jcb)
  ∧ (read_csv Sample.world_idle (Sample.path_of "gone.csv") (Some "utf-8")
       = Raise FileNotFoundError
     ∧ read_file_with_encoding Sample.world_idle (Sample.path_of "gone.csv")
       = Raise ValueError).
Proof.
  assert (Hgone : read_file_with_encoding Sample.world_idle (Sample.path_of "gone.csv")
                  = Raise ValueError) by reflexivity.
  assert (Hwin : read_file_with_encoding Cases.world_legacy (Sample.path_of "a.csv")
                 = Ok (Sample.frame_jcb, Some "windows-1251")) by reflexivity.
  assert (Hutf : read_csv Sample.world_idle (Sample.path_of "gone.csv") (Some "utf-8")
                 = Raise FileNotFoundError) by reflexivity.
  destruct (X1_read_file_with_encoding_sound Sample.world_idle (Sample.path_of "gone.csv"))
    as (Hkind & _ & Hstop).
  destruct (X1_read_file_with_encoding_sound Cases.world_legacy (Sample.path_of "a.csv"))
    as (_ & Htrue & _).
  split_and!;
    [ exact Hgone | exact (Hkind _ Hgone)
    | exact Hwin | exact (proj1 (Htrue _ _ Hwin))
    | exact Hutf | exact (Hstop _ eq_refl Hutf ltac:(discriminate)) ].
Defined.

Lemma X2_legacy_read_errors_witness :
  (Comission_BRS_IO.read_file_with_encoding (read_csv Cases.world_legacy)
     Cases.world_legacy (Sample.path_of "a.csv")
   = Ok (Sample.frame_jcb, Some "windows-1251")
   ∧ read_file_with_encoding Cases.world_legacy (Sample.path_of "a.csv")
     = Ok (Sample.frame_jcb, Some "windows-1251"))
  ∧ (Cases.csv_reader (Sample.path_of "b.csv") (Some "utf-8") = Raise UnicodeDecodeError
     ∧ Cases.csv_reader (Sample.path_of "b.csv") (Some "windows-1251")
       = Raise UnicodeDecodeError
     ∧ Comission_BRS_IO.detect_encoding Cases.world_legacy (Sample.path_of "b.csv")
       = Raise OSError
     ∧ Comission_BRS_IO.read_file_with_encoding Cases.csv_reader Cases.world_legacy
         (Sample.path_of "b.csv") = Raise OSError
     ∧ read_file_with_encoding Cases.world_legacy (Sample.path_of "b.csv")
       = Raise ValueError).
Proof.
  assert (Hold : Comission_BRS_IO.read_file_with_encoding (read_csv Cases.world_legacy)
                   Cases.world_legacy (Sample.path_of "a.csv")
                 = Ok (Sample.frame_jcb, Some "windows-1251")) by reflexivity.
  assert (Hutf : Cases.csv_reader (Sample.path_of "b.csv") (Some "utf-8")
                 = Raise UnicodeDecodeError) by reflexivity.
  assert (Hwin : Cases.csv_reader (Sample.path_of "b.csv") (Some "windows-1251")
                 = Raise UnicodeDecodeError) by reflexivity.
  assert (Hdet : Comission_BRS_IO.detect_encoding Cases.world_legacy
                   (Sample.path_of "b.csv") = Raise OSError) by reflexivity.
  destruct (X2_legacy_read_errors (read_csv Cases.world_legacy) Cases.world_legacy
              (Sample.path_of "a.csv")) as (Hsame & _).
  destruct (X2_legacy_read_errors Cases.csv_reader Cases.world_legacy
              (Sample.path_of "b.csv")) as (_ & _ & _ & Hlater).
  destruct (Hlater eq_refl Hutf) as [_ Hboth].
  destruct (Hboth Hwin) as [Hescape _].
  split_and!;
    [ exact Hold | exact (proj1 (Hsame _) Hold)
    | exact Hutf | exact Hwin | exact Hdet | exact (Hescape _ Hdet) | reflexivity ].
Defined.

Lemma X3_convert_amount_by_cleaned_text_witness :
  spec_clean_amount "1 234,56" = spec_clean_amount "1234.56"
  ∧ convert_amount (CStr "1 234,56" : cell Z) = convert_amount (CStr "1234.56").
Proof.
  assert (Hclean : spec_clean_amount "1 234,56" = spec_clean_amount "1234.56")
    by reflexivity.
  destruct (X3_convert_amount_by_cleaned_text (F := Z) "1 234,56" "1234.56")
    as (_ & _ & Hsame).
  split; [exact Hclean | exact (Hsame Hclean)].
Defined.

Lemma X4_calculate_commission_errors_witness :
  ((∅ : gmap string (cell Z)) !! "TYPE" = None
   ∧ calculate_commission (∅ : gmap string (cell Z)) default_rates = Raise KeyError)
  ∧ (Sample.row_jcb !! "TYPE" = Some (CStr PURCHASE)
     ∧ ∃ x, calculate_commission Sample.row_jcb default_rates = Ok x)
  ∧ (Cases.rates_no_default !! "DEFAULT" = None
     ∧ Cases.rates_no_default !! "MIR" = Some 14200%Z
     ∧ calculate_commission
         (Sample.tx PURCHASE (CNum 1000000000%Z) (CNum 15000000%Z) "MIR")
         Cases.rates_no_default = Ok 0%Z).
Proof.
  assert (Htype : Sample.row_jcb !! "TYPE" = Some (CStr PURCHASE))
    by (vm_compute; reflexivity).
  assert (Hmir : Sample.tx PURCHASE (CNum 1000000000%Z) (CNum 15000000%Z) "MIR" !! "TYPE"
                 = Some (CStr PURCHASE)) by (vm_compute; reflexivity).
  assert (Hnone : Cases.rates_no_default !! "DEFAULT" = None)
    by (vm_compute; reflexivity).
  destruct (X4_calculate_commission_errors (∅ : gmap string (cell Z)) default_rates)
    as (Hkey & _ & _).
  destruct (X4_calculate_commission_errors Sample.row_jcb default_rates)
    as (_ & Htotal & _).
  destruct (X4_calculate_commission_errors
              (Sample.tx PURCHASE (CNum 1000000000%Z) (CNum 15000000%Z) "MIR")
              Cases.rates_no_default) as (_ & _ & Hzero).
  split_and!;
    [ reflexivity | exact (Hkey eq_refl)
    | exact Htype | exact (Htotal (ex_intro _ _ Htype))
    | exact Hnone | vm_compute; reflexivity
    | exact (Hzero _ Hmir eq_refl (or_intror (or_intror (or_intror Hnone)))) ].
Defined.

Lemma X5_loaded_rates_witness :
  path_exists Cases.world_twice (setup_path Cases.world_twice) = true
  ∧ read_excel Cases.world_twice (setup_path Cases.world_twice) = Ok Cases.setup_twice
  ∧ df_empty Cases.setup_twice = false
  ∧ load_commission_rates Cases.world_twice !! "AMEX" = None
  ∧ load_commission_rates Cases.world_twice !! "DEFAULT" = Some 0%Z
  ∧ load_commission_rates Cases.world_twice !! "MIR" = Some 16000%Z.
Proof.
  assert (Hexists : path_exists Cases.world_twice (setup_path Cases.world_twice) = true)
    by reflexivity.
  assert (Hread : read_excel Cases.world_twice (setup_path Cases.world_twice)
                  = Ok Cases.setup_twice) by reflexivity.
  assert (Hempty : df_empty Cases.setup_twice = false) by reflexivity.
  assert (Hcodes : ∀ row c, row ∈ rows Cases.setup_twice →
            row !! CARD_TYPE_COL = Some c →
            str_upper (str_strip (str c)) = "MIR"
            ∨ str_upper (str_strip (str c)) = "VISA").
  { intros row c Hrow Hc. simpl in Hrow.
    repeat (apply elem_of_cons in Hrow as [-> | Hrow];
            [unfold Sample.rate_row in Hc;
             rewrite lookup_insert_ne, lookup_insert_eq in Hc by done;
             injection Hc as <-; (left; reflexivity) || (right; reflexivity)|]).
    by apply not_elem_of_nil in Hrow. }
  assert (Hparse : ∀ row, row ∈ rows Cases.setup_twice →
            ∃ c v x, row !! CARD_TYPE_COL = Some c ∧ row !! RATE_COL = Some v
                     ∧ float v = Ok x).
  { intros row Hrow. simpl in Hrow.
    repeat (apply elem_of_cons in Hrow as [-> | Hrow];
            [eexists _, _, _; unfold Sample.rate_row; split_and!;
             [ rewrite lookup_insert_ne by done; apply lookup_insert_eq
             | apply lookup_insert_eq | reflexivity ]|]).
    by apply not_elem_of_nil in Hrow. }
  destruct (X5_loaded_rates Cases.world_twice Cases.setup_twice Hexists Hread Hempty Hparse)
    as (Habsent & Hdefault & Hlast).
  split_and!; [exact Hexists | exact Hread | exact Hempty | | |].
  - apply Habsent; [discriminate|].
    intros row c Hrow Hc. by destruct (Hcodes row c Hrow Hc) as [-> | ->].
  - apply Hdefault.
    intros row c Hrow Hc. by destruct (Hcodes row c Hrow Hc) as [-> | ->].
  - apply (Hlast [Sample.rate_row (CStr " mir ") (CStr "0.015");
                  Sample.rate_row (CStr "visa") (CNum 20000%Z)]
                 (Sample.rate_row (CStr "MIR") (CStr "0.016")) []
                 (CStr "MIR") (CStr "0.016") 16000%Z);
      [ reflexivity
      | unfold Sample.rate_row; rewrite lookup_insert_ne by done; apply lookup_insert_eq
      | apply lookup_insert_eq | reflexivity |].
    intros row c Hrow. by apply not_elem_of_nil in Hrow.
Defined.

Lemma X6_annotated_frame_witness :
  annotate Sample.frame_a default_rates = Ok (Sample.annotated Sample.world_a "a.xlsx")
  ∧ length (rows (Sample.annotated Sample.world_a "a.xlsx")) = length (rows Sample.frame_a)
  ∧ columns Sample.frame_a `prefix_of` columns (Sample.annotated Sample.world_a "a.xlsx")
  ∧ frame_wf Sample.frame_a = true
  ∧ frame_wf (Sample.annotated Sample.world_a "a.xlsx") = true.
Proof.
  assert (Hann : annotate Sample.frame_a default_rates
                 = Ok (Sample.annotated Sample.world_a "a.xlsx"))
    by (vm_compute; reflexivity).
  assert (Hwf : frame_wf Sample.frame_a = true) by (vm_compute; reflexivity).
  destruct (X6_annotated_frame Sample.frame_a _ default_rates Hann)
    as (Hlen & _ & Hprefix & _ & Hkeep).
  split_and!; [exact Hann | exact Hlen | exact Hprefix | exact Hwf | exact (Hkeep Hwf)].
Defined.

Lemma X7_annotate_succeeds_iff_witness :
  frame_wf Sample.frame_bad = true
  ∧ Sample.row_text_amount ∈ rows Sample.frame_bad
  ∧ Sample.row_text_amount !! "AMOUNT" = Some (CStr "abc")
  ∧ (¬ ∃ x, convert_amount (CStr "abc" : cell Z) = Ok x)
  ∧ ¬ ∃ df', annotate Sample.frame_bad default_rates = Ok df'.
Proof.
  assert (Hwf : frame_wf Sample.frame_bad = true) by (vm_compute; reflexivity).
  assert (Hrow : Sample.row_text_amount ∈ rows Sample.frame_bad)
    by apply list_elem_of_here.
  assert (Hcell : Sample.row_text_amount !! "AMOUNT" = Some (CStr "abc"))
    by (vm_compute; reflexivity).
  assert (Habc : ¬ ∃ x, convert_amount (CStr "abc" : cell Z) = Ok x)
    by (intros [x Hx]; discriminate Hx).
  split_and!; [exact Hwf | exact Hrow | exact Hcell | exact Habc |].
  intros Hann.
  destruct (proj1 (X7_annotate_succeeds_iff Sample.frame_bad default_rates Hwf) Hann)
    as [_ Hcells].
  exact (Habc (Hcells _ _ Hrow (or_introl Hcell))).
Defined.

Lemma X8_order_of_files_witness :
  [Sample.path_of "a.xlsx"; Sample.path_of "jcb.csv"]
    ≡ₚ [Sample.path_of "jcb.csv"; Sample.path_of "a.xlsx"]
  ∧ rows (fst (process_all Sample.world_two default_rates
                 [Sample.path_of "a.xlsx"; Sample.path_of "jcb.csv"] empty_frame))
    ≡ₚ rows (fst (process_all Sample.world_two default_rates
                    [Sample.path_of "jcb.csv"; Sample.path_of "a.xlsx"] empty_frame))
  ∧ snd (process_all Sample.world_two default_rates
           [Sample.path_of "a.xlsx"; Sample.path_of "jcb.csv"] empty_frame)
    ≡ₚ snd (process_all Sample.world_two default_rates
              [Sample.path_of "jcb.csv"; Sample.path_of "a.xlsx"] empty_frame).
Proof.
  assert (Hswap : [Sample.path_of "a.xlsx"; Sample.path_of "jcb.csv"]
                    ≡ₚ [Sample.path_of "jcb.csv"; Sample.path_of "a.xlsx"])
    by apply perm_swap.
  split; [exact Hswap|].
  exact (X8_order_of_files Sample.world_two default_rates _ _ empty_frame Hswap).
Defined.

Lemma X9_report_rows_sound_witness :
  returned (main Sample.world_a) = Ok (Sample.report Sample.world_a)
  ∧ ∃ row, row ∈ rows (Sample.report Sample.world_a)
      ∧ ∃ p df row0 x,
          p ∈ processed_files Sample.world_a ∧ is_input (basename p) = true
          ∧ dirname p = getcwd Sample.world_a
          ∧ prepare Sample.world_a p (load_commission_rates Sample.world_a) = Ok df
          ∧ row0 ∈ rows df
          ∧ row = stamp Sample.world_a (tag p row0)
          ∧ row !! FILE_COL = Some (CStr (basename p))
          ∧ row !! TIME_COL = Some (CStr (now Sample.world_a))
          ∧ row !! DELTA_COL = Some (CNum x)
          ∧ f_eqb x f_zero = false.
Proof.
  assert (Hret : returned (main Sample.world_a) = Ok (Sample.report Sample.world_a))
    by (vm_compute; reflexivity).
  split; [exact Hret|].
  destruct (rows (Sample.report Sample.world_a)) as [|row l] eqn:Hrows.
  { apply (f_equal length) in Hrows. vm_compute in Hrows. discriminate. }
  assert (Hrow : row ∈ rows (Sample.report Sample.world_a))
    by (rewrite Hrows; apply list_elem_of_here).
  exists row. split; [apply list_elem_of_here|].
  exact (X9_report_rows_sound Sample.world_a _ _ (or_introl Hret) Hrow).
Defined.

Lemma X10_report_labels_witness :
  returned (main Sample.world_a) = Ok (Sample.report Sample.world_a)
  ∧ rows (Sample.report Sample.world_a) ≠ []
  ∧ DELTA_COL ∈ columns (Sample.report Sample.world_a).
Proof.
  assert (Hret : returned (main Sample.world_a) = Ok (Sample.report Sample.world_a))
    by (vm_compute; reflexivity).
  assert (Hrows : rows (Sample.report Sample.world_a) ≠ []).
  { intros Hnil. apply (f_equal length) in Hnil. vm_compute in Hnil. discriminate. }
  split_and!; [exact Hret | exact Hrows |].
  apply (X10_report_labels Sample.world_a _ DELTA_COL (or_introl Hret) Hrows).
  right. right. by left.
Defined.

Lemma X11_outputs_are_not_inputs_witness :
  ∃ path df,
    (path, df) ∈ processed (main Sample.world_a)
    ∧ ∃ p, p ∈ processed_files Sample.world_a
        ∧ path = processed_path p
        ∧ prepare Sample.world_a p (load_commission_rates Sample.world_a) = Ok df
        ∧ dirname path = getcwd Sample.world_a
        ∧ is_input (basename path) = false
        ∧ path ≠ results_path Sample.world_a ∧ path ≠ setup_path Sample.world_a.
Proof.
  destruct (processed (main Sample.world_a)) as [|[path df] l] eqn:Hout.
  { apply (f_equal length) in Hout. vm_compute in Hout. discriminate. }
  assert (Hin : (path, df) ∈ processed (main Sample.world_a))
    by (rewrite Hout; apply list_elem_of_here).
  exists path, df. split; [apply list_elem_of_here|].
  exact (X11_outputs_are_not_inputs Sample.world_a _ _ Hin).
Defined.

Lemma X12_when_the_report_is_written_witness :
  ((∀ df, excel_writer Sample.world_a (results_path Sample.world_a) df = Ok ())
   ∧ Sample.path_of "a.xlsx" ∈ processed_files Sample.world_a
   ∧ contribution Sample.world_a (load_commission_rates Sample.world_a)
       (Sample.path_of "a.xlsx") ≠ []
   ∧ ∃ report, results_xlsx (main Sample.world_a) = Written report)
  ∧ (processed_files Cases.world_stale ≠ []
     ∧ path_exists Cases.world_stale (results_path Cases.world_stale) = true
     ∧ results_xlsx (main Cases.world_stale) ≠ Untouched).
Proof.
  assert (Hwrite : ∀ df, excel_writer Sample.world_a (results_path Sample.world_a) df
                         = Ok ()) by reflexivity.
  assert (Hp : Sample.path_of "a.xlsx" ∈ processed_files Sample.world_a)
    by apply list_elem_of_here.
  assert (Hcontrib : contribution Sample.world_a (load_commission_rates Sample.world_a)
                       (Sample.path_of "a.xlsx") ≠ []).
  { intros Hnil. apply (f_equal length) in Hnil. vm_compute in Hnil. discriminate. }
  assert (Hfiles : processed_files Cases.world_stale ≠ []) by discriminate.
  assert (Hexists : path_exists Cases.world_stale (results_path Cases.world_stale) = true)
    by reflexivity.
  destruct (X12_when_the_report_is_written Sample.world_a) as [Hiff _].
  destruct (X12_when_the_report_is_written Cases.world_stale) as [_ Hclear].
  split_and!;
    [ exact Hwrite | exact Hp | exact Hcontrib
    | exact (proj2 (Hiff Hwrite) (ex_intro _ _ (conj Hp Hcontrib)))
    | exact Hfiles | exact Hexists | exact (Hclear Hfiles Hexists) ].
Defined.

Lemma X13_processed_path_by_base_witness :
  only_dots "a" = false
  ∧ "csv" ∈ ["xlsx"; "xls"; "csv"; "dsv"; "dsvp"]
  ∧ "xlsx" ∈ ["xlsx"; "xls"; "csv"; "dsv"; "dsvp"]
  ∧ Sample.path_of "a.csv" ∈ processed_files Cases.world_pair
  ∧ Sample.path_of "a.xlsx" ∈ processed_files Cases.world_pair
  ∧ processed_path (Sample.path_of "a.csv") = Sample.path_of "a_processed.xlsx"
  ∧ processed_path (Sample.path_of "a.csv") = processed_path (Sample.path_of "a.xlsx").
Proof.
  assert (Hbase : only_dots "a" = false) by reflexivity.
  assert (Hcsv : "csv" ∈ ["xlsx"; "xls"; "csv"; "dsv"; "dsvp"])
    by (do 2 apply list_elem_of_further; apply list_elem_of_here).
  assert (Hxlsx : "xlsx" ∈ ["xlsx"; "xls"; "csv"; "dsv"; "dsvp"])
    by apply list_elem_of_here.
  destruct (X13_processed_path_by_base "/data" "a" "csv" "xlsx" Hbase Hcsv Hxlsx)
    as [Hname Hsame].
  split_and!; [exact Hbase | exact Hcsv | exact Hxlsx | | | exact Hname | exact Hsame].
  - apply list_elem_of_here.
  - apply list_elem_of_further, list_elem_of_here.
Defined.

Lemma X14_legacy_rates_witness :
  Comission_BRS.cell_eqb (CStr "MIR" : cell Z) (CStr "MIR") = true
  ∧ Comission_BRS.dict_lookup
      (Comission_BRS.dict_set Cases.raw_rates (CStr "MIR") (CNum 15000%Z)) (CStr "MIR")
    = Some (CNum 15000%Z)
  ∧ "MIR" ≠ "VISA"
  ∧ Comission_BRS.dict_lookup
      (Comission_BRS.dict_set Cases.raw_rates (CStr "MIR") (CNum 15000%Z)) (CStr "VISA")
    = Comission_BRS.dict_lookup Cases.raw_rates (CStr "VISA")
  ∧ ∃ v, Comission_BRS.dict_getitem
           (Comission_BRS.load_commission_rates Cases.world_twice) (CStr "DEFAULT") = Ok v.
Proof.
  assert (Hrefl : Comission_BRS.cell_eqb (CStr "MIR" : cell Z) (CStr "MIR") = true)
    by reflexivity.
  assert (Hne : "MIR" ≠ "VISA") by discriminate.
  destruct (X14_legacy_rates Cases.world_twice) as (Hset & Hother & Hdefault).
  split_and!;
    [ exact Hrefl | exact (Hset _ _ _ Hrefl) | exact Hne | exact (Hother _ _ _ _ Hne)
    | exact Hdefault ].
Defined.

Lemma X15_scripts_agree_on_clean_frames_witness :
  (∀ k, Comission_BRS.dict_lookup Cases.raw_rates (CStr k)
        = CNum <$> Cases.clean_rates !! k)
  ∧ is_Some (Cases.clean_rates !! "DEFAULT")
  ∧ annotate Cases.frame_clean Cases.clean_rates
    = Comission_BRS.annotate Cases.frame_clean Cases.raw_rates
  ∧ ∃ df', annotate Cases.frame_clean Cases.clean_rates = Ok df'.
Proof.
  assert (Htable : ∀ k, Comission_BRS.dict_lookup Cases.raw_rates (CStr k)
                        = CNum <$> Cases.clean_rates !! k)
    by (intros k; apply raw_table_lookup).
  assert (Hd : is_Some (Cases.clean_rates !! "DEFAULT"))
    by (exists 0%Z; vm_compute; reflexivity).
  assert (Hclean : ∀ row, row ∈ rows Cases.frame_clean →
            ∃ a c code, row !! "AMOUNT" = Some (CNum a)
                        ∧ row !! "COMMISSION" = Some (CNum c)
                        ∧ row !! "PMT_SYSTEM_CODE" = Some (CStr code)
                        ∧ str_upper (str_strip code) = code).
  { intros row Hrow. simpl in Hrow.
    repeat (apply elem_of_cons in Hrow as [-> | Hrow];
            [eexists _, _, _; split_and!; vm_compute; reflexivity|]).
    by apply not_elem_of_nil in Hrow. }
  split_and!; [exact Htable | exact Hd | | eexists; vm_compute; reflexivity].
  exact (X15_scripts_agree_on_clean_frames Cases.frame_clean Cases.clean_rates
           Cases.raw_rates Htable Hd Hclean).
Defined.

Lemma X16_legacy_calculate_commission_errors_witness :
  Sample.row_text_amount !! "TYPE" = Some (CStr PURCHASE)
  ∧ Sample.row_text_amount !! "PMT_SYSTEM_CODE" = Some (CStr "MIR")
  ∧ Sample.row_text_amount !! "AMOUNT" = Some (CStr "abc")
  ∧ Comission_BRS.dict_lookup Cases.raw_rates (CStr "DEFAULT") = Some (CNum 0%Z)
  ∧ Comission_BRS.calculate_commission Sample.row_text_amount Cases.raw_rates
    = Raise TypeError
  ∧ Sample.row_text_amount ∈ rows Sample.frame_bad
  ∧ raises (Comission_BRS.annotate Sample.frame_bad Cases.raw_rates).
Proof.
  assert (Ht : Sample.row_text_amount !! "TYPE" = Some (CStr PURCHASE))
    by (vm_compute; reflexivity).
  assert (Hcode : Sample.row_text_amount !! "PMT_SYSTEM_CODE" = Some (CStr "MIR"))
    by (vm_compute; reflexivity).
  assert (Ha : Sample.row_text_amount !! "AMOUNT" = Some (CStr "abc"))
    by (vm_compute; reflexivity).
  assert (Hd : Comission_BRS.dict_lookup Cases.raw_rates (CStr "DEFAULT")
               = Some (CNum 0%Z)) by reflexivity.
  assert (Hrow : Sample.row_text_amount ∈ rows Sample.frame_bad)
    by apply list_elem_of_here.
  destruct (X16_legacy_calculate_commission_errors Sample.row_text_amount
              Cases.raw_rates _ Ht) as (_ & _ & Htype & Hfile).
  pose proof (Htype eq_refl _ _ _ Hcode Ha Hd) as Herr. simpl in Herr.
  split_and!; [exact Ht | exact Hcode | exact Ha | exact Hd | exact Herr | exact Hrow |].
  apply (Hfile _ Hrow). exists TypeError. exact Herr.
Defined.

Lemma X17_labels_are_distinct_witness :
  (∀ p r, read_file_with_encoding Sample.world_a p = Ok r → NoDup (columns (fst r)))
  ∧ returned (main Sample.world_a) = Ok (Sample.report Sample.world_a)
  ∧ NoDup (columns (Sample.report Sample.world_a)).
Proof.
  assert (Hread : ∀ p r, read_file_with_encoding Sample.world_a p = Ok r →
                         NoDup (columns (fst r))).
  { assert (Hnd : NoDup (columns Sample.frame_a)).
    { apply NoDup_ListNoDup. repeat constructor; simpl; intuition discriminate. }
    assert (Hfind : ∀ name df,
              Sample.find_file [("a.xlsx", Sample.frame_a)] name = Ok df →
              df = Sample.frame_a).
    { intros name df. unfold Sample.find_file.
      destruct (String.eqb "a.xlsx" name); [by intros [= <-] | done]. }
    assert (Hcsv : ∀ p enc df, read_csv Sample.world_a p enc = Ok df →
                               df = Sample.frame_a)
      by (intros p enc df; apply Hfind).
    assert (Hxl : ∀ p df, read_excel Sample.world_a p = Ok df → df = Sample.frame_a).
    { intros p df.
      change (read_excel Sample.world_a p)
        with (if String.eqb (basename p) "setup.xlsx"
              then (Raise FileNotFoundError : result (DataFrame Z))
              else Sample.find_file [("a.xlsx", Sample.frame_a)] (basename p)).
      destruct (String.eqb (basename p) "setup.xlsx"); [done | apply Hfind]. }
    intros p r. unfold read_file_with_encoding.
    destruct (is_delimited (basename p)).
    - destruct (read_csv Sample.world_a p (Some "utf-8")) as [df|[]] eqn:H1;
        try discriminate.
      { intros [= <-]. by rewrite (Hcsv _ _ _ H1). }
      destruct (read_csv Sample.world_a p (Some "windows-1251")) as [df|[]] eqn:H2;
        try discriminate.
      { intros [= <-]. by rewrite (Hcsv _ _ _ H2). }
      destruct (detect_encoding Sample.world_a p) as [enc|]; [|discriminate].
      unfold bind.
      destruct (read_csv Sample.world_a p enc) as [df|] eqn:H3; [|discriminate].
      intros [= <-]. by rewrite (Hcsv _ _ _ H3).
    - destruct (read_excel Sample.world_a p) as [df|] eqn:H1; [|discriminate].
      unfold bind. intros [= <-]. by rewrite (Hxl _ _ H1). }
  assert (Hret : returned (main Sample.world_a) = Ok (Sample.report Sample.world_a))
    by (vm_compute; reflexivity).
  destruct (X17_labels_are_distinct Sample.world_a Hread) as [_ Hreport].
  split_and!; [exact Hread | exact Hret | exact (Hreport _ (or_introl Hret))].
Defined.
